(** * Unify-Data: [main.py] over a Python store

    [main.py] converts JSON records between a nested and a flattened form.
    Its two converters, [convert_nested_to_unified] and
    [convert_flattened_to_unified], are embedded here as computations over an
    explicit store of Python objects: lists and dicts live in the store and
    are passed by reference, the other values (None, bool, int, float, str)
    are immutable and are carried as such.  Exceptions are results of the
    computation.  The functions around the converters
    ([load_and_display_json], [analyze_structure], [test_conversions],
    [compare_data_formats]) read files and print: they are computations
    over the store and the list of what has been printed.

    Modelling choices, stated once:
    - a [str] is a [string] whose characters are the code points U+0000 to
      U+00FF; [lower], [split], [int] and [repr] follow CPython on that
      range;
    - dict keys are strings (every dict read from a JSON document is such);
      a dict is a finite map: the order of its keys plays no role in
      equality of dicts, and none in the converters; where the script
      prints the keys of a dict, or goes through them to compare two dicts,
      the order in which the dict holds its keys is a parameter, [order];
    - equality of records is equality of their documents: same shape, same
      scalars; Python's [==], which the script uses once it has converted,
      is [py_eq];
    - a float is carried as its 64-bit pattern, which the converters never
      inspect; a float has no identity of its own;
    - [json.dumps] and [json.loads] go through documents, the text between
      them is not modelled; the order in which [json.loads] makes the
      objects of a document is the model's own;
    - what is in a file is a parameter, [fs]: no file, a text that is no
      JSON, or the text of a document; the other ways in which [open] may
      fail are not modelled;
    - each call of [print] adds one entry to the output: the string
      printed, or the document whose text [json.dumps(data, indent=2)] is;
    - a store is a list of objects, an address is a position in it; in the
      stores of a program every reference is to an object of the store
      ([closed]);
    - the interpreter's limits (recursion depth, digits of an [int] literal,
      memory) are not modelled. *)

From Stdlib Require Import ZArith NArith String Ascii List Lia.
From Stdlib Require Import Decimal DecimalString DecimalPos.
From stdpp Require Import gmap strings list fin_maps.

Open Scope string_scope.
Open Scope nat_scope.
Open Scope list_scope.
Open Scope stdpp_scope.

(** ** Built-in string methods used by the converters *)

Module PyStr.

Definition code (c : ascii) : N := N_of_ascii c.

(** Characters that [str.lower] changes, below U+0100: A-Z and the Latin-1
    capitals U+00C0..U+00DE without the multiplication sign U+00D7. *)
Definition is_upper (c : ascii) : bool :=
  ((65 <=? code c) && (code c <=? 90) ||
   (192 <=? code c) && (code c <=? 222) && negb (code c =? 215))%N.

Definition chr_lower (c : ascii) : ascii :=
  if is_upper c then ascii_of_N (code c + 32) else c.

(** [s.lower()] *)
Fixpoint lower (s : string) : string :=
  match s with
  | "" => ""
  | String c s' => String (chr_lower c) (lower s')
  end.

(** [s.split(sep)] for a separator of one character: one more part than
    there are separators, never an empty list. *)
Fixpoint split (sep : ascii) (s : string) : list string :=
  match s with
  | "" => [""]
  | String c s' =>
      if Ascii.eqb c sep then "" :: split sep s'
      else match split sep s' with
           | p :: ps => String c p :: ps
           | [] => [String c ""]
           end
  end.

(** White space that [int] skips at both ends: tab, LF, VT, FF, CR, space,
    and the two Latin-1 spaces U+0085 and U+00A0. *)
Definition is_space (c : ascii) : bool :=
  ((9 <=? code c) && (code c <=? 13) || (code c =? 32) ||
   (code c =? 133) || (code c =? 160))%N.

Definition digit_of (c : ascii) : option Z :=
  if ((48 <=? code c) && (code c <=? 57))%N
  then Some (Z.of_N (code c - 48)) else None.

Fixpoint lstrip (s : string) : string :=
  match s with
  | "" => ""
  | String c s' => if is_space c then lstrip s' else s
  end.

Fixpoint all_space (s : string) : bool :=
  match s with
  | "" => true
  | String c s' => is_space c && all_space s'
  end.

(** The digits after the first one: a digit, or one underscore followed by
    a digit.  Returns the number read and what is left of the string. *)
Fixpoint digits (acc : Z) (s : string) : option (Z * string) :=
  match s with
  | "" => Some (acc, "")
  | String c s' =>
      match digit_of c with
      | Some d => digits (10 * acc + d) s'
      | None =>
          if Ascii.eqb c "_" then
            match s' with
            | "" => None
            | String c2 s'' =>
                match digit_of c2 with
                | Some d => digits (10 * acc + d) s''
                | None => None
                end
            end
          else Some (acc, s)
      end
  end.

Definition unsigned (s : string) : option Z :=
  match s with
  | "" => None
  | String c s' =>
      match digit_of c with
      | None => None
      | Some d =>
          match digits d s' with
          | Some (n, rest) => if all_space rest then Some n else None
          | None => None
          end
      end
  end.

(** [int(s)] in base 10; [None] stands for the ValueError that [int] raises
    on a string that is not an integer literal. *)
Definition int (s : string) : option Z :=
  match lstrip s with
  | String "+" r => unsigned r
  | String "-" r => Z.opp <$> unsigned r
  | r => unsigned r
  end.

End PyStr.

(** ** Python values and the store *)

Abbreviation addr := nat.

(** A value as a variable or a container slot holds it: an immutable scalar,
    or a reference to a container in the store. *)
Inductive pyval :=
  | PNone
  | PBool (b : bool)
  | PInt (z : Z)
  | PFloat (bits : N)
  | PStr (s : string)
  | PRef (a : addr).

Inductive pyobj :=
  | PList (l : list pyval)
  | PDict (d : gmap string pyval).

(** The store: object number [a] is [h !! a]; a new object goes to the end,
    so its address is the length of the store before. *)
Abbreviation heap := (list pyobj).

Global Instance pyval_eq_dec : EqDecision pyval.
Proof. solve_decision. Defined.

(** The exceptions that the operations below raise.  [ValueError] is what
    [int] raises on a string that is no integer (the FormatError of the
    spec) and what [json.dumps] raises on a circular reference. *)
Inductive exn :=
  | ValueError
  | AttributeError
  | TypeError
  | KeyError
  | RecursionError.

Global Instance exn_eq_dec : EqDecision exn.
Proof. solve_decision. Defined.

Inductive result (A : Type) :=
  | Ok (x : A)
  | Raise (e : exn).
Arguments Ok {A} x.
Arguments Raise {A} e.

Global Instance result_ret : MRet result := λ A x, Ok x.
Global Instance result_bind : MBind result := λ A B f r,
  match r with Ok x => f x | Raise e => Raise e end.
Global Instance result_fmap : FMap result := λ A B f r,
  match r with Ok x => Ok (f x) | Raise e => Raise e end.

(** A computation reads and writes the store and returns or raises. *)
Definition M (A : Type) : Type := heap → result A * heap.

Global Instance M_ret : MRet M := λ A x h, (Ok x, h).
Global Instance M_bind : MBind M := λ A B f c h,
  match c h with
  | (Ok x, h') => f x h'
  | (Raise e, h') => (Raise e, h')
  end.

Definition raise {A} (e : exn) : M A := λ h, (Raise e, h).
Definition lift {A} (r : result A) : M A := λ h, (r, h).

Fixpoint for_each {A} (l : list A) (body : A → M unit) : M unit :=
  match l with
  | [] => mret tt
  | x :: l' => body x;; for_each l' body
  end.

(** *** Operations on objects *)

(** A container display [{...}] or [[...]]: a new object. *)
Definition alloc (o : pyobj) : M pyval := λ h, (Ok (PRef (length h)), h ++ [o]).

Definition isinstance_dict (v : pyval) : M bool := λ h,
  (Ok match v with
      | PRef a => match h !! a with Some (PDict _) => true | _ => false end
      | _ => false
      end, h).

Definition isinstance_list (v : pyval) : M bool := λ h,
  (Ok match v with
      | PRef a => match h !! a with Some (PList _) => true | _ => false end
      | _ => false
      end, h).

Definition is_substring (k s : string) : bool :=
  match String.index 0 k s with Some _ => true | None => false end.

(** [k in v] for a string [k]: a key of a dict, an element of a list, a
    substring of a str; no other value is a container. *)
Definition contains (k : string) (v : pyval) : M bool := λ h,
  match v with
  | PRef a =>
      match h !! a with
      | Some (PDict d) => (Ok (bool_decide (is_Some (d !! k))), h)
      | Some (PList l) => (Ok (bool_decide (PStr k ∈ l)), h)
      | None => (Raise TypeError, h)
      end
  | PStr s => (Ok (is_substring k s), h)
  | _ => (Raise TypeError, h)
  end.

(** [v[k]] for a string [k]. *)
Definition getitem (v : pyval) (k : string) : M pyval := λ h,
  match v with
  | PRef a =>
      match h !! a with
      | Some (PDict d) =>
          match d !! k with
          | Some x => (Ok x, h)
          | None => (Raise KeyError, h)
          end
      | _ => (Raise TypeError, h)
      end
  | _ => (Raise TypeError, h)
  end.

(** [v.get(k, default)]; only a dict has the method. *)
Definition get (v : pyval) (k : string) (dflt : pyval) : M pyval := λ h,
  match v with
  | PRef a =>
      match h !! a with
      | Some (PDict d) => (Ok (default dflt (d !! k)), h)
      | _ => (Raise AttributeError, h)
      end
  | _ => (Raise AttributeError, h)
  end.

(** [v[k] = x] for a string [k]. *)
Definition setitem (v : pyval) (k : string) (x : pyval) : M unit := λ h,
  match v with
  | PRef a =>
      match h !! a with
      | Some (PDict d) => (Ok tt, <[a := PDict (<[k := x]> d)]> h)
      | _ => (Raise TypeError, h)
      end
  | _ => (Raise TypeError, h)
  end.

(** [v.append(x)]; only a list has the method. *)
Definition append (v : pyval) (x : pyval) : M unit := λ h,
  match v with
  | PRef a =>
      match h !! a with
      | Some (PList l) => (Ok tt, <[a := PList (l ++ [x])]> h)
      | _ => (Raise AttributeError, h)
      end
  | _ => (Raise AttributeError, h)
  end.

(** The elements a [for] loop over the list [v] visits.  The loop of the
    converter runs only on a list and never writes to the list it reads,
    so the elements are those present when the loop starts. *)
Definition elements (v : pyval) : M (list pyval) := λ h,
  match v with
  | PRef a =>
      match h !! a with
      | Some (PList l) => (Ok l, h)
      | _ => (Raise TypeError, h)
      end
  | _ => (Raise TypeError, h)
  end.

(** [v.split(sep)]; only a str has the method. *)
Definition split (v : pyval) (sep : ascii) : M (list string) :=
  match v with
  | PStr s => mret (PyStr.split sep s)
  | _ => raise AttributeError
  end.

(** [int(s)] on a str. *)
Definition int (s : string) : M Z :=
  match PyStr.int s with
  | Some z => mret z
  | None => raise ValueError
  end.

(** ** The [json] module: documents, [dumps] and [loads]

    A document is what [json.dumps] writes and [json.loads] reads, taken
    after parsing: the text itself is not modelled. *)

#[warnings="-register-all"]
Inductive json :=
  | JNull
  | JBool (b : bool)
  | JInt (z : Z)
  | JFloat (bits : N)
  | JStr (s : string)
  | JArr (l : list json)
  | JObj (m : gmap string json).

Definition map_mapM {A B} (f : A → result B) (m : gmap string A)
    : result (gmap string B) :=
  map_fold (λ k x acc, m' ← acc; y ← f x; mret (<[k := y]> m')) (mret ∅) m.

(** The encoder keeps the containers it is inside of in [markers] and
    raises ValueError (circular reference) when it meets one of them again.
    A reference to no list and no dict stands for an object of a type the
    encoder does not know. *)
Fixpoint encode (fuel : nat) (h : heap) (markers : list addr) (v : pyval)
    : result json :=
  match v with
  | PNone => Ok JNull
  | PBool b => Ok (JBool b)
  | PInt z => Ok (JInt z)
  | PFloat x => Ok (JFloat x)
  | PStr s => Ok (JStr s)
  | PRef a =>
      match h !! a with
      | None => Raise TypeError
      | Some o =>
          if decide (a ∈ markers) then Raise ValueError
          else
            match fuel with
            | 0 => Raise RecursionError
            | S fuel' =>
                match o with
                | PList l => JArr <$> mapM (encode fuel' h (a :: markers)) l
                | PDict d => JObj <$> map_mapM (encode fuel' h (a :: markers)) d
                end
            end
      end
  end.

(** [json.dumps(v)].  A path without a repeated container is no longer than
    the store, so this much fuel never runs out (lemma [json_dumps_fuel]). *)
Definition json_dumps (v : pyval) : M json := λ h,
  (encode (length h) h [] v, h).

Definition load_list (load : json → heap → pyval * heap)
    : list json → heap → list pyval * heap :=
  fix go l h :=
    match l with
    | [] => ([], h)
    | t :: l' =>
        let '(v, h1) := load t h in
        let '(vs, h2) := go l' h1 in
        (v :: vs, h2)
    end.

Definition load_pair (load : json → heap → pyval * heap)
    (k : string) (t : json) (acc : gmap string pyval * heap)
    : gmap string pyval * heap :=
  let '(v, h1) := load t acc.2 in (<[k := v]> acc.1, h1).

(** The decoder builds every array and every object as a new list or dict,
    after the values inside it. *)
Fixpoint load (t : json) (h : heap) : pyval * heap :=
  match t with
  | JNull => (PNone, h)
  | JBool b => (PBool b, h)
  | JInt z => (PInt z, h)
  | JFloat x => (PFloat x, h)
  | JStr s => (PStr s, h)
  | JArr l =>
      let '(vs, h1) := load_list load l h in
      (PRef (length h1), h1 ++ [PList vs])
  | JObj m =>
      let '(d, h1) := map_fold (load_pair load) (∅, h) m in
      (PRef (length h1), h1 ++ [PDict d])
  end.

(** [json.loads(text)] *)
Definition json_loads (t : json) : M pyval := λ h,
  let '(v, h') := load t h in (Ok v, h').

(** ** The converters *)

(** [convert_nested_to_unified], main.py lines 41-55. *)
Definition convert_nested_to_unified (nested_data : pyval) : M pyval :=
  text ← json_dumps nested_data;
  unified_data ← json_loads text;
  has_metadata ← contains "metadata" unified_data;
  is_mapping ← (if has_metadata : bool
                then metadata ← getitem unified_data "metadata";
                     isinstance_dict metadata
                else mret false);
  (if is_mapping : bool
   then metadata ← getitem unified_data "metadata";
        setitem metadata "format" (PStr "unified")
   else mret tt);;
  mret unified_data.

(** The body of the loop of [convert_flattened_to_unified], lines 88-96. *)
Definition convert_item (unified_data item_str : pyval) : M unit :=
  parts ← split item_str ":";
  match parts with
  | [p0; p1; p2] =>
      id ← int p0;
      item_obj ← alloc (PDict
        {[ "id" := PInt id;
           "title" := PStr p1;
           "active" := PBool (String.eqb (PyStr.lower p2) "true") ]});
      items ← getitem unified_data "items";
      append items item_obj
  | _ => mret tt
  end.

(** [convert_flattened_to_unified], main.py lines 58-98. *)
Definition convert_flattened_to_unified (flattened_data : pyval) : M pyval :=
  unified_data ← alloc (PDict ∅);
  message ← get flattened_data "message" (PStr "");
  setitem unified_data "message" message;;
  timestamp ← get flattened_data "timestamp" (PStr "");
  setitem unified_data "timestamp" timestamp;;
  user_id ← get flattened_data "user_id" PNone;
  user_name ← get flattened_data "user_name" (PStr "");
  user_email ← get flattened_data "user_email" (PStr "");
  user ← alloc (PDict {[ "id" := user_id;
                         "name" := user_name;
                         "email" := user_email ]});
  setitem unified_data "user" user;;
  metadata_version ← get flattened_data "metadata_version" (PStr "");
  metadata_encoding ← get flattened_data "metadata_encoding" (PStr "");
  metadata ← alloc (PDict {[ "version" := metadata_version;
                             "format" := PStr "unified";
                             "encoding" := metadata_encoding ]});
  setitem unified_data "metadata" metadata;;
  items ← alloc (PList []);
  setitem unified_data "items" items;;
  has_items ← contains "items" flattened_data;
  is_list ← (if has_items : bool
             then src ← getitem flattened_data "items"; isinstance_list src
             else mret false);
  (if is_list : bool
   then src ← getitem flattened_data "items";
        item_strs ← elements src;
        for_each item_strs (convert_item unified_data)
   else mret tt);;
  mret unified_data.

(** ** Reading the store as documents

    [repr h P v t]: in the store [h] the value [v] is the document [t], and
    every list and dict that [v] reaches has an address in [P]. *)

Fixpoint jsize (t : json) : nat :=
  match t with
  | JArr l => S (foldr (λ x n, jsize x + n) 0 l)
  | JObj m => S (map_fold (λ _ x n, jsize x + n) 0 m)
  | _ => 1
  end.

#[warnings="-register-all"]
Inductive repr (h : heap) (P : addr → Prop) : pyval → json → Prop :=
  | repr_none : repr h P PNone JNull
  | repr_bool b : repr h P (PBool b) (JBool b)
  | repr_int z : repr h P (PInt z) (JInt z)
  | repr_float x : repr h P (PFloat x) (JFloat x)
  | repr_str s : repr h P (PStr s) (JStr s)
  | repr_list a vs ts :
      P a → h !! a = Some (PList vs) →
      Forall2 (repr h P) vs ts →
      repr h P (PRef a) (JArr ts)
  | repr_dict a d m :
      P a → h !! a = Some (PDict d) →
      map_Forall2 (λ _, repr h P) d m →
      repr h P (PRef a) (JObj m).

(** Addresses from [lo] up to [hi], [hi] excluded. *)
Definition within (lo hi : nat) (a : addr) : Prop := lo ≤ a < hi.

(** What [load] promises for one document: the store only grows, and the
    value is built from the new objects alone. *)
Definition load_ok (t : json) : Prop :=
  ∀ h v h', load t h = (v, h') →
    ∃ news, h' = h ++ news ∧ repr h' (within (length h) (length h')) v t.

(** The fields of an object are loaded one after the other, each into a
    range [rng k] of new addresses of its own. *)
Definition fields_at (h0 h1 : heap) (rng : string → nat * nat)
    (d : gmap string pyval) (m : gmap string json) : Prop :=
  (∀ k, m !! k = None → d !! k = None) ∧
  (∀ k t, m !! k = Some t →
     ∃ v, d !! k = Some v ∧
       length h0 ≤ (rng k).1 ∧ (rng k).2 ≤ length h1 ∧
       repr h1 (within (rng k).1 (rng k).2) v t) ∧
  (∀ k1 k2, k1 ≠ k2 → is_Some (m !! k1) → is_Some (m !! k2) →
     (rng k1).2 ≤ (rng k2).1 ∨ (rng k2).2 ≤ (rng k1).1).

(** ** What the spec says of the nested converter

    Section 4.1, on documents: the input, in which [metadata.format] is set
    to ["unified"] when [metadata] is an object, and nothing else changes. *)
Definition spec_nested_to_unified (m : gmap string json) : json :=
  match m !! "metadata" with
  | Some (JObj md) =>
      JObj (<["metadata" := JObj (<["format" := JStr "unified"]> md)]> m)
  | _ => JObj m
  end.

(** ** Closed stores *)

(** A store is closed when every reference in it is to one of its objects,
    as in every store of a running program. *)
Definition val_closed (n : nat) (v : pyval) : Prop :=
  match v with PRef a => a < n | _ => True end.

Definition obj_closed (n : nat) (o : pyobj) : Prop :=
  match o with
  | PList l => Forall (val_closed n) l
  | PDict d => map_Forall (λ _, val_closed n) d
  end.

Definition closed (h : heap) : Prop := Forall (obj_closed (length h)) h.

Global Instance val_closed_dec n v : Decision (val_closed n v).
Proof. destruct v; simpl; apply _. Defined.
Global Instance obj_closed_dec n o : Decision (obj_closed n o).
Proof. destruct o; simpl; apply _. Defined.
Global Instance closed_dec h : Decision (closed h).
Proof. unfold closed. apply _. Defined.

(** ** The objects the flattened converter builds

    Read off [convert_flattened_to_unified] for an input dict [d] in a store
    of [n] objects: the new dict is object [n], its [user], [metadata] and
    [items] are the objects [n + 1], [n + 2] and [n + 3], and the items
    follow. *)

(** Lines 89-95 on one element: the item dict to append, or nothing to
    append, or the exception. *)
Definition parse_item (item_str : pyval)
    : result (option (gmap string pyval)) :=
  match item_str with
  | PStr s =>
      match PyStr.split ":" s with
      | [p0; p1; p2] =>
          match PyStr.int p0 with
          | Some id =>
              Ok (Some
                {[ "id" := PInt id;
                   "title" := PStr p1;
                   "active" := PBool (String.eqb (PyStr.lower p2) "true") ]})
          | None => Raise ValueError
          end
      | _ => Ok None
      end
  | _ => Raise AttributeError
  end.

(** The loop on a list: the item dicts appended before it stops, and the
    exception that stops it, if any. *)
Fixpoint parse_items (l : list pyval) : list (gmap string pyval) * option exn :=
  match l with
  | [] => ([], None)
  | x :: l' =>
      match parse_item x with
      | Raise e => ([], Some e)
      | Ok o =>
          let '(ds, r) := parse_items l' in
          (match o with Some d => d :: ds | None => ds end, r)
      end
  end.

(** The list the loop runs on: [flattened_data['items']] when the key is
    there and holds a list, no element otherwise (line 86). *)
Definition source_items (h : heap) (d : gmap string pyval) : list pyval :=
  match d !! "items" with
  | Some (PRef b) => match h !! b with Some (PList l) => l | _ => [] end
  | _ => []
  end.

Definition unified_header (d : gmap string pyval) (n : nat)
    : gmap string pyval :=
  <["items" := PRef (n + 3)]>
    (<["metadata" := PRef (n + 2)]>
       (<["user" := PRef (n + 1)]>
          (<["timestamp" := default (PStr "") (d !! "timestamp")]>
             (<["message" := default (PStr "") (d !! "message")]> ∅)))).

Definition unified_user (d : gmap string pyval) : gmap string pyval :=
  {[ "id" := default PNone (d !! "user_id");
     "name" := default (PStr "") (d !! "user_name");
     "email" := default (PStr "") (d !! "user_email") ]}.

Definition unified_metadata (d : gmap string pyval) : gmap string pyval :=
  {[ "version" := default (PStr "") (d !! "metadata_version");
     "format" := PStr "unified";
     "encoding" := default (PStr "") (d !! "metadata_encoding") ]}.

Definition unified_objects (h : heap) (d : gmap string pyval) : list pyobj :=
  let n := length h in
  let ds := (parse_items (source_items h d)).1 in
  [ PDict (unified_header d n); PDict (unified_user d);
    PDict (unified_metadata d);
    PList (PRef <$> seq (n + 4) (length ds)) ] ++ (PDict <$> ds).

Definition unified_result (h : heap) (d : gmap string pyval) : result pyval :=
  match (parse_items (source_items h d)).2 with
  | None => Ok (PRef (length h))
  | Some e => Raise e
  end.

(** ** Documents in, documents out *)

(** The way [test_conversions] uses a converter: the record is read from a
    document ([json.load]), converted, and the result is written out
    ([json.dumps]).  The run starts on an empty store. *)
Definition on_document (convert : pyval → M pyval) (t : json) : result json :=
  ((r ← json_loads t; out ← convert r; json_dumps out) []).1.

(** The document of an immutable value. *)
Definition doc_of (v : pyval) : json :=
  match v with
  | PNone => JNull
  | PBool b => JBool b
  | PInt z => JInt z
  | PFloat x => JFloat x
  | PStr s => JStr s
  | PRef _ => JNull
  end.

Definition immutable (v : pyval) : Prop :=
  match v with PRef _ => False | _ => True end.

Definition is_str (v : pyval) : Prop :=
  match v with PStr _ => True | _ => False end.

Global Instance immutable_dec v : Decision (immutable v).
Proof. destruct v; simpl; apply _. Defined.
Global Instance is_str_dec v : Decision (is_str v).
Proof. destruct v; simpl; apply _. Defined.

(** The keys that [convert_flattened_to_unified] reads with [get]. *)
Definition scalar_keys : list string :=
  [ "message"; "timestamp"; "user_id"; "user_name"; "user_email";
    "metadata_version"; "metadata_encoding" ].

(** All the keys it reads. *)
Definition input_keys : list string := scalar_keys ++ ["items"].

(** The document of [flattened_data.get(k, dflt)]. *)
Definition field_doc (h : heap) (d : gmap string pyval) (k : string)
    (dflt : pyval) : json :=
  match (json_dumps (default dflt (d !! k)) h).1 with
  | Ok t => t
  | Raise _ => JNull
  end.

Definition item_doc (it : gmap string pyval) : json := JObj (doc_of <$> it).

(** The document of the record that [convert_flattened_to_unified] returns
    for the input dict [d]. *)
Definition unified_doc (h : heap) (d : gmap string pyval) : json :=
  JObj
    (<["items" := JArr (item_doc <$> (parse_items (source_items h d)).1)]>
      (<["metadata" :=
           JObj
             {[ "version" := field_doc h d "metadata_version" (PStr "");
                "format" := JStr "unified";
                "encoding" := field_doc h d "metadata_encoding" (PStr "") ]}]>
        (<["user" :=
             JObj {[ "id" := field_doc h d "user_id" PNone;
                     "name" := field_doc h d "user_name" (PStr "");
                     "email" := field_doc h d "user_email" (PStr "") ]}]>
          (<["timestamp" := field_doc h d "timestamp" (PStr "")]>
            (<["message" := field_doc h d "message" (PStr "")]> ∅))))).

(** Two records agree on the key [k]: it is absent in both, or its values
    are the same document. *)
Definition same_field (h1 : heap) (d1 : gmap string pyval)
    (h2 : heap) (d2 : gmap string pyval) (k : string) : Prop :=
  match d1 !! k, d2 !! k with
  | None, None => True
  | Some v1, Some v2 =>
      ∃ t, (json_dumps v1 h1).1 = Ok t ∧ (json_dumps v2 h2).1 = Ok t
  | _, _ => False
  end.

(** Two calls end the same way: with the same exception, or with outputs
    that are the same document. *)
Definition same_outcome (c1 c2 : result pyval * heap) : Prop :=
  match c1.1, c2.1 with
  | Ok out1, Ok out2 =>
      ∃ t, (json_dumps out1 c1.2).1 = Ok t ∧ (json_dumps out2 c2.2).1 = Ok t
  | Raise e1, Raise e2 => e1 = e2
  | _, _ => False
  end.

(** [r] and [out] share no container, in a store [h ++ news] where [r] was
    there before the call and [news] are the objects the call made:
    whatever is written to the new objects, [r] is the same document, and
    whatever is written to the old objects, [out] is the same document. *)
Definition separate (h news : heap) (r out : pyval) : Prop :=
  (∃ t, ∀ news', (json_dumps r (h ++ news')).1 = Ok t) ∧
  (∃ t, ∀ h0, length h0 = length h → (json_dumps out (h0 ++ news)).1 = Ok t).

(** ** The scenarios of the spec *)

Definition flattened_example : json :=
  JObj {[ "message" := JStr "hi";
          "timestamp" := JStr "t1";
          "user_id" := JInt 5;
          "user_name" := JStr "Ann";
          "user_email" := JStr "a@x.com";
          "metadata_version" := JStr "1.0";
          "metadata_encoding" := JStr "utf8";
          "items" := JArr [JStr "1:Task A:true"; JStr "2:Task B:false"] ]}.

Definition unified_example : json :=
  JObj {[ "message" := JStr "hi";
          "timestamp" := JStr "t1";
          "user" := JObj {[ "id" := JInt 5;
                            "name" := JStr "Ann";
                            "email" := JStr "a@x.com" ]};
          "metadata" := JObj {[ "version" := JStr "1.0";
                                "format" := JStr "unified";
                                "encoding" := JStr "utf8" ]};
          "items" := JArr [ JObj {[ "id" := JInt 1;
                                    "title" := JStr "Task A";
                                    "active" := JBool true ]};
                            JObj {[ "id" := JInt 2;
                                    "title" := JStr "Task B";
                                    "active" := JBool false ]} ] ]}.

(** The output for a record without any of the seven [get] keys and with
    the given items. *)
Definition unified_defaults (items : list json) : json :=
  JObj {[ "message" := JStr "";
          "timestamp" := JStr "";
          "user" := JObj {[ "id" := JNull;
                            "name" := JStr "";
                            "email" := JStr "" ]};
          "metadata" := JObj {[ "version" := JStr "";
                                "format" := JStr "unified";
                                "encoding" := JStr "" ]};
          "items" := JArr items ]}.

(** A flattened record with nothing but [items]. *)
Definition only_items (items : list json) : json :=
  JObj {[ "items" := JArr items ]}.

(** A nested record in a store, and its document. *)
Definition nested_store : heap :=
  [ PDict {[ "version" := PStr "1.0"; "format" := PStr "nested" ]};
    PList [PInt 1; PInt 2];
    PDict {[ "message" := PStr "hi";
             "metadata" := PRef 0;
             "items" := PRef 1 ]} ].

Definition nested_doc : gmap string json :=
  {[ "message" := JStr "hi";
     "metadata" := JObj {[ "version" := JStr "1.0";
                           "format" := JStr "nested" ]};
     "items" := JArr [JInt 1; JInt 2] ]}.

(** A flattened record whose [user_id] is a list: the record is read, its
    document is taken, it is converted, [output['user']['id'].append(2)] is
    run on the result, and the document of the record is taken again. *)
Definition shared_id_scenario : M (json * json) :=
  r ← json_loads (JObj {[ "user_id" := JArr [JInt 1] ]});
  before ← json_dumps r;
  out ← convert_flattened_to_unified r;
  user ← getitem out "user";
  id ← getitem user "id";
  append id (PInt 2);;
  after ← json_dumps r;
  mret (before, after).

(** The same record in a store, as [json.loads] makes it. *)
Definition shared_id_store : heap :=
  [ PList [PInt 1]; PDict {[ "user_id" := PRef 0 ]} ].

(** The flattened record of the spec's scenario in a store. *)
Definition flattened_store : heap :=
  [ PList [PStr "1:Task A:true"; PStr "2:Task B:false"];
    PDict {[ "message" := PStr "hi";
             "timestamp" := PStr "t1";
             "user_id" := PInt 5;
             "user_name" := PStr "Ann";
             "user_email" := PStr "a@x.com";
             "metadata_version" := PStr "1.0";
             "metadata_encoding" := PStr "utf8";
             "items" := PRef 0 ]} ].

Definition flattened_dict : gmap string pyval :=
  {[ "message" := PStr "hi";
     "timestamp" := PStr "t1";
     "user_id" := PInt 5;
     "user_name" := PStr "Ann";
     "user_email" := PStr "a@x.com";
     "metadata_version" := PStr "1.0";
     "metadata_encoding" := PStr "utf8";
     "items" := PRef 0 ]}.

(** Another record in another store: the same values under the eight keys
    that the converter reads, and one key more. *)
Definition other_dict : gmap string pyval :=
  {[ "message" := PStr "hi";
     "timestamp" := PStr "t1";
     "user_id" := PInt 5;
     "user_name" := PStr "Ann";
     "user_email" := PStr "a@x.com";
     "metadata_version" := PStr "1.0";
     "metadata_encoding" := PStr "utf8";
     "items" := PRef 2;
     "extra" := PRef 1 ]}.

Definition other_store : heap :=
  [ PDict other_dict;
    PList [PInt 7];
    PList [PStr "1:Task A:true"; PStr "2:Task B:false"] ].

(** * The rest of the script, and what is said of it *)

(** ** Containers inside containers *)

(** The object [o] holds the value [x]: as an element, or under a key. *)
Definition holds (o : pyobj) (x : pyval) : Prop :=
  match o with
  | PList l => x ∈ l
  | PDict d => ∃ k, d !! k = Some x
  end.

(** The container [b] is inside the container [a], at any depth. *)
Inductive inside (h : heap) : addr → addr → Prop :=
  | inside_here a o b :
      h !! a = Some o → holds o (PRef b) → inside h a b
  | inside_deeper a o b c :
      h !! a = Some o → holds o (PRef b) → inside h b c → inside h a c.

(** A converter goes by the document of its input: on two values with the
    same document, in any two stores, it adds objects to the store and ends
    the same way, with the same exception or with outputs that have the
    same document. *)
Definition by_document (convert : pyval → M pyval) : Prop :=
  ∀ h1 (P1 : addr → Prop) r1 h2 (P2 : addr → Prop) r2 t,
    repr h1 P1 r1 t → repr h2 P2 r2 t →
    ∃ n1 n2,
      (convert r1 h1).2 = h1 ++ n1 ∧ (convert r2 h2).2 = h2 ++ n2 ∧
      match (convert r1 h1).1, (convert r2 h2).1 with
      | Ok out1, Ok out2 =>
          ∃ t', repr (h1 ++ n1) (λ _, True) out1 t' ∧
                repr (h2 ++ n2) (λ _, True) out2 t'
      | Raise e1, Raise e2 => e1 = e2
      | _, _ => False
      end.

(** ** The converters on documents *)

(** What [load] keeps for one document: the store stays closed, and the
    value is one of the store. *)
Definition load_closed (t : json) : Prop :=
  ∀ h v h', closed h → load t h = (v, h') →
    closed h' ∧ val_closed (length h') v ∧ length h ≤ length h'.

(** The fields of the document that [convert_flattened_to_unified] returns
    for the record [m] when its items come out as [items]: lines 64-85 on
    documents. *)
Definition unified_fields (m : gmap string json) (items : list json)
    : gmap string json :=
       {[ "message" := default (JStr "") (m !! "message");
          "timestamp" := default (JStr "") (m !! "timestamp");
          "user" := JObj {[ "id" := default JNull (m !! "user_id");
                            "name" := default (JStr "") (m !! "user_name");
                            "email" := default (JStr "") (m !! "user_email") ]};
          "metadata" :=
            JObj {[ "version" := default (JStr "") (m !! "metadata_version");
                    "format" := JStr "unified";
                    "encoding" :=
                      default (JStr "") (m !! "metadata_encoding") ]};
          "items" := JArr items ]}.

Definition unified_record (m : gmap string json) (items : list json) : json :=
  JObj (unified_fields m items).

(** The items of a record's document. *)
Definition items_of (t : json) : option (list json) :=
  match t with
  | JObj m => match m !! "items" with Some (JArr l) => Some l | _ => None end
  | _ => None
  end.

(** ** Item strings *)

(** How many times the character [c] occurs in [s]. *)
Fixpoint occurrences (c : ascii) (s : string) : nat :=
  match s with
  | "" => 0
  | String c' s' => (if Ascii.eqb c' c then 1 else 0) + occurrences c s'
  end.

(** The item string for the three fields: ["id:title:active"]. *)
Definition item_string (id title active : string) : string :=
  id ++ ":" ++ title ++ ":" ++ active.

(** The spellings of ["true"] in upper and lower case. *)
Definition true_spellings : list string :=
  [ "true"; "truE"; "trUe"; "trUE"; "tRue"; "tRuE"; "tRUe"; "tRUE";
    "True"; "TruE"; "TrUe"; "TrUE"; "TRue"; "TRuE"; "TRUe"; "TRUE" ].


(** ** Formatting *)

Module PyFmt.

(** The line feed, ["\n"]. *)
Definition nl : string := String "010" "".

Definition hex_digit (n : N) : ascii :=
  match String.get (N.to_nat n) "0123456789abcdef" with
  | Some c => c
  | None => "0"%char
  end.

(** [c.isprintable()] below U+0100: not the control characters, not the
    no-break space U+00A0 and not the soft hyphen U+00AD. *)
Definition printable (c : ascii) : bool :=
  ((32 <=? PyStr.code c) && (PyStr.code c <=? 126) ||
   (161 <=? PyStr.code c) && negb (PyStr.code c =? 173))%N.

Fixpoint has (c : ascii) (s : string) : bool :=
  match s with
  | "" => false
  | String c' s' => Ascii.eqb c' c || has c s'
  end.

(** One character of [repr(s)], inside the quotes [quote]. *)
Definition escape (quote c : ascii) : string :=
  if Ascii.eqb c quote || Ascii.eqb c "092" then String "092" (String c "")
  else if Ascii.eqb c "009" then String "092" "t"
  else if Ascii.eqb c "010" then String "092" "n"
  else if Ascii.eqb c "013" then String "092" "r"
  else if printable c then String c ""
  else String "092"
         (String "x"
            (String (hex_digit (PyStr.code c / 16))
               (String (hex_digit (PyStr.code c mod 16)) ""))).

Fixpoint escape_all (quote : ascii) (s : string) : string :=
  match s with
  | "" => ""
  | String c s' => escape quote c ++ escape_all quote s'
  end.

(** [repr(s)] for a str: in single quotes, or in double quotes when the
    string holds a single quote and no double quote. *)
Definition repr (s : string) : string :=
  let quote : ascii := if has "039" s && negb (has "034" s)
                       then "034"%char else "039"%char in
  String quote (escape_all quote s ++ String quote "").

(** [repr(l)] for a list of str, which is also what an f-string writes for
    it. *)
Definition repr_list (l : list string) : string :=
  "[" ++ String.concat ", " (repr <$> l) ++ "]".

(** [str(b)] for a bool. *)
Definition str_bool (b : bool) : string := if b then "True" else "False".

(** [s * n] *)
Fixpoint times (s : string) (n : nat) : string :=
  match n with
  | 0 => ""
  | S n' => s ++ times s n'
  end.

End PyFmt.

(** ** Floats *)

Module PyFloat.

(** The fields of a binary64 pattern: sign, exponent, fraction. *)
Definition sign (x : N) : N := (x / 2 ^ 63) mod 2.
Definition exponent (x : N) : N := (x / 2 ^ 52) mod 2 ^ 11.
Definition fraction (x : N) : N := x mod 2 ^ 52.

Definition is_nan (x : N) : bool :=
  (exponent x =? 2047)%N && negb (fraction x =? 0)%N.

Definition is_zero (x : N) : bool := (exponent x =? 0)%N && (fraction x =? 0)%N.

(** [x == y] for two floats: no NaN is equal to anything, the two zeros
    are equal. *)
Definition eqb (x y : N) : bool :=
  negb (is_nan x) && negb (is_nan y) &&
  ((x mod 2 ^ 64 =? y mod 2 ^ 64)%N || is_zero x && is_zero y).

(** [x == z] for a float and an int, which Python compares exactly: the
    float is finite and its value [m * 2 ^ k], with the sign, is [z]. *)
Definition eqb_int (x : N) (z : Z) : bool :=
  if (exponent x =? 2047)%N then false
  else
    let m := Z.of_N (if (exponent x =? 0)%N then fraction x
                     else 2 ^ 52 + fraction x) in
    let k := (Z.of_N (if (exponent x =? 0)%N then 1 else exponent x) - 1075)%Z in
    let s := (if (sign x =? 0)%N then 1 else -1)%Z in
    if (0 <=? k)%Z then (z =? s * (m * 2 ^ k))%Z
    else ((m mod 2 ^ (- k) =? 0) && (z =? s * (m / 2 ^ (- k))))%Z.

End PyFloat.

(** ** Standard output and files *)

(** What [print] writes, one entry for each call: a str, or the text
    [json.dumps(data, indent=2)], carried as the document it is the text
    of. *)
Inductive line :=
  | Text (s : string)
  | Dump (t : json).

(** What [open] and [json.load] find under a name: no file
    (FileNotFoundError), a text that is no JSON (JSONDecodeError, with its
    message), or the text of a document. *)
Inductive file :=
  | Missing
  | Malformed (msg : string)
  | Holds (t : json).

(** A computation of the script reads and writes the store, writes to the
    standard output, and returns or raises. *)
Definition IO (A : Type) : Type :=
  heap * list line → result A * (heap * list line).

Global Instance IO_ret : MRet IO := λ A x s, (Ok x, s).
Global Instance IO_bind : MBind IO := λ A B f c s,
  match c s with
  | (Ok x, s') => f x s'
  | (Raise e, s') => (Raise e, s')
  end.

(** An operation on the store, as a step of the script. *)
Definition run {A} (c : M A) : IO A := λ s,
  match c s.1 with (r, h') => (r, (h', s.2)) end.

Definition print (l : line) : IO unit := λ s, (Ok tt, (s.1, s.2 ++ [l])).

(** [bool(v)]: None, False, zero, the empty string, the empty list and the
    empty dict are false, everything else is true.  A float is zero when
    all its bits but the sign are. *)
Definition truth (v : pyval) : M bool := λ h,
  (Ok match v with
      | PNone => false
      | PBool b => b
      | PInt z => negb (z =? 0)%Z
      | PFloat x => negb (x mod 2 ^ 63 =? 0)%N
      | PStr s => negb (String.eqb s "")
      | PRef a =>
          match h !! a with
          | Some (PList l) => negb (bool_decide (l = []))
          | Some (PDict d) => negb (bool_decide (d = ∅))
          | None => true
          end
      end, h).

(** ** Equality of values, [==] *)

(** A bool is the int 0 or 1. *)
Definition as_int (v : pyval) : option Z :=
  match v with
  | PBool b => Some (if b then 1 else 0)%Z
  | PInt z => Some z
  | _ => None
  end.

(** [x == y] for two values that are no containers.  Two floats are two
    objects, as they are when they come from two documents: a NaN is equal
    to no float. *)
Definition eq_scalars (x y : pyval) : bool :=
  match x, y with
  | PNone, PNone => true
  | PStr s1, PStr s2 => String.eqb s1 s2
  | PFloat a, PFloat b => PyFloat.eqb a b
  | PFloat a, _ =>
      match as_int y with Some z => PyFloat.eqb_int a z | None => false end
  | _, PFloat b =>
      match as_int x with Some z => PyFloat.eqb_int b z | None => false end
  | _, _ =>
      match as_int x, as_int y with
      | Some z1, Some z2 => (z1 =? z2)%Z
      | _, _ => false
      end
  end.

(** Two lists of the same length: the elements are compared in turn, up
    to the first two that differ. *)
Fixpoint eq_lists (eq : pyval → pyval → result bool) (l1 l2 : list pyval)
    : result bool :=
  match l1, l2 with
  | x :: l1', y :: l2' =>
      same ← eq x y;
      if same : bool then eq_lists eq l1' l2' else Ok false
  | _, _ => Ok true
  end.

(** Two dicts of the same size: the keys of the first are looked up in the
    second, in the order [ks] of the first, and the values are compared, up
    to the first key that is missing or holds a different value. *)
Fixpoint eq_dicts (eq : pyval → pyval → result bool)
    (d1 d2 : gmap string pyval) (ks : list string) : result bool :=
  match ks with
  | [] => Ok true
  | k :: ks' =>
      match d1 !! k with
      | None => eq_dicts eq d1 d2 ks'
      | Some aval =>
          match d2 !! k with
          | None => Ok false
          | Some bval =>
              same ← eq aval bval;
              if same : bool then eq_dicts eq d1 d2 ks' else Ok false
          end
      end
  end.

Section script.

(** The order in which the dict at an address holds its keys: the order in
    which they were put in, which the store does not record. *)
Variable order : addr → list string.

(** What is under each name of the file system. *)
Variable fs : string → file.

(** [list(v.keys())]; only a dict has the method. *)
Definition keys (v : pyval) : M (list string) := λ h,
  match v with
  | PRef a =>
      match h !! a with
      | Some (PDict d) => (Ok (order a), h)
      | _ => (Raise AttributeError, h)
      end
  | _ => (Raise AttributeError, h)
  end.

(** [v.items()], as the list of the pairs it goes through. *)
Definition items (v : pyval) : M (list (string * pyval)) := λ h,
  match v with
  | PRef a =>
      match h !! a with
      | Some (PDict d) => (Ok (omap (λ k, (k,.) <$> d !! k) (order a)), h)
      | _ => (Raise AttributeError, h)
      end
  | _ => (Raise AttributeError, h)
  end.

(** [[key for key, value in pairs if test(value)]] *)
Fixpoint select (test : pyval → M bool) (pairs : list (string * pyval))
    : M (list string) :=
  match pairs with
  | [] => mret []
  | (key, value) :: rest =>
      keep ← test value;
      others ← select test rest;
      mret (if keep : bool then key :: others else others)
  end.

(** [x == y].  An element that is the same object as the one it is
    compared with is equal to it; a list is equal to a list and a dict to a
    dict only.  A comparison that goes deeper than there are pairs of
    objects never ends: it raises RecursionError. *)
Fixpoint eq_values (fuel : nat) (h : heap) (x y : pyval) : result bool :=
  match x, y with
  | PRef a, PRef b =>
      if decide (a = b) then Ok true
      else
        match fuel with
        | 0 => Raise RecursionError
        | S fuel' =>
            match h !! a, h !! b with
            | Some (PList l1), Some (PList l2) =>
                if decide (length l1 = length l2)
                then eq_lists (eq_values fuel' h) l1 l2
                else Ok false
            | Some (PDict d1), Some (PDict d2) =>
                if decide (size d1 = size d2)
                then eq_dicts (eq_values fuel' h) d1 d2 (order a)
                else Ok false
            | _, _ => Ok false
            end
        end
  | PRef _, _ | _, PRef _ => Ok false
  | _, _ => Ok (eq_scalars x y)
  end.

Definition py_eq (x y : pyval) : M bool := λ h,
  (eq_values (S (length h * length h)) h x y, h).

(** [analyze_structure], main.py lines 20-38. *)
Definition analyze_structure (data : pyval) (filename : string) : IO unit :=
  nonempty ← run (truth data);
  if nonempty : bool then
    print (Text (PyFmt.nl ++ "--- Structure Analysis for " ++ filename
                 ++ " ---"));;
    top ← run (keys data);
    print (Text ("Top-level keys: " ++ PyFmt.repr_list top));;
    pairs ← run (items data);
    nested_objects ← run (select isinstance_dict pairs);
    (match nested_objects with
     | [] => mret tt
     | _ => print (Text ("Nested objects: " ++ PyFmt.repr_list nested_objects))
     end);;
    pairs ← run (items data);
    arrays ← run (select isinstance_list pairs);
    match arrays with
    | [] => mret tt
    | _ => print (Text ("Arrays: " ++ PyFmt.repr_list arrays))
    end
  else mret tt.

(** [load_and_display_json], main.py lines 4-17.  The two [except] clauses
    are the two branches in which no document is found. *)
Definition load_and_display_json (filename : string) : IO pyval :=
  match fs filename with
  | Holds t =>
      data ← run (json_loads t);
      print (Text (PyFmt.nl ++ "=== " ++ filename ++ " ==="));;
      text ← run (json_dumps data);
      print (Dump text);;
      mret data
  | Missing =>
      print (Text ("File " ++ filename ++ " not found!"));;
      mret PNone
  | Malformed msg =>
      print (Text ("Error parsing JSON in " ++ filename ++ ": " ++ msg));;
      mret PNone
  end.

(** [compare_data_formats], main.py lines 137-165. *)
Definition compare_data_formats : IO unit :=
  print (Text "Exploring two different JSON data formats...");;
  data1 ← load_and_display_json "data-1.json";
  data2 ← load_and_display_json "data-2.json";
  analyze_structure data1 "data-1.json";;
  analyze_structure data2 "data-2.json";;
  print (Text (PyFmt.nl ++ "--- Format Comparison ---"));;
  print (Text "data-1.json uses a NESTED/HIERARCHICAL format:");;
  print (Text "  - User info is grouped in a 'user' object");;
  print (Text "  - Metadata is grouped in a 'metadata' object");;
  print (Text "  - Items contain full object structures");;
  print (Text (PyFmt.nl ++ "data-2.json uses a FLATTENED format:"));;
  print (Text
    "  - User info is flattened with prefixes (user_id, user_name, etc.)");;
  print (Text
    "  - Metadata is flattened with prefixes (metadata_version, etc.)");;
  print (Text "  - Items are serialized as strings with delimiters");;
  print (Text (PyFmt.nl ++ "--- Key Differences ---"));;
  print (Text "1. Nested vs Flattened structure");;
  print (Text "2. Object grouping vs prefix naming");;
  print (Text "3. Structured arrays vs serialized strings");;
  print (Text "4. Readability vs compactness trade-offs").

(** [test_conversions], main.py lines 101-134. *)
Definition test_conversions : IO unit :=
  print (Text (PyFmt.nl ++ PyFmt.times "=" 60));;
  print (Text "TESTING CONVERSION FUNCTIONS");;
  print (Text (PyFmt.times "=" 60));;
  nested_data ← load_and_display_json "data-1.json";
  flattened_data ← load_and_display_json "data-2.json";
  has_nested ← run (truth nested_data);
  (if has_nested : bool then
     print (Text (PyFmt.nl ++ "--- Converting Nested to Unified ---"));;
     unified_from_nested ← run (convert_nested_to_unified nested_data);
     text ← run (json_dumps unified_from_nested);
     print (Dump text)
   else mret tt);;
  has_flattened ← run (truth flattened_data);
  (if has_flattened : bool then
     print (Text (PyFmt.nl ++ "--- Converting Flattened to Unified ---"));;
     unified_from_flattened ←
       run (convert_flattened_to_unified flattened_data);
     text ← run (json_dumps unified_from_flattened);
     print (Dump text)
   else mret tt);;
  target_data ← load_and_display_json "data-result.json";
  has_nested ← run (truth nested_data);
  has_target ← (if has_nested : bool then run (truth target_data)
                else mret false);
  (if has_target : bool then
     print (Text (PyFmt.nl ++ "--- Comparing Results ---"));;
     unified_nested ← run (convert_nested_to_unified nested_data);
     same ← run (py_eq unified_nested target_data);
     print (Text ("Nested->Unified matches target: " ++ PyFmt.str_bool same))
   else mret tt);;
  has_flattened ← run (truth flattened_data);
  has_target ← (if has_flattened : bool then run (truth target_data)
                else mret false);
  if has_target : bool then
    unified_flattened ← run (convert_flattened_to_unified flattened_data);
    same ← run (py_eq unified_flattened target_data);
    print (Text ("Flattened->Unified matches target: "
                 ++ PyFmt.str_bool same))
  else mret tt.

(** The script, main.py lines 168-170. *)
Definition main : IO unit :=
  compare_data_formats;;
  test_conversions.

End script.

(** ** What the script reports *)

(** The list [ks] is the keys of the dict [d], each once, in some order. *)
Definition key_order (ks : list string) (d : gmap string pyval) : Prop :=
  NoDup ks ∧ ∀ k, k ∈ ks ↔ is_Some (d !! k).

(** The value is a dict, a list, of the store. *)
Definition is_dict (h : heap) (v : pyval) : bool :=
  match v with
  | PRef a => match h !! a with Some (PDict _) => true | _ => false end
  | _ => false
  end.

Definition is_list (h : heap) (v : pyval) : bool :=
  match v with
  | PRef a => match h !! a with Some (PList _) => true | _ => false end
  | _ => false
  end.

(** The keys of [ks] under which the dict [d] holds a value that passes
    [test], in the order of [ks]. *)
Definition keys_with (test : pyval → bool) (d : gmap string pyval)
    (ks : list string) : list string :=
  filter (λ k, test <$> d !! k = Some true) ks.

(** The lines that [analyze_structure] prints for a dict that is not
    empty. *)
Definition report (h : heap) (d : gmap string pyval) (ks : list string)
    (filename : string) : list line :=
  [ Text (PyFmt.nl ++ "--- Structure Analysis for " ++ filename ++ " ---");
    Text ("Top-level keys: " ++ PyFmt.repr_list ks) ]
  ++ match keys_with (is_dict h) d ks with
     | [] => []
     | nested_objects =>
         [Text ("Nested objects: " ++ PyFmt.repr_list nested_objects)]
     end
  ++ match keys_with (is_list h) d ks with
     | [] => []
     | arrays => [Text ("Arrays: " ++ PyFmt.repr_list arrays)]
     end.

(** [bool(v)] for a value whose document is [t]. *)
Definition truthy (t : json) : bool :=
  match t with
  | JNull => false
  | JBool b => b
  | JInt z => negb (z =? 0)%Z
  | JFloat x => negb (x mod 2 ^ 63 =? 0)%N
  | JStr s => negb (String.eqb s "")
  | JArr l => match l with [] => false | _ => true end
  | JObj m => negb (bool_decide (size m = 0))
  end.

(** The files on which [analyze_structure] returns: those that hold an
    object or a document that is false as a condition, and those from
    which nothing is loaded. *)
Definition analyzable (f : file) : bool :=
  match f with
  | Holds (JObj _) => true
  | Holds t => negb (truthy t)
  | _ => true
  end.

(** How a conversion in [test_conversions] ends for the file [f]: it is
    made when the file holds a document that is true as a condition, and
    ends as the converter does on that document. *)
Definition attempt (convert : pyval → M pyval) (f : file) : result unit :=
  match f with
  | Holds t =>
      if truthy t
      then match on_document convert t with
           | Ok _ => Ok tt
           | Raise e => Raise e
           end
      else Ok tt
  | _ => Ok tt
  end.

(** The depth of a document: how deep its arrays and objects are inside
    one another. *)
Fixpoint jdepth (t : json) : nat :=
  match t with
  | JArr l => S (foldr (λ x n, jdepth x `max` n) 0 l)
  | JObj m => S (map_fold (λ _ x n, jdepth x `max` n) 0 m)
  | _ => 0
  end.

(** No float of the document is a NaN. *)
Fixpoint nan_free (t : json) : bool :=
  match t with
  | JFloat x => negb (PyFloat.is_nan x)
  | JArr l => forallb nan_free l
  | JObj m => map_fold (λ _ x b, nan_free x && b) true m
  | _ => true
  end.

(** ** More scenarios *)

(** A record that holds itself under [self], and a record that holds it as
    its [metadata]. *)
Definition circular_store : heap :=
  [ PDict {[ "version" := PStr "1.0"; "self" := PRef 0 ]};
    PDict {[ "message" := PStr "hi"; "metadata" := PRef 0 ]} ].

(** ** Files of the scenarios *)


(** A file system with the flattened record of the spec as [data-2.json]
    and the unified record as [data-result.json]. *)
Definition flattened_files (name : string) : file :=
  if String.eqb name "data-2.json" then Holds flattened_example
  else if String.eqb name "data-result.json" then Holds unified_example
       else Missing.

(** A file system in which [data-1.json] holds an array. *)
Definition array_files (name : string) : file :=
  if String.eqb name "data-1.json" then Holds (JArr [JInt 1])
  else Missing.

(** The keys of the records of the scenarios, in the order of the
    documents above. *)
Definition written_order (a : addr) : list string :=
  ["message"; "metadata"; "items"].

(** * Properties *)

(** Lengths of stores written with [++]. *)
Ltac len := rewrite ?length_app in *; simpl in *; lia.

(** Inversion of [repr] with names for what it gives. *)
Ltac inv_repr H :=
  inversion H as [ | | | | | ?a ?vs ?ts ?HP ?Hlk ?Hall
                           | ?a ?d ?m ?HP ?Hlk ?Hall ]; subst.

(** Membership of a key in [scalar_keys] or [input_keys]. *)
Ltac in_keys :=
  unfold input_keys, scalar_keys; simpl;
  solve [ repeat first [ apply list_elem_of_here
                       | apply list_elem_of_further ] ].

(** ** Traversals that may raise *)

Section traversals.
Context {A B : Type} (f : A → result B).

Lemma mapM_Ok (l : list A) (k : list B) :
  mapM f l = Ok k ↔ Forall2 (λ x y, f x = Ok y) l k.
Proof.
  split.
  - revert k. induction l as [|x l IH]; intros k; simpl.
    + intros [= <-]. constructor.
    + destruct (f x) as [y|e] eqn:Hx; simpl; [|done].
      destruct (mapM f l) as [k'|e]; simpl; [|done].
      intros [= <-]. apply Forall2_cons; auto.
  - induction 1 as [|x y l k Hx _ IH]; simpl; [done|].
    by rewrite Hx, IH.
Qed.

Lemma map_mapM_Ok (m : gmap string A) (m' : gmap string B) :
  map_mapM f m = Ok m' ↔ map_Forall2 (λ _ x y, f x = Ok y) m m'.
Proof.
  unfold map_mapM. revert m'.
  induction m as [|i x m Hi Hfirst IH] using map_first_key_ind; intros m'.
  - rewrite map_fold_empty. split.
    + intros [= <-]. apply map_Forall2_empty.
    + by intros ->%map_Forall2_empty_inv_l.
  - rewrite map_fold_insert_first_key by done. split.
    + destruct (map_fold _ _ m) as [m0|e]; simpl; [|done].
      destruct (f x) as [y|e] eqn:Hx; simpl; [|done].
      intros [= <-]. apply map_Forall2_insert_2; [done|]. by apply IH.
    + intros (y' & m2 & -> & Hm2 & Hy & Hrest)%map_Forall2_insert_inv_l;
        [|done].
      apply IH in Hrest. by rewrite Hrest; simpl; rewrite Hy.
Qed.

Lemma mapM_Raise (l : list A) (e : exn) :
  mapM f l = Raise e → ∃ x, x ∈ l ∧ f x = Raise e.
Proof.
  induction l as [|x l IH]; simpl; [done|].
  destruct (f x) as [y|e'] eqn:Hx; simpl.
  - destruct (mapM f l) as [k|e']; simpl; [done|].
    intros [= ->]. destruct IH as (x' & ? & ?); [done|].
    exists x'. split; [by apply list_elem_of_further|done].
  - intros [= ->]. exists x. split; [apply list_elem_of_here|done].
Qed.

Lemma map_mapM_Raise (m : gmap string A) (e : exn) :
  map_mapM f m = Raise e → ∃ k x, m !! k = Some x ∧ f x = Raise e.
Proof.
  unfold map_mapM.
  induction m as [|i x m Hi Hfirst IH] using map_first_key_ind.
  - by rewrite map_fold_empty.
  - rewrite map_fold_insert_first_key by done.
    destruct (map_fold _ _ m) as [m0|e']; simpl.
    + destruct (f x) as [y|e'] eqn:Hx; simpl; [done|].
      intros [= ->]. exists i, x. by rewrite lookup_insert_eq.
    + intros [= ->]. destruct IH as (k & x' & Hk & ?); [done|].
      exists k, x'. split; [|done]. rewrite lookup_insert_ne; [done|].
      intros ->. congruence.
Qed.
End traversals.

(** ** Lists in relation *)

Lemma Forall2_impl_r {A B} (R S : A → B → Prop) (l : list A) (k : list B) :
  Forall2 R l k → Forall (λ y, ∀ x, R x y → S x y) k → Forall2 S l k.
Proof.
  induction 1; inversion 1; subst; constructor; auto.
Qed.

(** ** Induction on documents *)

Section documents.

Lemma jsize_elem (l : list json) (t : json) :
  t ∈ l → jsize t ≤ foldr (λ x n, jsize x + n) 0 l.
Proof.
  induction 1 as [|? ? ? _ IH]; simpl; lia.
Qed.

Lemma jsize_lookup (m : gmap string json) (k : string) (t : json) :
  m !! k = Some t → jsize t ≤ map_fold (λ _ x n, jsize x + n) 0 m.
Proof.
  revert k t.
  apply (map_fold_weak_ind
           (λ r m, ∀ k t, m !! k = Some t → jsize t ≤ r)).
  - intros k t. by rewrite lookup_empty.
  - intros i x m' r Hi IH k t. rewrite lookup_insert.
    case_decide; [intros [= ->]; lia|]. intros Hk%IH. lia.
Qed.

Lemma json_ind' (P : json → Prop) :
  P JNull → (∀ b, P (JBool b)) → (∀ z, P (JInt z)) → (∀ x, P (JFloat x)) →
  (∀ s, P (JStr s)) →
  (∀ l, Forall P l → P (JArr l)) →
  (∀ m, map_Forall (λ _, P) m → P (JObj m)) →
  ∀ t, P t.
Proof.
  intros Hnull Hbool Hint Hfloat Hstr Harr Hobj t.
  remember (jsize t) as n eqn:Hn. revert t Hn.
  induction n as [n IH] using lt_wf_ind. intros [| | | | |l|m] ->; auto.
  - apply Harr, Forall_forall. intros t Ht.
    apply (IH (jsize t)); [|done]. apply jsize_elem in Ht. simpl. lia.
  - apply Hobj. intros k t Ht.
    apply (IH (jsize t)); [|done]. apply jsize_lookup in Ht. simpl. lia.
Qed.

End documents.

(** ** Facts on [repr] *)

Section repr_facts.
Implicit Types (h : heap) (P Q : addr → Prop) (v : pyval) (t : json).

(** The footprint may grow, and the store may change outside of it. *)
Lemma repr_transfer h h' P Q v t :
  (∀ a, P a → Q a ∧ h' !! a = h !! a) →
  repr h P v t → repr h' Q v t.
Proof.
  intros HPQ. revert v.
  induction t as [| | | | |ts IH|m IH] using json_ind';
    intros v Hv; inv_repr Hv; try constructor.
  - destruct (HPQ a) as [? Heq]; [done|].
    apply repr_list with vs; [done|congruence|].
    by eapply Forall2_impl_r.
  - destruct (HPQ a) as [? Heq]; [done|].
    apply repr_dict with d; [done|congruence|].
    intros k. pose proof (Hall k) as Hk.
    destruct (d !! k) eqn:Hd, (m !! k) eqn:Hm; inversion Hk; subst;
      constructor. eapply IH; eauto.
Qed.

Lemma repr_mono h P Q v t :
  (∀ a, P a → Q a) → repr h P v t → repr h Q v t.
Proof. intros HPQ. apply repr_transfer. naive_solver. Qed.

(** Every object of the footprint exists. *)
Lemma repr_valid h P v t :
  repr h P v t → repr h (λ a, P a ∧ a < length h) v t.
Proof.
  revert v.
  induction t as [| | | | |ts IH|m IH] using json_ind';
    intros v Hv; inv_repr Hv; try constructor.
  - apply repr_list with vs; [eauto using lookup_lt_Some|done|].
    by eapply Forall2_impl_r.
  - apply repr_dict with d; [eauto using lookup_lt_Some|done|].
    intros k. pose proof (Hall k) as Hk.
    destruct (d !! k) eqn:Hd, (m !! k) eqn:Hm; inversion Hk; subst;
      constructor. eapply IH; eauto.
Qed.

(** A value is one document at most. *)
Lemma repr_det h P Q v t1 t2 :
  repr h P v t1 → repr h Q v t2 → t1 = t2.
Proof.
  revert v t2.
  induction t1 as [| | | | |ts IH|m IH] using json_ind';
    intros v t2 H1 H2; inv_repr H1; inv_repr H2; try done.
  - f_equal. simplify_eq. clear -IH Hall Hall0.
    revert ts0 Hall0. induction Hall as [|x t vs ts Hx _ IHl];
      intros ts0 Hall0; inversion Hall0; subst; [done|].
    inversion IH; subst. f_equal; eauto.
  - simplify_eq.
  - simplify_eq.
  - f_equal. simplify_eq. apply map_eq. intros k.
    pose proof (Hall k) as Hk. pose proof (Hall0 k) as Hk0.
    destruct (d !! k) eqn:Hd, (m !! k) eqn:Hm, (m0 !! k) eqn:Hm0;
      inversion Hk; inversion Hk0; subst; try done.
    f_equal. eapply IH; eauto.
Qed.

(** No container is inside itself: a container whose document is larger
    than that of [v] is not in the footprint of [v]. *)
Lemma repr_acyclic h P Q v t a ta :
  repr h P v t → repr h Q (PRef a) ta → jsize t < jsize ta →
  repr h (λ b, P b ∧ b ≠ a) v t.
Proof.
  intros Hv Ha. revert v Hv.
  induction t as [| | | | |ts IH|m IH] using json_ind';
    intros v Hv Hlt; inv_repr Hv; try constructor.
  - apply repr_list with vs; [|done|].
    + split; [done|]. intros ->.
      pose proof (repr_det _ _ _ _ _ _ Hv Ha) as <-. lia.
    + eapply Forall2_impl_r; [done|].
      apply Forall_forall. intros t Ht x Hx.
      rewrite Forall_forall in IH. apply IH; [done..|].
      apply jsize_elem in Ht. simpl in Hlt. lia.
  - apply repr_dict with d; [|done|].
    + split; [done|]. intros ->.
      pose proof (repr_det _ _ _ _ _ _ Hv Ha) as <-. lia.
    + intros k. pose proof (Hall k) as Hk.
      destruct (d !! k) eqn:Hd, (m !! k) eqn:Hm; inversion Hk; subst;
        constructor. eapply IH; eauto.
      apply jsize_lookup in Hm. simpl in Hlt. lia.
Qed.
End repr_facts.

(** ** The encoder writes the document of a value *)

Section encoder.
Implicit Types (h : heap) (P Q : addr → Prop) (v : pyval) (t : json).

Lemma encode_sound fuel h ms v t :
  encode fuel h ms v = Ok t → repr h (within 0 (length h)) v t.
Proof.
  revert ms v t. induction fuel as [|fuel IH]; intros ms v t;
    destruct v as [| | | | |a]; simpl; try (intros [= <-]; constructor).
  - destruct (h !! a); [|done]. by case_decide.
  - destruct (h !! a) as [o|] eqn:Ha; [|done]. case_decide; [done|].
    assert (within 0 (length h) a).
    { split; [lia|]. eauto using lookup_lt_Some. }
    destruct o as [l|d].
    + destruct (mapM _ l) as [ts|] eqn:Hl; [|done]. intros [= <-].
      apply repr_list with l; [done..|].
      apply mapM_Ok in Hl. eapply Forall2_impl; [done|].
      intros x y Hxy. simpl in Hxy. eauto.
    + destruct (map_mapM _ d) as [m|] eqn:Hd; [|done]. intros [= <-].
      apply repr_dict with d; [done..|].
      apply map_mapM_Ok in Hd. eapply map_Forall2_impl; [done|].
      intros k x y Hxy. simpl in Hxy. eauto.
Qed.

Lemma markers_bound (n : nat) (ms : list addr) :
  NoDup ms → (∀ b, b ∈ ms → b < n) → length ms ≤ n.
Proof.
  intros Hnd Hlt.
  assert (length ms ≤ length (seq 0 n)) as Hle; [|by rewrite length_seq in Hle].
  apply submseteq_length, NoDup_submseteq; [done|].
  intros b Hb. apply elem_of_seq. specialize (Hlt b Hb). lia.
Qed.

Lemma encode_complete h P v t ms fuel :
  repr h P v t →
  (∀ b, b ∈ ms → ¬ P b) → NoDup ms → (∀ b, b ∈ ms → b < length h) →
  length h ≤ fuel + length ms →
  encode fuel h ms v = Ok t.
Proof.
  revert P v ms fuel.
  induction t as [| | | | |ts IH|m IH] using json_ind';
    intros P v ms fuel Hv Hms Hnd Hlt Hfuel; inv_repr Hv;
    try (by destruct fuel).
  - assert (a ∉ ms) as Hnin by (intros ?; by eapply Hms).
    assert (S (length ms) ≤ length h) as Hlen.
    { apply (markers_bound _ (a :: ms)).
      - by constructor.
      - intros b [->|?]%elem_of_cons; eauto using lookup_lt_Some. }
    destruct fuel as [|fuel]; [lia|]. simpl. rewrite Hlk.
    rewrite decide_False by done.
    assert (mapM (encode fuel h (a :: ms)) vs = Ok ts) as ->; [|done].
    apply mapM_Ok. eapply Forall2_impl_r; [done|].
    apply Forall_forall. intros t Ht x Hx.
    rewrite Forall_forall in IH.
    eapply (IH t Ht (λ b, P b ∧ b ≠ a)); try done.
    + eapply repr_acyclic; eauto.
      apply jsize_elem in Ht. simpl. lia.
    + intros b [->|?]%elem_of_cons [? ?]; [done|]. by eapply Hms.
    + by constructor.
    + intros b [->|?]%elem_of_cons; eauto using lookup_lt_Some.
    + simpl. lia.
  - assert (a ∉ ms) as Hnin by (intros ?; by eapply Hms).
    assert (S (length ms) ≤ length h) as Hlen.
    { apply (markers_bound _ (a :: ms)).
      - by constructor.
      - intros b [->|?]%elem_of_cons; eauto using lookup_lt_Some. }
    destruct fuel as [|fuel]; [lia|]. simpl. rewrite Hlk.
    rewrite decide_False by done.
    assert (map_mapM (encode fuel h (a :: ms)) d = Ok m) as ->; [|done].
    apply map_mapM_Ok. intros k. pose proof (Hall k) as Hk.
    destruct (d !! k) eqn:Hd, (m !! k) eqn:Hm; inversion Hk; subst;
      constructor.
    eapply (IH k _ Hm (λ b, P b ∧ b ≠ a)); try done.
    + eapply repr_acyclic; eauto.
      apply jsize_lookup in Hm. simpl. lia.
    + intros b [->|?]%elem_of_cons [? ?]; [done|]. by eapply Hms.
    + by constructor.
    + intros b [->|?]%elem_of_cons; eauto using lookup_lt_Some.
    + simpl. lia.
Qed.

(** [json.dumps] writes the document of a value, whatever the footprint. *)
Lemma json_dumps_repr h P v t :
  repr h P v t → json_dumps v h = (Ok t, h).
Proof.
  intros Hv. unfold json_dumps. f_equal.
  eapply encode_complete; eauto using NoDup_nil_2; try lia.
  - intros b Hb. by apply elem_of_nil in Hb.
  - intros b Hb. by apply elem_of_nil in Hb.
Qed.

Lemma json_dumps_inv h v t :
  (json_dumps v h).1 = Ok t → repr h (within 0 (length h)) v t.
Proof. apply encode_sound. Qed.
(** The fuel of [json_dumps] is enough: the encoder stops on a repeated
    container before it runs out. *)
Lemma encode_fuel fuel h ms v :
  NoDup ms → (∀ b, b ∈ ms → b < length h) →
  length h ≤ fuel + length ms →
  encode fuel h ms v ≠ Raise RecursionError.
Proof.
  revert ms v. induction fuel as [|fuel IH]; intros ms v Hnd Hlt Hfuel;
    destruct v as [| | | | |a]; simpl; try done;
    destruct (h !! a) as [o|] eqn:Ha; try done;
    case_decide as Hin; try done;
    assert (S (length ms) ≤ length h) as Hlen
      by (apply (markers_bound _ (a :: ms));
          [by constructor
          |intros b [->|?]%elem_of_cons; eauto using lookup_lt_Some]).
  - lia.
  - assert (∀ x, encode fuel h (a :: ms) x ≠ Raise RecursionError) as Hrec.
    { intros x. apply IH.
      - by constructor.
      - intros b [->|?]%elem_of_cons; eauto using lookup_lt_Some.
      - simpl. lia. }
    destruct o as [l|d].
    + destruct (mapM _ l) as [ts|e] eqn:Hl; simpl; [done|].
      intros [= ->]. apply mapM_Raise in Hl as (x & _ & Hx).
      by eapply Hrec.
    + destruct (map_mapM _ d) as [m|e] eqn:Hd; simpl; [done|].
      intros [= ->]. apply map_mapM_Raise in Hd as (k & x & _ & Hx).
      by eapply Hrec.
Qed.

Lemma json_dumps_fuel h v : (json_dumps v h).1 ≠ Raise RecursionError.
Proof.
  apply encode_fuel; [constructor| |simpl; lia].
  intros b Hb. by apply elem_of_nil in Hb.
Qed.
End encoder.

(** ** The decoder builds new objects *)

Section decoder.
Implicit Types (h : heap) (P Q : addr → Prop) (v : pyval) (t : json).

(** A value keeps its document when objects are added to the store. *)
Lemma repr_grow h news lo hi lo' hi' v t :
  repr h (within lo hi) v t →
  lo' ≤ lo → hi ≤ hi' → hi ≤ length h →
  repr (h ++ news) (within lo' hi') v t.
Proof.
  intros Hv ? ? ?. eapply repr_transfer; [|done].
  intros a [? ?]. split; [unfold within; lia|].
  apply lookup_app_l. lia.
Qed.

Lemma load_list_spec (ts : list json) h vs h1 :
  Forall load_ok ts →
  load_list load ts h = (vs, h1) →
  ∃ news, h1 = h ++ news ∧
    Forall2 (repr h1 (within (length h) (length h1))) vs ts.
Proof.
  intros Hts. revert h vs h1.
  induction Hts as [|t ts Ht _ IH]; intros h vs h1; simpl.
  - intros [= <- <-]. exists []. by rewrite app_nil_r.
  - destruct (load t h) as [v h2] eqn:Hv.
    destruct (load_list load ts h2) as [vs' h3] eqn:Hvs.
    intros [= <- <-].
    destruct (Ht _ _ _ Hv) as (n1 & -> & Hr1).
    destruct (IH _ _ _ Hvs) as (n2 & -> & Hr2).
    exists (n1 ++ n2). split; [by rewrite app_assoc|].
    constructor.
    + eapply repr_grow; [done|lia|rewrite !length_app; lia|lia].
    + eapply Forall2_impl; [done|]. intros x y Hxy.
      eapply repr_mono; [|done]. unfold within.
      intros a. rewrite !length_app. lia.
Qed.

Lemma load_fields_spec (m : gmap string json) h :
  map_Forall (λ _, load_ok) m →
  ∃ news rng,
    (map_fold (load_pair load) (∅, h) m).2 = h ++ news ∧
    fields_at h (h ++ news) rng (map_fold (load_pair load) (∅, h) m).1 m.
Proof.
  apply (map_fold_weak_ind (λ r m, map_Forall (λ _, load_ok) m →
    ∃ news rng, r.2 = h ++ news ∧ fields_at h (h ++ news) rng r.1 m)).
  - intros _. exists [], (λ _, (0, 0)). rewrite app_nil_r.
    split; [done|]. split; [done|]. split.
    + intros k t. by rewrite lookup_empty.
    + intros k1 k2 _ [? Hk]. by rewrite lookup_empty in Hk.
  - intros i x m' [d h1] Hi IH Hall.
    apply map_Forall_insert in Hall as [Hx Hall]; [|done].
    destruct (IH Hall) as (n1 & rng & Hh1 & Hnone & Hsome & Hdisj).
    simpl in Hh1, Hnone, Hsome. subst h1.
    unfold load_pair. simpl.
    destruct (load x (h ++ n1)) as [v h2] eqn:Hv.
    destruct (Hx _ _ _ Hv) as (n2 & -> & Hr). simpl.
    exists (n1 ++ n2),
      (λ k, if decide (k = i) then (length (h ++ n1), length ((h ++ n1) ++ n2))
            else rng k).
    split; [by rewrite app_assoc|]. rewrite app_assoc.
    split; [|split].
    + intros k. rewrite !lookup_insert. case_decide; [done|]. auto.
    + intros k t. rewrite !lookup_insert.
      destruct (decide (i = k)) as [<-|Hne].
      * intros [= ->]. exists v. rewrite decide_True by done. simpl.
        split; [done|]. rewrite !length_app. split; [lia|]. split; [lia|].
        by rewrite !length_app in Hr.
      * intros Hk. destruct (Hsome _ _ Hk) as (v' & Hd & ? & ? & Hr').
        exists v'. rewrite decide_False by done.
        split; [done|]. rewrite !length_app in *. split; [lia|].
        split; [lia|].
        eapply repr_grow; [done|lia|lia|]. rewrite length_app. lia.
    + intros k1 k2 Hne. rewrite !lookup_insert.
      destruct (decide (i = k1)) as [<-|Hne1];
        destruct (decide (i = k2)) as [<-|Hne2]; try done.
      * intros _ [t2 Hk2]. rewrite decide_True by done.
        rewrite decide_False by done. simpl.
        destruct (Hsome _ _ Hk2) as (? & ? & ? & ? & ?). right. lia.
      * intros [t1 Hk1] _. rewrite decide_False by done.
        rewrite decide_True by done. simpl.
        destruct (Hsome _ _ Hk1) as (? & ? & ? & ? & ?). left. lia.
      * intros ? ?. rewrite !decide_False by done. auto.
Qed.
End decoder.

Section decoder_spec.
Implicit Types (h : heap) (v : pyval) (t : json).

(** An object is loaded as a new dict, the last object made, after its
    fields. *)
Lemma load_obj_fields (m : gmap string json) h v h' :
  map_Forall (λ _, load_ok) m →
  load (JObj m) h = (v, h') →
  ∃ news d rng,
    h' = h ++ news ++ [PDict d] ∧
    v = PRef (length (h ++ news)) ∧
    fields_at h (h ++ news) rng d m.
Proof.
  intros Hm. simpl.
  destruct (load_fields_spec m h Hm) as (news & rng & Hh & Hf).
  destruct (map_fold _ _ m) as [d h1]. simpl in *. subst h1.
  intros [= <- <-]. exists news, d, rng. by rewrite app_assoc.
Qed.

Lemma load_spec t : load_ok t.
Proof.
  induction t as [| | | | |ts IH|m IH] using json_ind'; intros h v h';
    try (simpl; intros [= <- <-]; exists []; rewrite app_nil_r; split;
         [done|constructor]).
  - simpl. destruct (load_list load ts h) as [vs h1] eqn:Hvs.
    intros [= <- <-].
    destruct (load_list_spec _ _ _ _ IH Hvs) as (news & -> & Hall).
    exists (news ++ [PList vs]). split; [by rewrite app_assoc|].
    apply repr_list with vs.
    + unfold within. rewrite !length_app. simpl. lia.
    + by apply list_lookup_middle.
    + eapply Forall2_impl; [done|]. intros x y Hxy.
      eapply repr_grow; [done|len..].
  - intros Hv.
    destruct (load_obj_fields _ _ _ _ IH Hv)
      as (news & d & rng & -> & -> & Hnone & Hsome & _).
    exists (news ++ [PDict d]). split; [done|].
    rewrite app_assoc. apply repr_dict with d.
    + unfold within. rewrite !length_app. simpl. lia.
    + by apply list_lookup_middle.
    + intros k. destruct (m !! k) as [t|] eqn:Hk.
      * destruct (Hsome _ _ Hk) as (x & -> & ? & ? & Hx). constructor.
        eapply repr_grow; [done|len..].
      * rewrite (Hnone _ Hk). constructor.
Qed.

Lemma json_loads_spec t h :
  ∃ v news, json_loads t h = (Ok v, h ++ news) ∧
    repr (h ++ news) (within (length h) (length (h ++ news))) v t.
Proof.
  unfold json_loads. destruct (load t h) as [v h'] eqn:Hv.
  destruct (load_spec _ _ _ _ Hv) as (news & -> & Hr). eauto.
Qed.

(** What [json.loads] reads, [json.dumps] writes back. *)
Lemma json_roundtrip t h :
  ∃ v h', json_loads t h = (Ok v, h') ∧ json_dumps v h' = (Ok t, h').
Proof.
  destruct (json_loads_spec t h) as (v & news & Hv & Hr).
  exists v, (h ++ news). split; [done|]. by eapply json_dumps_repr.
Qed.
End decoder_spec.

(** ** The nested converter *)

Section nested.
Implicit Types (h : heap) (P Q : addr → Prop) (v : pyval) (t : json).

(** Writing [format] into the [metadata] dict of a record that [load] has
    just built changes the document of the record at that place alone: the
    dict is in no other field, and not inside itself. *)
Lemma set_format_repr h news rng d m md a d0 :
  fields_at h (h ++ news) rng d m →
  m !! "metadata" = Some (JObj md) →
  d !! "metadata" = Some (PRef a) →
  (h ++ news) !! a = Some (PDict d0) →
  repr (<[a := PDict (<["format" := PStr "unified"]> d0)]>
          (h ++ news ++ [PDict d]))
       (within (length h) (length (h ++ news ++ [PDict d])))
       (PRef (length (h ++ news)))
       (JObj (<["metadata" := JObj (<["format" := JStr "unified"]> md)]> m)).
Proof.
  intros (Hnone & Hsome & Hdisj) Hmeta Hvm Ha.
  destruct (Hsome _ _ Hmeta) as (vm & Hvm' & Hlo & Hhi & Hrm).
  simplify_eq. pose proof Hrm as Hrm'. inv_repr Hrm'.
  simplify_eq. destruct HP as [Ha1 Ha2].
  set (dm := <["format" := PStr "unified"]> d0).
  assert (∀ b, b < length (h ++ news) → b ≠ a →
    <[a := PDict dm]> (h ++ news ++ [PDict d]) !! b = (h ++ news) !! b)
    as Hother.
  { intros b Hb Hne. rewrite list_lookup_insert_ne by done.
    rewrite app_assoc. by apply lookup_app_l. }
  apply repr_dict with d.
  - unfold within. len.
  - rewrite list_lookup_insert_ne by lia.
    rewrite app_assoc. by apply list_lookup_middle.
  - intros k. rewrite lookup_insert.
    destruct (decide ("metadata" = k)) as [<-|Hk].
    + rewrite Hvm. constructor. apply repr_dict with dm.
      * unfold within. len.
      * apply list_lookup_insert_eq. len.
      * intros k'. unfold dm. rewrite !lookup_insert.
        destruct (decide ("format" = k')); [repeat constructor|].
        pose proof (Hall k') as Hk'.
        destruct (d0 !! k') eqn:Hd0, (md !! k') eqn:Hmd;
          inversion Hk'; subst; constructor.
        eapply repr_transfer;
          [|eapply (repr_acyclic _ _ _ _ _ a); [done|apply Hrm|]].
        -- intros b [[? ?] ?]. split; [unfold within; len|].
           apply Hother; [lia|done].
        -- apply jsize_lookup in Hmd. simpl. lia.
    + destruct (m !! k) as [t|] eqn:Hmk.
      * destruct (Hsome _ _ Hmk) as (x & -> & ? & ? & Hx). constructor.
        eapply repr_transfer; [|done]. intros b [? ?].
        split; [unfold within; len|].
        destruct (Hdisj "metadata" k) as [?|?]; [done|eauto..| |];
          apply Hother; lia.
      * rewrite (Hnone _ Hmk). constructor.
Qed.

Lemma convert_nested_spec h P r m :
  repr h P r (JObj m) →
  ∃ out news,
    convert_nested_to_unified r h = (Ok out, h ++ news) ∧
    repr (h ++ news) (within (length h) (length (h ++ news))) out
      (spec_nested_to_unified m).
Proof.
  intros Hr. unfold convert_nested_to_unified, mbind, M_bind.
  rewrite (json_dumps_repr _ _ _ _ Hr). unfold json_loads.
  destruct (load (JObj m) h) as [v h'] eqn:Hload.
  destruct (load_spec _ _ _ _ Hload) as (news' & Hh' & Hcopy).
  destruct (load_obj_fields m h v h') as (news & d & rng & -> & -> & Hf);
    [|done|].
  { intros ? ? _. apply load_spec. }
  clear news' Hh' Hload. pose proof Hf as (Hnone & Hsome & _).
  assert ((h ++ news ++ [PDict d]) !! length (h ++ news) = Some (PDict d))
    as Htop.
  { rewrite app_assoc. by apply list_lookup_middle. }
  assert (∀ b x, (h ++ news) !! b = Some x →
                 (h ++ news ++ [PDict d]) !! b = Some x) as Hold.
  { intros b x Hb. rewrite app_assoc. by apply lookup_app_l_Some. }
  unfold contains at 1. cbv beta iota. rewrite Htop.
  unfold spec_nested_to_unified.
  destruct (m !! "metadata") as [tm|] eqn:Hmeta.
  - (* the key is there *)
    destruct (Hsome _ _ Hmeta) as (vm & Hvm & Hlo & _ & Hrm).
    rewrite Hvm, bool_decide_true by eauto. cbv beta iota.
    unfold getitem at 1. cbv beta iota. rewrite Htop, Hvm. cbv beta iota.
    destruct tm as [| | | | |ts|md]; inv_repr Hrm;
      unfold isinstance_dict at 1; cbv beta iota;
      try rewrite (Hold _ _ Hlk); cbv beta iota;
      try (exists (PRef (length (h ++ news))), (news ++ [PDict d]);
           split; [reflexivity|apply Hcopy]).
    (* and holds a dict *)
    unfold getitem. cbv beta iota. rewrite Htop, Hvm.
    unfold setitem, mret, M_ret. cbv beta iota. rewrite (Hold _ _ Hlk).
    destruct HP as [? ?].
    exists (PRef (length (h ++ news))),
      (<[a - length h := PDict (<["format" := PStr "unified"]> d0)]>
         (news ++ [PDict d])).
    rewrite <-insert_app_r_alt by lia. split; [done|].
    rewrite length_insert. by eapply set_format_repr.
  - (* the key is not there *)
    rewrite (Hnone _ Hmeta), bool_decide_false by by inversion 1.
    exists (PRef (length (h ++ news))), (news ++ [PDict d]).
    split; [done|apply Hcopy].
Qed.
End nested.

(** ** The run of the flattened converter *)

Section flattened.
Implicit Types (h : heap) (v : pyval) (d : gmap string pyval).

Lemma lookup_new h (news : heap) i :
  (h ++ news) !! (length h + i) = news !! i.
Proof. rewrite lookup_app_r by lia. f_equal. lia. Qed.

Lemma lookup_new_0 h (news : heap) : (h ++ news) !! length h = news !! 0.
Proof. rewrite <-(lookup_new h news 0). f_equal. lia. Qed.

Lemma closed_lookup h a d k b :
  closed h → h !! a = Some (PDict d) → d !! k = Some (PRef b) → b < length h.
Proof.
  intros Hc Ha Hk. unfold closed in Hc. rewrite Forall_lookup in Hc.
  apply (Hc _ _ Ha _ _ Hk).
Qed.

(** A well-formed item string appends one item dict to the list under
    [items]: the list grows at its end, in the order of the loop. *)
Lemma convert_item_appends h u ud i acc s p0 p1 p2 z :
  h !! u = Some (PDict ud) → ud !! "items" = Some (PRef i) →
  h !! i = Some (PList acc) →
  PyStr.split ":" s = [p0; p1; p2] → PyStr.int p0 = Some z →
  convert_item (PRef u) (PStr s) h
  = (Ok tt,
     <[i := PList (acc ++ [PRef (length h)])]>
       (h ++ [PDict
                {[ "id" := PInt z;
                   "title" := PStr p1;
                   "active" := PBool (String.eqb (PyStr.lower p2) "true") ]}])).
Proof.
  intros Hu Hitems Hi Hs Hp.
  unfold convert_item, split, int, mbind, M_bind. simpl.
  rewrite Hs, Hp. simpl. unfold getitem.
  rewrite (lookup_app_l_Some _ _ _ _ Hu), Hitems. unfold append.
  by rewrite (lookup_app_l_Some _ _ _ _ Hi).
Qed.

(** One turn of the loop, on a store whose new objects begin with the
    dict being built, its user, its metadata and its list of items. *)
Lemma convert_item_run h ud o1 o2 acc objs x :
  ud !! "items" = Some (PRef (length h + 3)) →
  convert_item (PRef (length h)) x
    (h ++ PDict ud :: o1 :: o2 :: PList acc :: objs)
  = match parse_item x with
    | Raise e => (Raise e, h ++ PDict ud :: o1 :: o2 :: PList acc :: objs)
    | Ok None => (Ok tt, h ++ PDict ud :: o1 :: o2 :: PList acc :: objs)
    | Ok (Some it) =>
        (Ok tt, h ++ PDict ud :: o1 :: o2
                  :: PList (acc ++ [PRef (length h + 4 + length objs)])
                  :: (objs ++ [PDict it]))
    end.
Proof.
  intros Hitems. unfold convert_item, parse_item, mbind, M_bind.
  destruct x as [| | | |s|]; try done. simpl.
  destruct (PyStr.split ":" s) as [|p0 [|p1 [|p2 [|]]]]; try done.
  unfold int. destruct (PyStr.int p0) as [id|]; [|done]. simpl.
  rewrite <-app_assoc. simpl.
  unfold getitem. rewrite lookup_new_0. simpl. rewrite Hitems.
  unfold append. rewrite lookup_new. simpl.
  rewrite insert_app_r. simpl. do 10 f_equal. len.
Qed.

Lemma items_loop_run l h ud o1 o2 acc objs :
  ud !! "items" = Some (PRef (length h + 3)) →
  for_each l (convert_item (PRef (length h)))
    (h ++ PDict ud :: o1 :: o2 :: PList acc :: objs)
  = (match (parse_items l).2 with None => Ok tt | Some e => Raise e end,
     h ++ PDict ud :: o1 :: o2
       :: PList (acc ++ (PRef <$> seq (length h + 4 + length objs)
                                      (length (parse_items l).1)))
       :: (objs ++ (PDict <$> (parse_items l).1))).
Proof.
  intros Hitems. revert acc objs.
  induction l as [|x l IH]; intros acc objs; simpl.
  - by rewrite !app_nil_r.
  - unfold mbind, M_bind. rewrite convert_item_run by done.
    destruct (parse_item x) as [[it|]|e]; simpl.
    + rewrite IH. destruct (parse_items l) as [ds r]. simpl.
      rewrite <-!app_assoc. simpl. do 8 f_equal.
      rewrite length_app. simpl. do 3 f_equal. lia.
    + rewrite IH. by destruct (parse_items l).
    + by rewrite !app_nil_r.
Qed.

Section old_objects.
Context (h news : heap) (a : addr) (d : gmap string pyval).
Hypothesis Ha : h !! a = Some (PDict d).

Lemma get_old k dflt :
  get (PRef a) k dflt (h ++ news) = (Ok (default dflt (d !! k)), h ++ news).
Proof. unfold get. by rewrite (lookup_app_l_Some _ _ _ _ Ha). Qed.

Lemma contains_old k :
  contains k (PRef a) (h ++ news)
  = (Ok (bool_decide (is_Some (d !! k))), h ++ news).
Proof. unfold contains. by rewrite (lookup_app_l_Some _ _ _ _ Ha). Qed.

Lemma getitem_old k x :
  d !! k = Some x → getitem (PRef a) k (h ++ news) = (Ok x, h ++ news).
Proof.
  intros Hk. unfold getitem.
  by rewrite (lookup_app_l_Some _ _ _ _ Ha), Hk.
Qed.
End old_objects.

Lemma setitem_first h ud rest k x :
  setitem (PRef (length h)) k x (h ++ PDict ud :: rest)
  = (Ok tt, h ++ PDict (<[k := x]> ud) :: rest).
Proof.
  unfold setitem. rewrite lookup_new_0. simpl. f_equal.
  rewrite <-(Nat.add_0_r (length h)) at 1. by rewrite insert_app_r.
Qed.

Lemma alloc_new h news o :
  alloc o (h ++ news) = (Ok (PRef (length h + length news)), h ++ news ++ [o]).
Proof. unfold alloc. by rewrite length_app, app_assoc. Qed.

Lemma convert_flattened_run h a d :
  closed h → h !! a = Some (PDict d) →
  convert_flattened_to_unified (PRef a) h
  = (unified_result h d, h ++ unified_objects h d).
Proof.
  intros Hc Ha.
  unfold convert_flattened_to_unified, mbind, M_bind.
  unfold alloc at 1. cbv beta iota.
  repeat first
    [ rewrite (get_old _ _ _ _ Ha)
    | rewrite setitem_first
    | rewrite alloc_new; cbn [length app]
    | progress cbv beta iota ].
  rewrite (contains_old _ _ _ _ Ha). cbv beta iota.
  unfold unified_result, unified_objects, source_items.
  fold (unified_user d). fold (unified_metadata d).
  fold (unified_header d (length h)).
  destruct (d !! "items") as [x|] eqn:Hx.
  2:{ rewrite bool_decide_false by by inversion 1. done. }
  rewrite bool_decide_true by eauto. cbv beta iota.
  rewrite (getitem_old _ _ _ _ Ha _ _ Hx). cbv beta iota.
  unfold isinstance_list.
  destruct x as [| | | | |b]; try done.
  pose proof (closed_lookup _ _ _ _ _ Hc Ha Hx) as Hb.
  rewrite lookup_app_l by done.
  destruct (h !! b) as [[l|?]|] eqn:Hl; try done. cbv beta iota.
  rewrite (getitem_old _ _ _ _ Ha _ _ Hx). cbv beta iota.
  unfold elements. rewrite (lookup_app_l_Some _ _ _ _ Hl). cbv beta iota.
  rewrite items_loop_run by done. simpl.
  rewrite Nat.add_0_r.
  by destruct (parse_items l) as [ds [e|]].
Qed.
End flattened.

(** ** The document of its output *)

Section flattened_output.
Implicit Types (h : heap) (v : pyval) (d : gmap string pyval).

Lemma encode_immutable fuel h ms v :
  immutable v → encode fuel h ms v = Ok (doc_of v).
Proof. by destruct v, fuel. Qed.

Lemma immutable_repr h P v : immutable v → repr h P v (doc_of v).
Proof. destruct v; try done; constructor. Qed.

Lemma parse_item_immutable x it :
  parse_item x = Ok (Some it) → map_Forall (λ _, immutable) it.
Proof.
  unfold parse_item. destruct x as [| | | |s|]; try done.
  destruct (PyStr.split ":" s) as [|p0 [|p1 [|p2 [|]]]]; try done.
  destruct (PyStr.int p0); [|done]. intros [= <-] k v.
  rewrite !lookup_insert, lookup_singleton.
  repeat case_decide; by intros [= <-].
Qed.

Lemma parse_items_immutable l :
  Forall (map_Forall (λ _, immutable)) (parse_items l).1.
Proof.
  induction l as [|x l IH]; simpl; [constructor|].
  destruct (parse_item x) as [[it|]|e] eqn:Hx; [| |constructor].
  - destruct (parse_items l) as [ds r]. simpl in *.
    constructor; [|done]. by eapply parse_item_immutable.
  - by destruct (parse_items l).
Qed.

Lemma item_repr h P a it :
  P a → h !! a = Some (PDict it) → map_Forall (λ _, immutable) it →
  repr h P (PRef a) (item_doc it).
Proof.
  intros HP Ha Hit. apply repr_dict with it; [done..|].
  intros k. rewrite lookup_fmap.
  destruct (it !! k) as [v|] eqn:Hk; constructor.
  apply immutable_repr. by eapply Hit.
Qed.

Lemma field_doc_repr h news d P Pf k dflt :
  immutable dflt →
  (∀ v, d !! k = Some v → ∃ t, repr h Pf v t) →
  (∀ a, Pf a → P a) →
  repr (h ++ news) P (default dflt (d !! k)) (field_doc h d k dflt).
Proof.
  intros Hdflt Hk HP. unfold field_doc, json_dumps. simpl.
  destruct (d !! k) as [v|]; simpl.
  - destruct (Hk v) as [t Ht]; [done|].
    pose proof (json_dumps_repr _ _ _ _ Ht) as Hd.
    unfold json_dumps in Hd. injection Hd as ->.
    eapply repr_transfer; [|by apply repr_valid].
    intros a [? ?]. split; [auto|]. by apply lookup_app_l.
  - rewrite encode_immutable by done. by apply immutable_repr.
Qed.

Lemma flattened_output_repr h d (P Pf : addr → Prop) :
  (∀ k v, k ∈ scalar_keys → d !! k = Some v → ∃ t, repr h Pf v t) →
  (∀ a, Pf a → P a) →
  (∀ a, length h ≤ a → P a) →
  repr (h ++ unified_objects h d) P (PRef (length h)) (unified_doc h d).
Proof.
  intros Hfields HPf Hnew.
  assert (∀ k dflt, k ∈ scalar_keys → immutable dflt →
    repr (h ++ unified_objects h d) P (default dflt (d !! k))
         (field_doc h d k dflt)) as Hfield.
  { intros k dflt Hk Hdflt. eapply field_doc_repr; eauto. }
  unfold unified_doc.
  apply repr_dict with (unified_header d (length h));
    [apply Hnew; lia|by rewrite lookup_new_0|].
  intros k. unfold unified_header. rewrite !lookup_insert, !lookup_empty.
  repeat case_decide; constructor.
  - (* items *)
    apply repr_list with
      (PRef <$> seq (length h + 4) (length (parse_items (source_items h d)).1));
      [apply Hnew; lia|by rewrite lookup_new|].
    pose proof (parse_items_immutable (source_items h d)) as Hds.
    unfold unified_objects.
    generalize dependent (parse_items (source_items h d)).1.
    intros ds Hds. apply Forall2_fmap, Forall2_lookup. intros i.
    destruct (ds !! i) as [it|] eqn:Hi.
    + rewrite lookup_seq_lt by by eapply lookup_lt_Some.
      constructor. apply item_repr; [apply Hnew; lia| |].
      * replace (length h + 4 + i) with (length h + (4 + i)) by lia.
        rewrite lookup_new. simpl. by rewrite list_lookup_fmap, Hi.
      * by eapply Forall_lookup_1 in Hds.
    + rewrite lookup_seq_ge; [constructor|]. by apply lookup_ge_None.
  - (* metadata *)
    apply repr_dict with (unified_metadata d);
      [apply Hnew; lia|by rewrite lookup_new|].
    intros k'. unfold unified_metadata.
    rewrite !lookup_insert, !lookup_singleton.
    repeat case_decide; constructor;
      try (apply Hfield; [in_keys|done]). constructor.
  - (* user *)
    apply repr_dict with (unified_user d);
      [apply Hnew; lia|by rewrite lookup_new|].
    intros k'. unfold unified_user.
    rewrite !lookup_insert, !lookup_singleton.
    repeat case_decide; constructor; apply Hfield; (in_keys || done).
  - apply Hfield; [in_keys|done].
  - apply Hfield; [in_keys|done].
Qed.
End flattened_output.

(** ** Values that share no container *)

Section sharing.
Implicit Types (h : heap) (v : pyval) (d : gmap string pyval).

Lemma separate_intro h news (P : addr → Prop) r out t t' :
  repr h P r t →
  repr (h ++ news) (within (length h) (length (h ++ news))) out t' →
  separate h news r out.
Proof.
  intros Hr Hout. split.
  - exists t. intros news'.
    rewrite (json_dumps_repr (h ++ news') (λ a, P a ∧ a < length h) r t);
      [done|].
    eapply repr_transfer; [|by apply repr_valid].
    intros a [? ?]. split; [done|]. by apply lookup_app_l.
  - exists t'. intros h0 Hlen.
    rewrite (json_dumps_repr (h0 ++ news)
               (within (length h) (length (h ++ news))) out t'); [done|].
    eapply repr_transfer; [|done].
    intros a [? ?]. split; [done|].
    rewrite !lookup_app_r by lia. by rewrite Hlen.
Qed.
End sharing.

(** ** The loop on the items *)

Section items.
Implicit Types (h : heap) (v : pyval) (d : gmap string pyval).

Lemma parse_item_malformed s :
  length (PyStr.split ":" s) ≠ 3 → parse_item (PStr s) = Ok None.
Proof.
  unfold parse_item.
  by destruct (PyStr.split ":" s) as [|p0 [|p1 [|p2 [|]]]].
Qed.

Lemma parse_items_app pre post :
  parse_items (pre ++ post)
  = match (parse_items pre).2 with
    | Some e => parse_items pre
    | None => ((parse_items pre).1 ++ (parse_items post).1,
               (parse_items post).2)
    end.
Proof.
  induction pre as [|x pre IH]; simpl.
  - by destruct (parse_items post).
  - destruct (parse_item x) as [o|e]; [|done]. rewrite IH.
    destruct (parse_items pre) as [ds [e|]]; simpl; [done|].
    by destruct o.
Qed.

Lemma parse_items_skip pre x post :
  parse_item x = Ok None →
  parse_items (pre ++ x :: post) = parse_items (pre ++ post).
Proof.
  intros Hx. rewrite !parse_items_app. simpl. rewrite Hx.
  by destruct (parse_items post).
Qed.

Lemma closed_insert_list h b l l' :
  closed h → h !! b = Some (PList l) → l' ⊆ l →
  closed (<[b := PList l']> h).
Proof.
  unfold closed. intros Hc Hb Hsub. rewrite length_insert.
  apply Forall_insert; [done|]. simpl.
  rewrite Forall_lookup in Hc. specialize (Hc _ _ Hb). simpl in Hc.
  rewrite Forall_forall in Hc. apply Forall_forall. auto.
Qed.

Lemma source_items_list h d b l :
  d !! "items" = Some (PRef b) → h !! b = Some (PList l) →
  source_items h d = l.
Proof. intros Hd Hb. unfold source_items. by rewrite Hd, Hb. Qed.
End items.

(** ** Item strings that raise *)

Section errors.
Lemma parse_item_str_result s :
  (∃ o, parse_item (PStr s) = Ok o) ∨ parse_item (PStr s) = Raise ValueError.
Proof.
  unfold parse_item.
  destruct (PyStr.split ":" s) as [|p0 [|p1 [|p2 [|]]]]; eauto.
  destruct (PyStr.int p0); eauto.
Qed.

Lemma parse_items_strs_result pre :
  Forall is_str pre →
  (parse_items pre).2 = None ∨ (parse_items pre).2 = Some ValueError.
Proof.
  induction 1 as [|x pre Hx _ IH]; simpl; [by left|].
  destruct x as [| | | |s|]; try done.
  destruct (parse_item_str_result s) as [[o ->]| ->]; [|by right].
  by destruct (parse_items pre).
Qed.

Lemma parse_item_bad_id s p0 p1 p2 :
  PyStr.split ":" s = [p0; p1; p2] → PyStr.int p0 = None →
  parse_item (PStr s) = Raise ValueError.
Proof. intros Hs Hp. unfold parse_item. by rewrite Hs, Hp. Qed.

Lemma parse_items_raise x l e :
  parse_item x = Raise e → parse_items (x :: l) = ([], Some e).
Proof. intros Hx. simpl. by rewrite Hx. Qed.
End errors.

(** ** Elements that are not strings *)

Section non_strings.
Lemma parse_item_non_str x :
  ¬ is_str x → parse_item x = Raise AttributeError.
Proof. by destruct x. Qed.

Lemma parse_item_error x e :
  parse_item x = Raise e →
  (e = AttributeError ∧ ¬ is_str x) ∨
  (e = ValueError ∧ ∃ s p0 p1 p2,
     x = PStr s ∧ PyStr.split ":" s = [p0; p1; p2] ∧ PyStr.int p0 = None).
Proof.
  unfold parse_item. destruct x as [| | | |s|];
    try (intros [= <-]; left; split; [done|tauto]).
  destruct (PyStr.split ":" s) as [|p0 [|p1 [|p2 [|]]]] eqn:Hs; try done.
  destruct (PyStr.int p0) eqn:Hp; [done|]. intros [= <-].
  right. split; [done|]. by exists s, p0, p1, p2.
Qed.

Lemma parse_items_error l e :
  (parse_items l).2 = Some e →
  e = AttributeError ∨
  (e = ValueError ∧ ∃ s p0 p1 p2,
     PStr s ∈ l ∧ PyStr.split ":" s = [p0; p1; p2] ∧ PyStr.int p0 = None).
Proof.
  induction l as [|x l IH]; simpl; [done|].
  destruct (parse_item x) as [o|e'] eqn:Hx.
  - destruct (parse_items l) as [ds r]. simpl in *. intros Hr.
    destruct (IH Hr) as [?|(? & s & p0 & p1 & p2 & ? & ? & ?)]; [by left|].
    right. split; [done|]. exists s, p0, p1, p2.
    split; [by apply list_elem_of_further|done].
  - simpl. intros [= <-].
    destruct (parse_item_error _ _ Hx)
      as [[? _]|(? & s & p0 & p1 & p2 & -> & ? & ?)]; [by left|].
    right. split; [done|]. exists s, p0, p1, p2.
    split; [by apply list_elem_of_here|done].
Qed.
End non_strings.

(** ** What the flattened converter reads *)

Section inputs.
Implicit Types (h : heap) (v : pyval) (d : gmap string pyval).

(** Two values with the same document are the same element for the loop. *)
Lemma parse_item_same_doc h1 h2 (P1 P2 : addr → Prop) x1 x2 t :
  repr h1 P1 x1 t → repr h2 P2 x2 t → parse_item x1 = parse_item x2.
Proof. intros H1 H2. by inv_repr H1; inv_repr H2. Qed.

Lemma parse_items_same_doc h1 h2 (P1 P2 : addr → Prop) l1 l2 ts :
  Forall2 (repr h1 P1) l1 ts → Forall2 (repr h2 P2) l2 ts →
  parse_items l1 = parse_items l2.
Proof.
  intros H1. revert l2.
  induction H1 as [|x1 t l1 ts Hx1 _ IH]; intros l2 H2;
    inversion H2 as [|x2 ? l2' ? Hx2 Hl2]; subst; [done|].
  simpl. rewrite (parse_item_same_doc _ _ _ _ _ _ _ Hx1 Hx2).
  by rewrite (IH _ Hl2).
Qed.

Lemma source_items_same_doc h1 h2 d1 d2 :
  same_field h1 d1 h2 d2 "items" →
  parse_items (source_items h1 d1) = parse_items (source_items h2 d2).
Proof.
  unfold same_field, source_items.
  destruct (d1 !! "items") as [v1|], (d2 !! "items") as [v2|]; try done.
  intros (t & H1%json_dumps_inv & H2%json_dumps_inv).
  inv_repr H1; inv_repr H2; try done.
  - rewrite Hlk, Hlk0. by eapply parse_items_same_doc.
  - by rewrite Hlk, Hlk0.
Qed.

Lemma field_doc_same h1 h2 d1 d2 k dflt :
  same_field h1 d1 h2 d2 k →
  immutable dflt →
  field_doc h1 d1 k dflt = field_doc h2 d2 k dflt.
Proof.
  unfold same_field, field_doc.
  destruct (d1 !! k) as [v1|], (d2 !! k) as [v2|]; try done; simpl.
  - by intros (t & -> & ->).
  - intros _ Hd. unfold json_dumps. simpl.
    by rewrite !encode_immutable.
Qed.

Lemma unified_doc_same h1 h2 d1 d2 :
  (∀ k, k ∈ input_keys → same_field h1 d1 h2 d2 k) →
  unified_doc h1 d1 = unified_doc h2 d2.
Proof.
  intros Hsame. unfold unified_doc.
  rewrite (source_items_same_doc h1 h2 d1 d2)
    by (apply Hsame; in_keys).
  rewrite !(field_doc_same h1 h2 d1 d2)
    by (done || apply Hsame; in_keys).
  done.
Qed.

Lemma same_field_doc h1 h2 d1 d2 k v :
  same_field h1 d1 h2 d2 k → d1 !! k = Some v →
  ∃ t, repr h1 (within 0 (length h1)) v t.
Proof.
  unfold same_field. intros Hsame Hk. rewrite Hk in Hsame.
  destruct (d2 !! k); [|done].
  destruct Hsame as (t & Ht%json_dumps_inv & _). eauto.
Qed.

Lemma same_field_sym h1 h2 d1 d2 k :
  same_field h1 d1 h2 d2 k → same_field h2 d2 h1 d1 k.
Proof.
  unfold same_field. destruct (d1 !! k), (d2 !! k); try done.
  intros (t & ? & ?). eauto.
Qed.

Lemma unified_output_doc h a d :
  closed h → h !! a = Some (PDict d) →
  (∀ k v, k ∈ scalar_keys → d !! k = Some v →
     ∃ t, repr h (within 0 (length h)) v t) →
  (json_dumps (PRef (length h)) (h ++ unified_objects h d)).1
  = Ok (unified_doc h d).
Proof.
  intros Hc Ha Hfields.
  rewrite (json_dumps_repr _ (λ _, True) _ (unified_doc h d)); [done|].
  by eapply flattened_output_repr.
Qed.
End inputs.

(** ** What the encoder raises *)

Section encoder_errors.
Implicit Types (h : heap) (v : pyval) (t : json).

Lemma encode_raises fuel h ms v e :
  encode fuel h ms v = Raise e →
  e = ValueError ∨ e = TypeError ∨ e = RecursionError.
Proof.
  revert ms v. induction fuel as [|fuel IH]; intros ms v;
    destruct v as [| | | | |a]; simpl; try done;
    destruct (h !! a) as [o|]; try (intros [= <-]; tauto);
    case_decide; try (intros [= <-]; tauto).
  destruct o as [l|d].
  - destruct (mapM _ l) as [ts|e'] eqn:Hl; simpl; [done|].
    intros [= ->]. apply mapM_Raise in Hl as (x & _ & Hx). eauto.
  - destruct (map_mapM _ d) as [m|e'] eqn:Hd; simpl; [done|].
    intros [= ->]. apply map_mapM_Raise in Hd as (k & x & _ & Hx). eauto.
Qed.

Lemma closed_elem h a o x :
  closed h → h !! a = Some o →
  match o with PList l => x ∈ l | PDict d => ∃ k, d !! k = Some x end →
  val_closed (length h) x.
Proof.
  intros Hc Ha Hx. unfold closed in Hc. rewrite Forall_lookup in Hc.
  specialize (Hc _ _ Ha). destruct o as [l|d]; simpl in Hc.
  - rewrite Forall_forall in Hc. auto.
  - destruct Hx as [k Hk]. by apply (Hc k).
Qed.

(** In a closed store every reference is to a list or a dict, which the
    encoder knows. *)
Lemma encode_closed fuel h ms v :
  closed h → val_closed (length h) v → encode fuel h ms v ≠ Raise TypeError.
Proof.
  intros Hc. revert ms v. induction fuel as [|fuel IH]; intros ms v Hv;
    destruct v as [| | | | |a]; simpl; try done; simpl in Hv;
    destruct (h !! a) as [o|] eqn:Ha;
    try (apply lookup_ge_None in Ha; lia);
    case_decide; try done.
  destruct o as [l|d].
  - destruct (mapM _ l) as [ts|e'] eqn:Hl; simpl; [done|].
    intros [= ->]. apply mapM_Raise in Hl as (x & Hin & Hx).
    eapply IH; [|done]. by eapply (closed_elem h a (PList l)).
  - destruct (map_mapM _ d) as [m|e'] eqn:Hd; simpl; [done|].
    intros [= ->]. apply map_mapM_Raise in Hd as (k & x & Hk & Hx).
    eapply IH; [|done]. eapply (closed_elem h a (PDict d)); eauto.
Qed.

Lemma json_dumps_raises h v e :
  (json_dumps v h).1 = Raise e → e = ValueError ∨ e = TypeError.
Proof.
  intros He. pose proof (json_dumps_fuel h v) as Hfuel.
  destruct (encode_raises _ _ _ _ _ He) as [?|[?| ->]]; auto. done.
Qed.

Lemma json_dumps_closed h v :
  closed h → val_closed (length h) v →
  (∃ t, json_dumps v h = (Ok t, h)) ∨ json_dumps v h = (Raise ValueError, h).
Proof.
  intros Hc Hv. unfold json_dumps.
  destruct (encode (length h) h [] v) as [t|e] eqn:He; [eauto|].
  right. destruct (json_dumps_raises h v e He) as [->| ->]; [done|].
  by destruct (encode_closed _ _ _ _ Hc Hv He).
Qed.
End encoder_errors.

(** ** Containers inside themselves *)

Section cycles.
Implicit Types (h : heap) (v : pyval) (t : json).

Lemma repr_holds h P a o x t :
  repr h P (PRef a) t → h !! a = Some o → holds o x →
  ∃ t', repr h P x t' ∧ jsize t' < jsize t.
Proof.
  intros Hr Ha Hx. inv_repr Hr; simplify_eq; simpl in Hx.
  - apply list_elem_of_lookup in Hx as [i Hi].
    destruct (Forall2_lookup_l _ _ _ _ _ Hall Hi) as (t' & Ht' & Hr').
    exists t'. split; [done|]. simpl.
    apply list_elem_of_lookup_2, jsize_elem in Ht'. lia.
  - destruct Hx as [k Hk]. pose proof (Hall k) as Hk'.
    rewrite Hk in Hk'. destruct (m !! k) as [t'|] eqn:Hm; inversion Hk'; subst.
    exists t'. split; [done|]. simpl. apply jsize_lookup in Hm. lia.
Qed.

Lemma repr_inside h P a b t :
  repr h P (PRef a) t → inside h a b →
  ∃ t', repr h P (PRef b) t' ∧ jsize t' < jsize t.
Proof.
  intros Hr Hin. revert t Hr.
  induction Hin as [a o b Ha Hb|a o b c Ha Hb _ IH]; intros t Hr.
  - by eapply repr_holds.
  - destruct (repr_holds _ _ _ _ _ _ Hr Ha Hb) as (t1 & Hr1 & ?).
    destruct (IH _ Hr1) as (t2 & Hr2 & ?). exists t2. split; [done|lia].
Qed.

(** A value that reaches a container which is inside itself has no
    document. *)
Lemma cyclic_no_repr h P a t : repr h P (PRef a) t → ¬ inside h a a.
Proof.
  intros Hr Hin. destruct (repr_inside _ _ _ _ _ Hr Hin) as (t' & Hr' & ?).
  pose proof (repr_det _ _ _ _ _ _ Hr Hr'). subst. lia.
Qed.

Lemma reaches_no_repr h P v a t :
  repr h P v t → v = PRef a ∨ (∃ b, v = PRef b ∧ inside h b a) → ¬ inside h a a.
Proof.
  intros Hr [->|(b & -> & Hb)]; [by eapply cyclic_no_repr|].
  destruct (repr_inside _ _ _ _ _ Hr Hb) as (t' & Hr' & _).
  by eapply cyclic_no_repr.
Qed.
End cycles.

(** ** The nested converter on values that are no mapping *)

Section nested_inputs.
Implicit Types (h : heap) (P : addr → Prop) (v : pyval) (t : json).

Lemma repr_str_l h P s t : repr h P (PStr s) t → t = JStr s.
Proof. intros H. by inv_repr H. Qed.

Lemma repr_str_r h P v s : repr h P v (JStr s) → v = PStr s.
Proof. intros H. by inv_repr H. Qed.

Lemma repr_elem_str h P vs ts s :
  Forall2 (repr h P) vs ts → PStr s ∈ vs ↔ JStr s ∈ ts.
Proof.
  induction 1 as [|v t vs ts Hv _ IH]; [by rewrite !elem_of_nil|].
  rewrite !elem_of_cons, IH. split; (intros [Heq|?]; [left|by right]).
  - subst. symmetry. by eapply repr_str_l.
  - subst. symmetry. by eapply repr_str_r.
Qed.

Lemma convert_nested_raise h v e :
  json_dumps v h = (Raise e, h) →
  convert_nested_to_unified v h = (Raise e, h).
Proof.
  intros He. unfold convert_nested_to_unified, mbind, M_bind. by rewrite He.
Qed.

Lemma convert_nested_immutable h v :
  immutable v →
  convert_nested_to_unified v h
  = (match v with
     | PStr s => if is_substring "metadata" s then Raise TypeError else Ok v
     | _ => Raise TypeError
     end, h).
Proof.
  intros Hv. unfold convert_nested_to_unified, mbind, M_bind, json_dumps.
  rewrite encode_immutable by done.
  destruct v as [| | | |s|]; try done. simpl.
  by destruct (is_substring "metadata" s).
Qed.

Lemma convert_nested_array h P r ts :
  repr h P r (JArr ts) →
  ∃ out news,
    repr (h ++ news) (within (length h) (length (h ++ news))) out (JArr ts) ∧
    (JStr "metadata" ∈ ts →
     convert_nested_to_unified r h = (Raise TypeError, h ++ news)) ∧
    (JStr "metadata" ∉ ts →
     convert_nested_to_unified r h = (Ok out, h ++ news)).
Proof.
  intros Hr.
  destruct (json_loads_spec (JArr ts) h) as (out & news & Hload & Hout).
  exists out, news. split; [done|].
  assert (convert_nested_to_unified r h
          = (if bool_decide (PStr "metadata" ∈
                 match out with
                 | PRef a => match (h ++ news) !! a with
                             | Some (PList vs) => vs
                             | _ => []
                             end
                 | _ => []
                 end)
             then Raise TypeError else Ok out, h ++ news)) as ->.
  { unfold convert_nested_to_unified, mbind, M_bind.
    rewrite (json_dumps_repr _ _ _ _ Hr), Hload. inv_repr Hout.
    unfold contains at 1. cbv beta iota. rewrite Hlk.
    case_bool_decide; cbv beta iota; [|done].
    unfold getitem. by rewrite Hlk. }
  inv_repr Hout. rewrite Hlk.
  pose proof (repr_elem_str _ _ _ _ "metadata" Hall) as Hin.
  case_bool_decide; split; (done || tauto).
Qed.


Lemma convert_nested_circular h r a :
  closed h → r < length h → r = a ∨ inside h r a → inside h a a →
  convert_nested_to_unified (PRef r) h = (Raise ValueError, h).
Proof.
  intros Hc Hr Hreach Hcyc. apply convert_nested_raise.
  destruct (json_dumps_closed h (PRef r) Hc Hr) as [[t Ht]|?]; [|done].
  assert (repr h (within 0 (length h)) (PRef r) t) as Hrep.
  { apply json_dumps_inv. by rewrite Ht. }
  destruct (reaches_no_repr h _ (PRef r) a t Hrep); [|done].
  destruct Hreach as [->|?]; [by left|right; eauto].
Qed.
End nested_inputs.

(** ** The decoder keeps the store closed *)

Section decoder_closed.
Implicit Types (h : heap) (v : pyval) (t : json).

Lemma val_closed_mono n n' v : val_closed n v → n ≤ n' → val_closed n' v.
Proof. destruct v; simpl; lia. Qed.

Lemma obj_closed_mono n n' o : obj_closed n o → n ≤ n' → obj_closed n' o.
Proof.
  destruct o as [l|d]; simpl; intros Ho Hle.
  - eapply Forall_impl; [done|]. eauto using val_closed_mono.
  - eapply map_Forall_impl; [done|]. simpl. eauto using val_closed_mono.
Qed.

Lemma closed_snoc h o :
  closed h → obj_closed (S (length h)) o → closed (h ++ [o]).
Proof.
  unfold closed. intros Hc Ho. rewrite length_app. simpl.
  rewrite Nat.add_1_r. apply Forall_app. split.
  - eapply Forall_impl; [done|]. intros x Hx.
    eapply obj_closed_mono; [done|lia].
  - by constructor.
Qed.

Lemma load_list_closed ts h vs h1 :
  Forall load_closed ts → closed h →
  load_list load ts h = (vs, h1) →
  closed h1 ∧ Forall (val_closed (length h1)) vs ∧ length h ≤ length h1.
Proof.
  intros Hts. revert h vs h1.
  induction Hts as [|t ts Ht _ IH]; intros h vs h1 Hc; simpl.
  - intros [= <- <-]. by repeat split.
  - destruct (load t h) as [v h2] eqn:Hv.
    destruct (load_list load ts h2) as [vs' h3] eqn:Hvs.
    intros [= <- <-].
    destruct (Ht _ _ _ Hc Hv) as (Hc2 & Hv2 & ?).
    destruct (IH _ _ _ Hc2 Hvs) as (Hc3 & Hvs3 & ?).
    split; [done|]. split; [|lia].
    constructor; [|done]. eapply val_closed_mono; [done|lia].
Qed.

Lemma load_fields_closed (m : gmap string json) h :
  map_Forall (λ _, load_closed) m → closed h →
  closed (map_fold (load_pair load) (∅, h) m).2 ∧
  map_Forall (λ _, val_closed
                (length (map_fold (load_pair load) (∅, h) m).2))
             (map_fold (load_pair load) (∅, h) m).1 ∧
  length h ≤ length (map_fold (load_pair load) (∅, h) m).2.
Proof.
  intros Hm Hc. revert Hm.
  apply (map_fold_weak_ind (λ r m, map_Forall (λ _, load_closed) m →
    closed r.2 ∧ map_Forall (λ _, val_closed (length r.2)) r.1 ∧
    length h ≤ length r.2)).
  - intros _. split; [done|]. split; [|done]. apply map_Forall_empty.
  - intros i x m' [d h1] Hi IH Hall.
    apply map_Forall_insert in Hall as [Hx Hall]; [|done].
    destruct (IH Hall) as (Hc1 & Hd & ?). simpl in *.
    unfold load_pair. simpl.
    destruct (load x h1) as [v h2] eqn:Hv. simpl.
    destruct (Hx _ _ _ Hc1 Hv) as (Hc2 & Hv2 & ?).
    split; [done|]. split; [|lia].
    apply map_Forall_insert_2; [done|].
    eapply map_Forall_impl; [done|]. simpl.
    intros ? ? ?. eapply val_closed_mono; [done|lia].
Qed.

Lemma load_keeps_closed t : load_closed t.
Proof.
  induction t as [| | | | |ts IH|m IH] using json_ind'; intros h v h' Hc;
    try (simpl; intros [= <- <-]; by repeat split).
  - simpl. destruct (load_list load ts h) as [vs h1] eqn:Hvs.
    intros [= <- <-].
    destruct (load_list_closed _ _ _ _ IH Hc Hvs) as (Hc1 & Hvs1 & ?).
    rewrite length_app. simpl. split; [|split; lia].
    apply closed_snoc; [done|]. simpl.
    eapply Forall_impl; [done|]. intros ? ?.
    eapply val_closed_mono; [done|lia].
  - simpl. pose proof (load_fields_closed m h IH Hc) as (Hc1 & Hd & ?).
    destruct (map_fold _ _ m) as [d h1]. simpl in *.
    intros [= <- <-]. rewrite length_app. simpl. split; [|split; lia].
    apply closed_snoc; [done|]. simpl.
    eapply map_Forall_impl; [done|]. simpl. intros ? ? ?.
    eapply val_closed_mono; [done|lia].
Qed.

Lemma json_loads_closed t h v h' :
  closed h → json_loads t h = (Ok v, h') →
  closed h' ∧ val_closed (length h') v.
Proof.
  unfold json_loads. intros Hc. destruct (load t h) as [v0 h0] eqn:Hl.
  intros [= <- <-]. destruct (load_keeps_closed t _ _ _ Hc Hl) as (? & ? & _).
  done.
Qed.
End decoder_closed.

(** ** The flattened converter on documents *)

Section flattened_documents.
Implicit Types (h : heap) (v : pyval) (d : gmap string pyval)
  (m : gmap string json).

Lemma unified_record_eq m items :
  unified_record m items
  = JObj
      (<["items" := JArr items]>
        (<["metadata" :=
             JObj
               {[ "version" := default (JStr "") (m !! "metadata_version");
                  "format" := JStr "unified";
                  "encoding" :=
                    default (JStr "") (m !! "metadata_encoding") ]}]>
          (<["user" :=
               JObj {[ "id" := default JNull (m !! "user_id");
                       "name" := default (JStr "") (m !! "user_name");
                       "email" := default (JStr "") (m !! "user_email") ]}]>
            (<["timestamp" := default (JStr "") (m !! "timestamp")]>
              (<["message" := default (JStr "") (m !! "message")]> ∅))))).
Proof.
  reflexivity.
Qed.

(** The document of a field read with [get] is the field of the record's
    document, or the document of the default. *)
Lemma field_doc_loaded h (P : addr → Prop) d m k dflt :
  map_Forall2 (λ _, repr h P) d m → immutable dflt →
  field_doc h d k dflt = default (doc_of dflt) (m !! k).
Proof.
  intros Hdm Hdflt. unfold field_doc. pose proof (Hdm k) as Hk.
  destruct (d !! k) as [v|], (m !! k) as [t|]; inversion Hk; subst.
  - change (default dflt (Some v)) with v.
    by erewrite json_dumps_repr.
  - unfold json_dumps. simpl. by rewrite encode_immutable.
Qed.

(** The run on a document: the record is loaded into an empty store and
    converted, and the result is written out. *)
Lemma on_document_flattened m :
  ∃ h a d,
    closed h ∧ h !! a = Some (PDict d) ∧
    map_Forall2 (λ _, repr h (within 0 (length h))) d m ∧
    on_document convert_flattened_to_unified (JObj m)
    = match (parse_items (source_items h d)).2 with
      | Some e => Raise e
      | None =>
          Ok (unified_record m
                (item_doc <$> (parse_items (source_items h d)).1))
      end.
Proof.
  destruct (json_loads_spec (JObj m) []) as (r & h & Hload & Hr).
  simpl in Hload, Hr.
  destruct (json_loads_closed _ _ _ _ (Forall_nil_2 _) Hload) as [Hc _].
  inv_repr Hr. exists h, a, d. split; [done|]. split; [done|].
  split; [done|].
  unfold on_document, mbind, M_bind. rewrite Hload.
  rewrite (convert_flattened_run _ _ _ Hc Hlk). unfold unified_result.
  destruct (parse_items (source_items h d)) as [ds [e|]] eqn:Hds;
    simpl; [done|].
  change (encode _ _ [] (PRef (length h)))
    with (json_dumps (PRef (length h)) (h ++ unified_objects h d)).1.
  rewrite (unified_output_doc h a d Hc Hlk).
  - f_equal. rewrite unified_record_eq. unfold unified_doc.
    rewrite Hds. simpl.
    by rewrite !(field_doc_loaded h _ d m) by done.
  - intros k v _ Hv. pose proof (Hall k) as Hk. rewrite Hv in Hk.
    inversion Hk; subst. eauto.
Qed.

Lemma repr_strs h (P : addr → Prop) vs ss :
  Forall2 (repr h P) vs (JStr <$> ss) → vs = PStr <$> ss.
Proof.
  revert vs. induction ss as [|s ss IH]; intros vs Hvs; simpl in *;
    inversion Hvs; subst; [done|].
  simpl. f_equal; [by eapply repr_str_r|auto].
Qed.

Lemma on_document_flattened_strs m ss :
  m !! "items" = Some (JArr (JStr <$> ss)) →
  on_document convert_flattened_to_unified (JObj m)
  = match (parse_items (PStr <$> ss)).2 with
    | Some e => Raise e
    | None =>
        Ok (unified_record m (item_doc <$> (parse_items (PStr <$> ss)).1))
    end.
Proof.
  intros Hitems.
  destruct (on_document_flattened m) as (h & a & d & _ & _ & Hdm & ->).
  assert (source_items h d = PStr <$> ss) as ->; [|done].
  unfold source_items. pose proof (Hdm "items") as Hk. rewrite Hitems in Hk.
  destruct (d !! "items") as [v|]; inversion Hk as [? ? Hv|]; subst.
  inv_repr Hv. rewrite Hlk. by eapply repr_strs.
Qed.

Lemma on_document_flattened_no_list m :
  (∀ ts, m !! "items" ≠ Some (JArr ts)) →
  on_document convert_flattened_to_unified (JObj m)
  = Ok (unified_record m []).
Proof.
  intros Hitems.
  destruct (on_document_flattened m) as (h & a & d & _ & _ & Hdm & ->).
  assert (source_items h d = []) as ->; [|done].
  unfold source_items. pose proof (Hdm "items") as Hk.
  destruct (d !! "items") as [v|], (m !! "items") as [t|] eqn:Hm;
    inversion Hk as [? ? Hv|]; subst; [|done].
  inv_repr Hv; try done; [|by rewrite Hlk]. by destruct (Hitems ts).
Qed.
End flattened_documents.

(** ** Splitting at a character *)

Section splitting.
Implicit Types (sep : ascii) (s p : string).

Lemma split_cons sep s : ∃ p ps, PyStr.split sep s = p :: ps.
Proof.
  induction s as [|c s (p & ps & IH)]; simpl; [eauto|].
  destruct (Ascii.eqb c sep); [eauto|]. rewrite IH. eauto.
Qed.

(** One part more than there are separators. *)
Lemma split_length sep s :
  length (PyStr.split sep s) = S (occurrences sep s).
Proof.
  induction s as [|c s IH]; simpl; [done|].
  destruct (Ascii.eqb c sep); simpl; [by rewrite IH|].
  destruct (split_cons sep s) as (p & ps & Hs). rewrite Hs in *. done.
Qed.

Lemma concat_cons (sep p q : string) (qs : list string) :
  String.concat sep (p :: q :: qs)
  = (p ++ sep ++ String.concat sep (q :: qs))%string.
Proof. done. Qed.

(** The parts, put together again with the separator, are the string. *)
Lemma split_concat sep s :
  String.concat (String sep "") (PyStr.split sep s) = s.
Proof.
  induction s as [|c s IH]; [done|]. cbn [PyStr.split].
  destruct (split_cons sep s) as (p & ps & Hs). rewrite Hs in IH |- *.
  destruct (Ascii.eqb_spec c sep) as [->|Hne].
  - by rewrite concat_cons, IH.
  - destruct ps as [|q qs]; [by simpl in *; subst|].
    rewrite concat_cons in IH |- *. simpl. by rewrite <-IH.
Qed.

(** No part holds the separator. *)
Lemma split_parts sep s :
  Forall (λ p, occurrences sep p = 0) (PyStr.split sep s).
Proof.
  induction s as [|c s IH]; simpl; [by repeat constructor|].
  destruct (Ascii.eqb c sep) eqn:Hc; [by constructor|].
  destruct (split_cons sep s) as (p & ps & Hs). rewrite Hs in *.
  inversion IH; subst. constructor; [|done]. simpl. by rewrite Hc.
Qed.

Lemma split_app sep p s :
  occurrences sep p = 0 →
  PyStr.split sep (p ++ String sep s)%string = p :: PyStr.split sep s.
Proof.
  induction p as [|c p IH]; simpl.
  - by rewrite Ascii.eqb_refl.
  - destruct (Ascii.eqb c sep); [done|]. simpl. intros Hp. by rewrite IH.
Qed.

Lemma split_free sep p : occurrences sep p = 0 → PyStr.split sep p = [p].
Proof.
  induction p as [|c p IH]; simpl; [done|].
  destruct (Ascii.eqb c sep); [done|]. simpl. intros Hp. by rewrite IH.
Qed.

Lemma split_item_string a b c :
  occurrences ":" a = 0 → occurrences ":" b = 0 → occurrences ":" c = 0 →
  PyStr.split ":" (item_string a b c) = [a; b; c].
Proof.
  intros Ha Hb Hc. unfold item_string.
  change (":" ++ b ++ ":" ++ c)%string
    with (String ":" (b ++ String ":" c)%string).
  by rewrite !split_app, split_free.
Qed.

(** A string with two separators is the three parts with a separator
    between them. *)
Lemma split_three s p0 p1 p2 :
  PyStr.split ":" s = [p0; p1; p2] → s = item_string p0 p1 p2.
Proof.
  intros Hs. rewrite <-(split_concat ":" s), Hs. done.
Qed.
End splitting.

(** ** The flattened converter on values that are no mapping *)

Section flattened_inputs.
Implicit Types (h : heap) (v : pyval) (d : gmap string pyval)
  (m : gmap string json).

Lemma convert_flattened_non_mapping h v :
  val_closed (length h) v → (isinstance_dict v h).1 = Ok false →
  convert_flattened_to_unified v h = (Raise AttributeError, h ++ [PDict ∅]).
Proof.
  intros Hv Hd. unfold convert_flattened_to_unified, mbind, M_bind.
  unfold alloc at 1. cbv beta iota. unfold get at 1.
  destruct v as [| | | | |a]; try done. simpl in Hv, Hd.
  rewrite lookup_app_l by done. by destruct (h !! a) as [[l|d]|].
Qed.

Lemma convert_flattened_raises h v e :
  closed h → val_closed (length h) v →
  (convert_flattened_to_unified v h).1 = Raise e →
  e = AttributeError ∨ e = ValueError.
Proof.
  intros Hc Hv.
  destruct (isinstance_dict v h).1 as [[|]|] eqn:Hd; [| |done].
  - destruct v as [| | | | |a]; try done. simpl in Hd.
    destruct (h !! a) as [[l|d]|] eqn:Ha; try done.
    rewrite (convert_flattened_run _ _ _ Hc Ha). simpl.
    unfold unified_result.
    destruct (parse_items (source_items h d)).2 as [e'|] eqn:He; [|done].
    intros [= <-]. destruct (parse_items_error _ _ He) as [?|[? _]]; auto.
  - rewrite convert_flattened_non_mapping by done. intros [= <-]. by left.
Qed.

Lemma on_document_flattened_non_mapping t :
  (∀ m, t ≠ JObj m) →
  on_document convert_flattened_to_unified t = Raise AttributeError.
Proof.
  intros Ht. unfold on_document, mbind, M_bind.
  destruct (json_loads_spec t []) as (r & h & Hload & Hr).
  simpl in Hload, Hr. rewrite Hload.
  destruct (json_loads_closed _ _ _ _ (Forall_nil_2 _) Hload) as [Hc Hv].
  rewrite convert_flattened_non_mapping; [done..|].
  inv_repr Hr; simpl; try done; [by rewrite Hlk|]. by destruct (Ht m).
Qed.

Lemma on_document_nested m :
  on_document convert_nested_to_unified (JObj m)
  = Ok (spec_nested_to_unified m).
Proof.
  unfold on_document, mbind, M_bind.
  destruct (json_loads_spec (JObj m) []) as (r & h & -> & Hr).
  destruct (convert_nested_spec _ _ _ _ Hr) as (out & news & -> & Hout).
  by rewrite (json_dumps_repr _ _ _ _ Hout).
Qed.

Lemma on_document_flattened_shape t_in t :
  on_document convert_flattened_to_unified t_in = Ok t →
  ∃ m ds, t_in = JObj m ∧ t = unified_record m (item_doc <$> ds).
Proof.
  destruct t_in as [| | | | | |m];
    try (rewrite on_document_flattened_non_mapping by done; done).
  destruct (on_document_flattened m) as (h & a & d & _ & _ & _ & ->).
  destruct (parse_items (source_items h d)).2; [done|].
  intros [= <-]. eauto.
Qed.

Lemma items_of_record m its : items_of (unified_record m its) = Some its.
Proof. done. Qed.

Lemma items_of_defaults its : items_of (unified_defaults its) = Some its.
Proof. done. Qed.

Lemma record_only_items ts its :
  unified_record {[ "items" := JArr ts ]} its = unified_defaults its.
Proof. done. Qed.

Lemma on_document_items ss :
  on_document convert_flattened_to_unified (only_items (JStr <$> ss))
  = match (parse_items (PStr <$> ss)).2 with
    | Some e => Raise e
    | None =>
        Ok (unified_defaults (item_doc <$> (parse_items (PStr <$> ss)).1))
    end.
Proof.
  unfold only_items.
  rewrite (on_document_flattened_strs _ ss) by done.
  by destruct (parse_items (PStr <$> ss)).2.
Qed.
End flattened_inputs.

(** ** Lower case *)

Section lower_case.

Lemma chr_lower_inv (x y : ascii) :
  PyStr.chr_lower x = y → PyStr.is_upper y = false →
  x = y ∨ (PyStr.is_upper x = true ∧ x = ascii_of_N (PyStr.code y - 32)).
Proof.
  intros <- Hy. unfold PyStr.chr_lower in *.
  destruct (PyStr.is_upper x) eqn:Hx; [right|by left]. split; [done|].
  clear Hy. revert Hx. unfold PyStr.is_upper, PyStr.code.
  rewrite orb_true_iff, !andb_true_iff, !N.leb_le. intros Hx.
  rewrite N_ascii_embedding by lia.
  by rewrite N.add_sub, ascii_N_embedding.
Qed.

Lemma lower_true (c : string) :
  PyStr.lower c = "true" ↔ c ∈ true_spellings.
Proof.
  split.
  - destruct c as [|c1 [|c2 [|c3 [|c4 [|]]]]]; try done. simpl.
    intros [= H1 H2 H3 H4].
    apply chr_lower_inv in H1; [|done]. apply chr_lower_inv in H2; [|done].
    apply chr_lower_inv in H3; [|done]. apply chr_lower_inv in H4; [|done].
    destruct H1 as [->|[_ ->]], H2 as [->|[_ ->]], H3 as [->|[_ ->]],
      H4 as [->|[_ ->]];
      apply (bool_decide_unpack _); vm_compute; exact I.
  - unfold true_spellings. intros Hc.
    repeat (apply elem_of_cons in Hc as [->|Hc]; [done|]).
    by apply elem_of_nil in Hc.
Qed.
End lower_case.

(** ** Item strings and items *)

Section item_strings.

Lemma parse_item_string a b c z :
  occurrences ":" a = 0 → occurrences ":" b = 0 → occurrences ":" c = 0 →
  PyStr.int a = Some z →
  parse_item (PStr (item_string a b c))
  = Ok (Some {[ "id" := PInt z;
                "title" := PStr b;
                "active" := PBool (String.eqb (PyStr.lower c) "true") ]}).
Proof.
  intros Ha Hb Hc Hz. unfold parse_item.
  by rewrite split_item_string, Hz.
Qed.

Lemma parse_item_dropped s :
  parse_item (PStr s) = Ok None ↔ occurrences ":" s ≠ 2.
Proof.
  split.
  - intros Hs Hocc. pose proof (split_length ":" s) as Hlen.
    rewrite Hocc in Hlen. unfold parse_item in Hs.
    destruct (PyStr.split ":" s) as [|p0 [|p1 [|p2 [|]]]]; try done.
    by destruct (PyStr.int p0).
  - intros Hocc. apply parse_item_malformed. rewrite split_length. lia.
Qed.

Lemma on_document_item s :
  on_document convert_flattened_to_unified (only_items [JStr s])
  = match parse_item (PStr s) with
    | Raise e => Raise e
    | Ok None => Ok (unified_defaults [])
    | Ok (Some it) => Ok (unified_defaults [item_doc it])
    end.
Proof.
  change [JStr s] with (JStr <$> [s]).
  rewrite (on_document_items [s]). cbn [fmap list_fmap parse_items].
  by destruct (parse_item (PStr s)) as [[it|]|e].
Qed.
End item_strings.

(** ** Decimal numerals *)

Section numerals.
Implicit Types (u : uint) (p : positive) (z : Z).








End numerals.

(** ** Steps of the script *)

Section script_steps.
Context (order : addr → list string) (fs : string → file).
Implicit Types (h : heap) (out : list line) (v : pyval).

Lemma bind_run {A B} (c : M A) (k : A → IO B) h out :
  (run c ≫= k) (h, out)
  = match c h with
    | (Ok x, h') => k x (h', out)
    | (Raise e, h') => (Raise e, (h', out))
    end.
Proof. unfold mbind, IO_bind, run. simpl. by destruct (c h) as [[x|e] h']. Qed.

Lemma bind_print {B} (l : line) (k : unit → IO B) h out :
  (print l ≫= k) (h, out) = k tt (h, out ++ [l]).
Proof. done. Qed.

Lemma bind_ret {A B} (x : A) (k : A → IO B) s : (mret x ≫= k) s = k x s.
Proof. done. Qed.

Lemma truth_run v h : truth v h = ((truth v h).1, h).
Proof. done. Qed.

Lemma keys_dict a d h :
  h !! a = Some (PDict d) → keys order (PRef a) h = (Ok (order a), h).
Proof. intros Ha. unfold keys. by rewrite Ha. Qed.

Lemma items_dict a d h :
  h !! a = Some (PDict d) →
  items order (PRef a) h = (Ok (omap (λ k, (k,.) <$> d !! k) (order a)), h).
Proof. intros Ha. unfold items. by rewrite Ha. Qed.

Lemma keys_no_dict v h :
  is_dict h v = false → keys order v h = (Raise AttributeError, h).
Proof.
  unfold keys. destruct v as [| | | | |a]; try done. simpl.
  by destruct (h !! a) as [[l|d]|].
Qed.

Lemma isinstance_dict_run v h : isinstance_dict v h = (Ok (is_dict h v), h).
Proof. done. Qed.

Lemma isinstance_list_run v h : isinstance_list v h = (Ok (is_list h v), h).
Proof. done. Qed.

Lemma select_run (test : pyval → M bool) (f : heap → pyval → bool)
    (pairs : list (string * pyval)) h :
  (∀ v, test v h = (Ok (f h v), h)) →
  select test pairs h
  = (Ok (filter (λ kv, f h kv.2 = true) pairs).*1, h).
Proof.
  intros Htest. induction pairs as [|[k v] pairs IH]; [done|].
  cbn [select]. unfold mbind, M_bind. rewrite Htest, IH.
  rewrite filter_cons. simpl. by destruct (f h v).
Qed.

Lemma select_keys (f : pyval → bool) (d : gmap string pyval) ks :
  (filter (λ kv : string * pyval, f kv.2 = true)
     (omap (λ k, (k,.) <$> d !! k) ks)).*1
  = keys_with f d ks.
Proof.
  unfold keys_with. induction ks as [|k ks IH]; [done|].
  rewrite filter_cons. simpl.
  destruct (d !! k) as [v|] eqn:Hk; simpl.
  - rewrite filter_cons. simpl.
    destruct (f v); repeat case_decide; try done; simpl; by rewrite <-IH.
  - exact IH.
Qed.

Lemma analyze_structure_falsy v filename h out :
  (truth v h).1 = Ok false →
  analyze_structure order v filename (h, out) = (Ok tt, (h, out)).
Proof.
  intros Hv. unfold analyze_structure.
  by rewrite bind_run, truth_run, Hv.
Qed.

Lemma analyze_structure_no_dict v filename h out :
  (truth v h).1 = Ok true → is_dict h v = false →
  analyze_structure order v filename (h, out)
  = (Raise AttributeError,
     (h, out ++ [Text (PyFmt.nl ++ "--- Structure Analysis for "
                       ++ filename ++ " ---")])).
Proof.
  intros Hv Hd. unfold analyze_structure.
  rewrite bind_run, truth_run, Hv, bind_print, bind_run.
  by rewrite keys_no_dict.
Qed.

Lemma analyze_structure_dict a d filename h out :
  h !! a = Some (PDict d) → d ≠ ∅ →
  analyze_structure order (PRef a) filename (h, out)
  = (Ok tt, (h, out ++ report h d (order a) filename)).
Proof.
  intros Ha Hd. unfold analyze_structure.
  rewrite bind_run, truth_run.
  assert ((truth (PRef a) h).1 = Ok true) as ->.
  { unfold truth. simpl. rewrite Ha. by rewrite bool_decide_false. }
  rewrite bind_print, bind_run, (keys_dict a d) by done.
  rewrite bind_print, bind_run, (items_dict a d) by done.
  rewrite bind_run.
  rewrite (select_run isinstance_dict is_dict)
    by (intros; apply isinstance_dict_run).
  rewrite select_keys. unfold report.
  destruct (keys_with (is_dict h) d (order a)) as [|n ns];
    [rewrite bind_ret|rewrite bind_print]; cbv beta;
    rewrite bind_run, (items_dict a d) by done;
    rewrite bind_run;
    rewrite (select_run isinstance_list is_list)
      by (intros; apply isinstance_list_run);
    rewrite select_keys;
    destruct (keys_with (is_list h) d (order a)) as [|r rs];
    unfold print, mret, IO_ret; simpl; by rewrite <-?app_assoc.
Qed.

Lemma truth_cases v h :
  (truth v h).1 = Ok false ∨ (truth v h).1 = Ok true.
Proof. unfold truth. simpl. destruct (match v with PNone => _ | _ => _ end); auto. Qed.

Lemma truth_dict a d h :
  h !! a = Some (PDict d) →
  (truth (PRef a) h).1 = Ok (negb (bool_decide (d = ∅))).
Proof. intros Ha. unfold truth. simpl. by rewrite Ha. Qed.

Lemma report_length h d ks filename : length (report h d ks filename) ≤ 4.
Proof.
  unfold report. rewrite !length_app.
  destruct (keys_with (is_dict h) d ks), (keys_with (is_list h) d ks);
    simpl; lia.
Qed.

Lemma analyze_structure_outcome v filename h out :
  ∃ lines,
    (analyze_structure order v filename (h, out)).2 = (h, out ++ lines) ∧
    length lines ≤ 4 ∧
    ((analyze_structure order v filename (h, out)).1 = Ok tt ∨
     (analyze_structure order v filename (h, out)).1 = Raise AttributeError).
Proof.
  destruct (truth_cases v h) as [Hv|Hv].
  { exists []. rewrite analyze_structure_falsy, app_nil_r by done.
    simpl. split; [done|]. split; [lia|by left]. }
  destruct (is_dict h v) eqn:Hd.
  - destruct v as [| | | | |a]; try done. simpl in Hd.
    destruct (h !! a) as [[l|d]|] eqn:Ha; try done.
    rewrite (truth_dict _ _ _ Ha) in Hv.
    assert (d ≠ ∅) by (intros ->; by rewrite bool_decide_true in Hv).
    exists (report h d (order a) filename).
    rewrite (analyze_structure_dict a d) by done. simpl.
    split; [done|]. split; [apply (report_length h d _ filename)|by left].
  - eexists. rewrite analyze_structure_no_dict by done. simpl.
    split; [done|]. split; [simpl; lia|by right].
Qed.
End script_steps.

(** ** Loading and analysing *)

Section script_runs.
Context (order : addr → list string) (fs : string → file).
Implicit Types (h : heap) (out : list line) (v : pyval) (t : json).

Lemma bind_IO {A B} (c : IO A) (k : A → IO B) s :
  (c ≫= k) s
  = match c s with
    | (Ok x, s') => k x s'
    | (Raise e, s') => (Raise e, s')
    end.
Proof. done. Qed.

Lemma load_display_holds filename t h out :
  fs filename = Holds t →
  ∃ data news,
    load_and_display_json fs filename (h, out)
    = (Ok data,
       (h ++ news,
        out ++ [Text (PyFmt.nl ++ "=== " ++ filename ++ " ==="); Dump t])) ∧
    repr (h ++ news) (within (length h) (length (h ++ news))) data t.
Proof.
  intros Hfs. unfold load_and_display_json. rewrite Hfs.
  destruct (json_loads_spec t h) as (data & news & Hload & Hr).
  exists data, news. split; [|done].
  rewrite bind_run, Hload, bind_print, bind_run.
  rewrite (json_dumps_repr _ _ _ _ Hr), bind_print.
  unfold mret, IO_ret. by rewrite <-app_assoc.
Qed.

Lemma load_display_missing filename h out :
  fs filename = Missing →
  load_and_display_json fs filename (h, out)
  = (Ok PNone, (h, out ++ [Text ("File " ++ filename ++ " not found!")])).
Proof. intros Hfs. unfold load_and_display_json. by rewrite Hfs. Qed.

Lemma load_display_malformed filename msg h out :
  fs filename = Malformed msg →
  load_and_display_json fs filename (h, out)
  = (Ok PNone,
     (h, out ++ [Text ("Error parsing JSON in " ++ filename ++ ": " ++ msg)])).
Proof. intros Hfs. unfold load_and_display_json. by rewrite Hfs. Qed.

(** Every call returns: a value made of new objects, whose document is the
    one of the file, or None. *)
Lemma load_display_spec filename h out :
  ∃ data news lines t,
    load_and_display_json fs filename (h, out)
    = (Ok data, (h ++ news, out ++ lines)) ∧
    repr (h ++ news) (within (length h) (length (h ++ news))) data t ∧
    (fs filename = Holds t ∨
     (∀ t', fs filename ≠ Holds t') ∧ t = JNull).
Proof.
  destruct (fs filename) as [|msg|t] eqn:Hfs.
  - exists PNone, [], [Text ("File " ++ filename ++ " not found!")], JNull.
    rewrite load_display_missing, app_nil_r by done.
    split; [done|]. split; [constructor|]. right. by repeat split.
  - exists PNone, [],
      [Text ("Error parsing JSON in " ++ filename ++ ": " ++ msg)], JNull.
    rewrite (load_display_malformed _ msg), app_nil_r by done.
    split; [done|]. split; [constructor|]. right. by repeat split.
  - destruct (load_display_holds filename t h out Hfs)
      as (data & news & Hrun & Hr).
    exists data, news, [Text (PyFmt.nl ++ "=== " ++ filename ++ " ===");
                        Dump t], t.
    split; [done|]. split; [done|by left].
Qed.

Lemma analyzable_loaded f t :
  f = Holds t ∨ (∀ t', f ≠ Holds t') ∧ t = JNull →
  analyzable f = analyzable (Holds t).
Proof.
  intros [->|[Hf ->]]; [done|].
  destruct f as [| |t']; [done..|]. by destruct (Hf t').
Qed.

Lemma attempt_loaded convert f t :
  f = Holds t ∨ (∀ t', f ≠ Holds t') ∧ t = JNull →
  attempt convert f = attempt convert (Holds t).
Proof.
  intros [->|[Hf ->]]; [done|].
  destruct f as [| |t']; [done..|]. by destruct (Hf t').
Qed.

Lemma repr_truth h (P : addr → Prop) v t :
  repr h P v t → truth v h = (Ok (truthy t), h).
Proof.
  intros Hr. unfold truth. f_equal. f_equal.
  inv_repr Hr; simpl; try done; rewrite Hlk.
  - by inversion Hall.
  - f_equal. apply bool_decide_ext. rewrite map_size_empty_iff.
    split; intros ->; apply map_eq; intros k; pose proof (Hall k) as Hk;
      rewrite lookup_empty in *; by inversion Hk.
Qed.

Lemma repr_is_dict h (P : addr → Prop) v t :
  repr h P v t →
  is_dict h v = match t with JObj _ => true | _ => false end.
Proof. intros Hr. inv_repr Hr; simpl; try done; by rewrite Hlk. Qed.

(** [analyze_structure] on a value with a document. *)
Lemma analyze_structure_doc h (P : addr → Prop) v t filename out :
  repr h P v t →
  ∃ lines,
    analyze_structure order v filename (h, out)
    = (if analyzable (Holds t) then Ok tt else Raise AttributeError,
       (h, out ++ lines)).
Proof.
  intros Hr.
  destruct (analyze_structure_outcome order v filename h out)
    as (lines & Hstate & _).
  exists lines. rewrite <-Hstate.
  rewrite (surjective_pairing (analyze_structure _ _ _ _)). f_equal.
  pose proof (repr_truth _ _ _ _ Hr) as Ht.
  pose proof (repr_is_dict _ _ _ _ Hr) as Hd.
  assert (∀ b, (truth v h).1 = Ok b ↔ truthy t = b) as Htr.
  { intros b. rewrite Ht. simpl. split; [by intros [=]|by intros ->]. }
  destruct t as [| | | | | |m].
  1-6: unfold analyzable;
    match goal with |- context [truthy ?t] => destruct (truthy t) eqn:Hb end;
    cbn [negb];
    [by rewrite analyze_structure_no_dict by (done || by apply Htr)
    |by rewrite analyze_structure_falsy by (by apply Htr)].
  cbn [analyzable]. destruct (truthy (JObj m)) eqn:Hb.
  - inv_repr Hr. rewrite (analyze_structure_dict order a d); [done..|].
    intros ->. pose proof (truth_dict _ _ _ Hlk) as Ht'.
    rewrite Ht in Ht'. by rewrite bool_decide_true in Ht'.
  - by rewrite analyze_structure_falsy by (by apply Htr).
Qed.

Lemma compare_data_formats_result h out :
  (compare_data_formats order fs (h, out)).1
  = if analyzable (fs "data-1.json") && analyzable (fs "data-2.json")
    then Ok tt else Raise AttributeError.
Proof.
  unfold compare_data_formats. rewrite bind_print.
  generalize (out ++ [Text "Exploring two different JSON data formats..."]).
  clear out. intros out. rewrite bind_IO.
  destruct (load_display_spec "data-1.json" h out)
    as (data1 & news1 & lines1 & t1 & -> & Hr1 & Hf1).
  rewrite (analyzable_loaded _ t1 Hf1).
  generalize (out ++ lines1). clear out. intros out. rewrite bind_IO.
  destruct (load_display_spec "data-2.json" (h ++ news1) out)
    as (data2 & news2 & lines2 & t2 & -> & Hr2 & Hf2).
  rewrite (analyzable_loaded _ t2 Hf2).
  generalize (out ++ lines2). clear out. intros out.
  assert (repr ((h ++ news1) ++ news2) (λ _, True) data1 t1) as Hr1'.
  { eapply repr_transfer; [|done]. intros a [? ?]. split; [done|].
    by apply lookup_app_l. }
  rewrite bind_IO.
  destruct (analyze_structure_doc _ _ _ _ "data-1.json" out Hr1') as (l1 & ->).
  destruct (analyzable (Holds t1)); [|done]. rewrite bind_IO.
  destruct (analyze_structure_doc _ _ _ _ "data-2.json" (out ++ l1) Hr2)
    as (l2 & ->).
  by destruct (analyzable (Holds t2)).
Qed.
End script_runs.

(** ** Converters go by documents *)

Section by_documents.
Implicit Types (h : heap) (v : pyval) (d : gmap string pyval) (t : json).

Lemma repr_app h news (P : addr → Prop) v t :
  repr h P v t → repr (h ++ news) (λ _, True) v t.
Proof.
  intros Hr. eapply repr_transfer; [|by apply repr_valid].
  intros a [_ ?]. split; [done|]. by apply lookup_app_l.
Qed.

(** The run of the flattened converter, when the list under [items] is an
    object of the store. *)
Lemma convert_flattened_run_items h a d :
  h !! a = Some (PDict d) →
  (∀ b, d !! "items" = Some (PRef b) → b < length h) →
  convert_flattened_to_unified (PRef a) h
  = (unified_result h d, h ++ unified_objects h d).
Proof.
  intros Ha Hitems.
  unfold convert_flattened_to_unified, mbind, M_bind.
  unfold alloc at 1. cbv beta iota.
  repeat first
    [ rewrite (get_old _ _ _ _ Ha)
    | rewrite setitem_first
    | rewrite alloc_new; cbn [length app]
    | progress cbv beta iota ].
  rewrite (contains_old _ _ _ _ Ha). cbv beta iota.
  unfold unified_result, unified_objects, source_items.
  fold (unified_user d). fold (unified_metadata d).
  fold (unified_header d (length h)).
  destruct (d !! "items") as [x|] eqn:Hx.
  2:{ rewrite bool_decide_false by by inversion 1. done. }
  rewrite bool_decide_true by eauto. cbv beta iota.
  rewrite (getitem_old _ _ _ _ Ha _ _ Hx). cbv beta iota.
  unfold isinstance_list.
  destruct x as [| | | | |b]; try done.
  pose proof (Hitems b eq_refl) as Hb.
  rewrite lookup_app_l by done.
  destruct (h !! b) as [[l|?]|] eqn:Hl; try done. cbv beta iota.
  rewrite (getitem_old _ _ _ _ Ha _ _ Hx). cbv beta iota.
  unfold elements. rewrite (lookup_app_l_Some _ _ _ _ Hl). cbv beta iota.
  rewrite items_loop_run by done. simpl.
  rewrite Nat.add_0_r.
  by destruct (parse_items l) as [ds [e|]].
Qed.

Lemma same_field_loaded h1 h2 (P1 P2 : addr → Prop) d1 d2
    (m : gmap string json) k :
  map_Forall2 (λ _, repr h1 P1) d1 m → map_Forall2 (λ _, repr h2 P2) d2 m →
  same_field h1 d1 h2 d2 k.
Proof.
  intros H1 H2. unfold same_field.
  pose proof (H1 k) as Hk1. pose proof (H2 k) as Hk2.
  destruct (d1 !! k) as [v1|], (d2 !! k) as [v2|], (m !! k) as [t|];
    inversion Hk1; inversion Hk2; subst; try done.
  exists t. by erewrite !json_dumps_repr.
Qed.

Lemma nested_by_document : by_document convert_nested_to_unified.
Proof.
  intros h1 P1 r1 h2 P2 r2 t Hr1 Hr2.
  destruct t as [| | | | |ts|m].
  1-5: exists [], []; rewrite !app_nil_r; inv_repr Hr1; inv_repr Hr2;
    rewrite !convert_nested_immutable by done; simpl;
    repeat split; try done;
    destruct (is_substring _ _); try done;
    eexists; split; constructor.
  - destruct (convert_nested_array _ _ _ _ Hr1)
      as (out1 & n1 & Hout1 & Hyes1 & Hno1).
    destruct (convert_nested_array _ _ _ _ Hr2)
      as (out2 & n2 & Hout2 & Hyes2 & Hno2).
    exists n1, n2. inv_repr Hr1.
    destruct (decide (PStr "metadata" ∈ vs)) as [Hin|Hin];
      rewrite (repr_elem_str _ _ _ _ "metadata" Hall) in Hin.
    + by rewrite Hyes1, Hyes2.
    + rewrite Hno1, Hno2 by done. simpl. repeat split.
      exists (JArr ts). split; eapply repr_mono; eauto.
  - destruct (convert_nested_spec _ _ _ _ Hr1) as (out1 & n1 & -> & Hout1).
    destruct (convert_nested_spec _ _ _ _ Hr2) as (out2 & n2 & -> & Hout2).
    exists n1, n2. simpl. repeat split.
    exists (spec_nested_to_unified m). split; eapply repr_mono; eauto.
Qed.

Lemma repr_closed h (P : addr → Prop) v t :
  repr h P v t → val_closed (length h) v.
Proof. intros Hr. inv_repr Hr; simpl; eauto using lookup_lt_Some. Qed.

Lemma repr_field_closed h (P : addr → Prop) a d (m : gmap string json) k b :
  repr h P (PRef a) (JObj m) → h !! a = Some (PDict d) →
  d !! k = Some (PRef b) → b < length h.
Proof.
  intros Hr Ha Hk. inv_repr Hr. simplify_eq.
  pose proof (Hall k) as Hk'. rewrite Hk in Hk'.
  inversion Hk' as [? ? Hv|]; subst. by apply repr_closed in Hv.
Qed.

Lemma flattened_by_document : by_document convert_flattened_to_unified.
Proof.
  intros h1 P1 r1 h2 P2 r2 t Hr1 Hr2.
  assert ((∃ m, t = JObj m) ∨ ¬ ∃ m, t = JObj m) as [[m ->]|Hno]
    by (destruct t; eauto; right; by intros [? ?]).
  - pose proof Hr1 as Hr1'. pose proof Hr2 as Hr2'.
    inv_repr Hr1'. inv_repr Hr2'.
    rename a into a1, d into d1, a0 into a2, d0 into d2.
    rewrite (convert_flattened_run_items h1 a1 d1),
      (convert_flattened_run_items h2 a2 d2);
      eauto using repr_field_closed.
    exists (unified_objects h1 d1), (unified_objects h2 d2).
    simpl. repeat split. unfold unified_result.
    assert (∀ k, same_field h1 d1 h2 d2 k) as Hsame
      by (intros k; by eapply same_field_loaded).
    rewrite (source_items_same_doc h1 h2 d1 d2) by done.
    destruct (parse_items (source_items h2 d2)).2; [done|].
    exists (unified_doc h1 d1). split.
    + eapply (flattened_output_repr h1 d1 _ P1); [|done..].
      intros k v _ Hv. pose proof (Hall k) as Hk. rewrite Hv in Hk.
      inversion Hk; subst. eauto.
    + rewrite (unified_doc_same h1 h2 d1 d2) by done.
      eapply (flattened_output_repr h2 d2 _ P2); [|done..].
      intros k v _ Hv. pose proof (Hall0 k) as Hk. rewrite Hv in Hk.
      inversion Hk; subst. eauto.
  - assert (∀ h (P : addr → Prop) r,
      repr h P r t → (isinstance_dict r h).1 = Ok false) as Hnd.
    { intros h P r Hr.
      rewrite isinstance_dict_run, (repr_is_dict _ _ _ _ Hr). simpl.
      destruct t; try done. destruct Hno. eauto. }
    exists [PDict ∅], [PDict ∅].
    by rewrite !convert_flattened_non_mapping by eauto using repr_closed.
Qed.

(** The outcome of a call in a store is the outcome on the document. *)
Lemma convert_on_document convert h (P : addr → Prop) r t :
  by_document convert → repr h P r t →
  ∃ news,
    (convert r h).2 = h ++ news ∧
    match (convert r h).1 with
    | Ok out =>
        ∃ t', repr (h ++ news) (λ _, True) out t' ∧
              on_document convert t = Ok t'
    | Raise e => on_document convert t = Raise e
    end.
Proof.
  intros Hby Hr.
  destruct (json_loads_spec t []) as (r0 & h0 & Hload & Hr0).
  simpl in Hload, Hr0.
  destruct (Hby _ _ _ _ _ _ _ Hr Hr0) as (n1 & n2 & Hs1 & Hs2 & Hres).
  exists n1. split; [done|].
  unfold on_document, mbind, M_bind. rewrite Hload.
  destruct (convert r h) as [[out|e] h'],
    (convert r0 h0) as [[out0|e0] h0'];
    simpl in Hs1, Hs2, Hres |- *; subst; try done.
  destruct Hres as (t' & Hout & Hout0). exists t'. split; [done|].
  pose proof (json_dumps_repr _ _ _ _ Hout0) as Hd.
  unfold json_dumps in Hd. by injection Hd as ->.
Qed.
End by_documents.

(** ** Depth of documents *)

Section depth.
Implicit Types (h : heap) (v : pyval) (t : json).

Lemma jdepth_elem (l : list json) t :
  t ∈ l → jdepth t ≤ foldr (λ x n, jdepth x `max` n) 0 l.
Proof. induction 1 as [|? ? ? _ IH]; simpl; lia. Qed.

Lemma jdepth_lookup (m : gmap string json) k t :
  m !! k = Some t → jdepth t ≤ map_fold (λ _ x n, jdepth x `max` n) 0 m.
Proof.
  revert k t.
  apply (map_fold_weak_ind (λ r m, ∀ k t, m !! k = Some t → jdepth t ≤ r)).
  - intros k t. by rewrite lookup_empty.
  - intros i x m' r Hi IH k t. rewrite lookup_insert.
    case_decide; [intros [= ->]; lia|]. intros Hk%IH. lia.
Qed.

Lemma jdepth_list_bound (l : list json) n :
  Forall (λ t, jdepth t ≤ n) l → foldr (λ x n, jdepth x `max` n) 0 l ≤ n.
Proof. induction 1; simpl; lia. Qed.

Lemma jdepth_map_bound (m : gmap string json) n :
  map_Forall (λ _ t, jdepth t ≤ n) m →
  map_fold (λ _ x n, jdepth x `max` n) 0 m ≤ n.
Proof.
  apply (map_fold_weak_ind (λ r m,
           map_Forall (λ _ t, jdepth t ≤ n) m → r ≤ n)).
  - lia.
  - intros i x m' r Hi IH Hall.
    apply map_Forall_insert in Hall as [? ?]; [|done].
    specialize (IH ltac:(done)). lia.
Qed.

(** The encoder goes no deeper than its fuel. *)
Lemma encode_depth fuel h ms v t :
  encode fuel h ms v = Ok t → jdepth t ≤ fuel.
Proof.
  revert ms v t. induction fuel as [|fuel IH]; intros ms v t;
    destruct v as [| | | | |a]; simpl; try (intros [= <-]; simpl; lia).
  - destruct (h !! a); [|done]. by case_decide.
  - destruct (h !! a) as [[l|d]|]; [| |done]; (case_decide; [done|]).
    + destruct (mapM _ l) as [ts|] eqn:Hl; [|done]. intros [= <-].
      simpl. apply le_n_S, jdepth_list_bound.
      apply mapM_Ok in Hl. apply Forall_forall. intros y Hy.
      apply list_elem_of_lookup in Hy as [i Hi].
      destruct (Forall2_lookup_r _ _ _ _ _ Hl Hi) as (x & _ & Hx).
      simpl in Hx. eauto.
    + destruct (map_mapM _ d) as [m|] eqn:Hd; [|done]. intros [= <-].
      simpl. apply le_n_S, jdepth_map_bound.
      apply map_mapM_Ok in Hd. intros k y Hy. pose proof (Hd k) as Hk.
      rewrite Hy in Hk. inversion Hk as [x ? Hx|]; subst.
      simpl in Hx. eauto.
Qed.

(** A document is no deeper than there are objects in the store. *)
Lemma repr_depth h (P : addr → Prop) v t : repr h P v t → jdepth t ≤ length h.
Proof.
  intros Hr. pose proof (json_dumps_repr _ _ _ _ Hr) as Hd.
  unfold json_dumps in Hd. injection Hd as Hd. by eapply encode_depth.
Qed.

Lemma nan_free_lookup (m : gmap string json) k t :
  map_fold (λ _ x b, nan_free x && b) true m = true →
  m !! k = Some t → nan_free t = true.
Proof.
  revert k t.
  apply (map_fold_weak_ind (λ r m, ∀ k t,
           r = true → m !! k = Some t → nan_free t = true)).
  - intros k t _. by rewrite lookup_empty.
  - intros i x m' r Hi IH k t [Hx Hr]%andb_true_iff. rewrite lookup_insert.
    case_decide; [by intros [= <-]|]. eauto.
Qed.
End depth.

(** ** Equality of values *)

Section equality.
Context (order : addr → list string).
Implicit Types (h : heap) (v x y : pyval) (t : json).

Lemma eq_lists_total (eq : pyval → pyval → result bool) l1 l2 :
  Forall (λ x, ∀ y, ∃ b, eq x y = Ok b) l1 → ∃ b, eq_lists eq l1 l2 = Ok b.
Proof.
  intros Hl. revert l2. induction Hl as [|x l1 Hx _ IH]; intros l2;
    [by exists true|].
  destruct l2 as [|y l2]; [by exists true|]. simpl.
  destruct (Hx y) as [[|] ->]; simpl; eauto.
Qed.

Lemma eq_dicts_total (eq : pyval → pyval → result bool)
    (d1 d2 : gmap string pyval) ks :
  map_Forall (λ _ x, ∀ y, ∃ b, eq x y = Ok b) d1 →
  ∃ b, eq_dicts eq d1 d2 ks = Ok b.
Proof.
  intros Hd. induction ks as [|k ks IH]; [by exists true|]. simpl.
  destruct (d1 !! k) as [x|] eqn:Hk; [|done].
  destruct (d2 !! k) as [y|]; [|by exists false].
  destruct (Hd _ _ Hk y) as [[|] ->]; simpl; eauto.
Qed.

(** Comparing a value that has a document with anything ends. *)
Lemma eq_values_total h (P : addr → Prop) x t fuel y :
  repr h P x t → jdepth t ≤ fuel → ∃ b, eq_values order fuel h x y = Ok b.
Proof.
  revert x fuel y.
  induction t as [|b0|z0|f0|s0|ts IH|m IH] using json_ind';
    intros x fuel y Hr Hfuel; inv_repr Hr;
    try (destruct fuel, y; simpl; eauto; fail).
  - destruct y as [| | | | |b]; try (destruct fuel; simpl; eauto; fail).
    destruct fuel as [|fuel]; [simpl in Hfuel; lia|]. simpl.
    case_decide; [eauto|]. rewrite Hlk.
    destruct (h !! b) as [[l2|d2]|]; eauto.
    case_decide; [|eauto]. apply eq_lists_total.
    apply Forall_forall. intros x Hx y.
    apply list_elem_of_lookup in Hx as [i Hi].
    destruct (Forall2_lookup_l _ _ _ _ _ Hall Hi) as (t & Ht & Hxt).
    apply list_elem_of_lookup_2 in Ht.
    rewrite Forall_forall in IH. eapply IH; [done..|].
    apply jdepth_elem in Ht. simpl in Hfuel. lia.
  - destruct y as [| | | | |b]; try (destruct fuel; simpl; eauto; fail).
    destruct fuel as [|fuel]; [simpl in Hfuel; lia|]. simpl.
    case_decide; [eauto|]. rewrite Hlk.
    destruct (h !! b) as [[l2|d2]|]; eauto.
    case_decide; [|eauto]. apply eq_dicts_total.
    intros k x Hx y. pose proof (Hall k) as Hk. rewrite Hx in Hk.
    inversion Hk as [? t Hxt Heq Ht|]; subst. symmetry in Ht.
    eapply IH; [done..|].
    apply jdepth_lookup in Ht. simpl in Hfuel. lia.
Qed.

Lemma eq_lists_true (eq : pyval → pyval → result bool) l1 l2 :
  Forall2 (λ x y, eq x y = Ok true) l1 l2 → eq_lists eq l1 l2 = Ok true.
Proof. induction 1 as [|x y l1 l2 Hxy _ IH]; simpl; [done|]. by rewrite Hxy. Qed.

Lemma eq_dicts_true (eq : pyval → pyval → result bool)
    (d1 d2 : gmap string pyval) ks :
  (∀ k x, d1 !! k = Some x → ∃ y, d2 !! k = Some y ∧ eq x y = Ok true) →
  eq_dicts eq d1 d2 ks = Ok true.
Proof.
  intros Hd. induction ks as [|k ks IH]; [done|]. simpl.
  destruct (d1 !! k) as [x|] eqn:Hk; [|done].
  destruct (Hd _ _ Hk) as (y & -> & ->). done.
Qed.

Lemma float_eqb_refl (x : N) :
  PyFloat.is_nan x = false → PyFloat.eqb x x = true.
Proof. intros Hx. unfold PyFloat.eqb. by rewrite Hx, N.eqb_refl. Qed.

(** Two values with the same document, in which no float is a NaN, are
    equal. *)
Lemma eq_values_same h (P Q : addr → Prop) x y t fuel :
  repr h P x t → repr h Q y t → nan_free t = true → jdepth t ≤ fuel →
  eq_values order fuel h x y = Ok true.
Proof.
  revert x y fuel.
  induction t as [|b|z|f|s|ts IH|m IH] using json_ind';
    intros x y fuel Hx Hy Hnan Hfuel; inv_repr Hx; inv_repr Hy.
  - by destruct fuel.
  - by destruct fuel, b.
  - destruct fuel; simpl; by rewrite Z.eqb_refl.
  - simpl in Hnan. apply negb_true_iff in Hnan.
    destruct fuel; simpl; by rewrite float_eqb_refl.
  - destruct fuel; simpl; by rewrite String.eqb_refl.
  - destruct fuel as [|fuel].
    { simpl in *. case_decide; [done|]. lia. }
    simpl. case_decide; [done|]. rewrite Hlk, Hlk0.
    rewrite decide_True
      by (by rewrite (Forall2_length _ _ _ Hall), (Forall2_length _ _ _ Hall0)).
    apply eq_lists_true. simpl in Hnan, Hfuel.
    clear Hx Hy Hlk Hlk0 HP HP0 H. revert vs0 Hall0.
    induction Hall as [|x t vs ts Hxt _ IHl]; intros vs0 Hall0;
      inversion Hall0 as [|y ? vs0' ? Hyt Hrest]; subst; [constructor|].
    simpl in Hnan, Hfuel. apply andb_true_iff in Hnan as [? ?].
    inversion IH as [|? ? IHt IHts]; subst. constructor.
    + eapply (IHt x y); [done..|lia].
    + apply IHl; [done|done|lia|done].
  - destruct fuel as [|fuel].
    { simpl in *. case_decide; [done|]. lia. }
    simpl. case_decide; [done|]. rewrite Hlk, Hlk0.
    rewrite decide_True.
    2:{ rewrite <-!size_dom.
        by rewrite (map_Forall2_dom_L _ _ _ Hall),
          (map_Forall2_dom_L _ _ _ Hall0). }
    apply eq_dicts_true. intros k x Hk.
    pose proof (Hall k) as Hk1. pose proof (Hall0 k) as Hk2.
    rewrite Hk in Hk1. inversion Hk1 as [? t Hxt Heq Ht|]; subst.
    symmetry in Ht. rewrite Ht in Hk2.
    inversion Hk2 as [y ? Hyt Hy2|]; subst. exists y. split; [done|].
    eapply (IH k t Ht x y); [done..| |].
    + simpl in Hnan. by eapply nan_free_lookup.
    + apply jdepth_lookup in Ht. simpl in Hfuel. lia.
Qed.

Lemma py_eq_total h (P : addr → Prop) x t y :
  repr h P x t → ∃ b, py_eq order x y h = (Ok b, h).
Proof.
  intros Hr. unfold py_eq.
  destruct (eq_values_total h P x t (S (length h * length h)) y) as [b ->];
    [done| |by exists b].
  apply repr_depth in Hr. nia.
Qed.

Lemma py_eq_same h (P Q : addr → Prop) x y t :
  repr h P x t → repr h Q y t → nan_free t = true →
  py_eq order x y h = (Ok true, h).
Proof.
  intros Hx Hy Hnan. unfold py_eq.
  rewrite (eq_values_same h P Q x y t); [done..|].
  apply repr_depth in Hx. nia.
Qed.
End equality.

(** ** The run of [test_conversions] *)

Section conversions_run.
Context (order : addr → list string) (fs : string → file).
Implicit Types (h : heap) (out : list line) (v r : pyval) (t : json).

Lemma bind_result {A B} (c : IO A) (k : A → IO B) s res s' :
  c s = (res, s') →
  (c ≫= k) s = match res with Ok x => k x s' | Raise e => (Raise e, s') end.
Proof. intros Hc. by rewrite bind_IO, Hc. Qed.

(** Lines 111-114 and 116-119: a conversion and its display. *)
Lemma conversion_block convert (label : string) h (P : addr → Prop) r t out :
  by_document convert → repr h P r t →
  ∃ news lines,
    (if truthy t
     then print (Text label);;
          unified ← run (convert r);
          text ← run (json_dumps unified);
          print (Dump text)
     else mret tt) (h, out)
    = (attempt convert (Holds t), (h ++ news, out ++ lines)).
Proof.
  intros Hby Hr. unfold attempt. destruct (truthy t).
  2:{ exists [], []. by rewrite !app_nil_r. }
  rewrite bind_print, bind_run.
  destruct (convert_on_document convert h P r t Hby Hr) as (news & Hs & Hres).
  destruct (convert r h) as [[u|e] h'] eqn:Hc; simpl in Hs, Hres; subst h'.
  - destruct Hres as (t' & Hu & ->).
    rewrite bind_run, (json_dumps_repr _ _ _ _ Hu).
    exists news, [Text label; Dump t']. unfold print. simpl.
    by rewrite <-app_assoc.
  - rewrite Hres. by exists news, [Text label].
Qed.

Lemma truth_and (b : bool) h (P : addr → Prop) r t out :
  repr h P r t →
  (if b then run (truth r) else mret false) (h, out)
  = (Ok (b && truthy t), (h, out)).
Proof.
  intros Hr. destruct b; [|done]. unfold run. cbn [fst snd].
  by rewrite (repr_truth _ _ _ _ Hr).
Qed.

(** Lines 126-128 and 131-134: a conversion and its comparison with the
    target. *)
Lemma comparison_core convert (label : string) h (P Q : addr → Prop)
    r t r3 t3 t' out :
  by_document convert → repr h P r t → repr h Q r3 t3 →
  on_document convert t = Ok t' →
  ∃ news b,
    (unified ← run (convert r);
     same ← run (py_eq order unified r3);
     print (Text (label ++ PyFmt.str_bool same))) (h, out)
    = (Ok tt, (h ++ news, out ++ [Text (label ++ PyFmt.str_bool b)])) ∧
    (t3 = t' → nan_free t' = true → b = true).
Proof.
  intros Hby Hr Hr3 Hdoc. rewrite bind_run.
  destruct (convert_on_document convert h P r t Hby Hr) as (news & Hs & Hres).
  destruct (convert r h) as [[u|e] h'] eqn:Hc; simpl in Hs, Hres; subst h';
    [|congruence].
  destruct Hres as (t'' & Hu & Hdoc'). assert (t'' = t') as -> by congruence.
  rewrite bind_run.
  destruct (py_eq_total order _ _ u t' r3 Hu) as [b Hb]. rewrite Hb.
  exists news, b. split; [done|]. intros -> Hnan.
  rewrite (py_eq_same order _ (λ _, True) (λ _, True) u r3 t') in Hb;
    [congruence|done| |done].
  by eapply repr_app.
Qed.

Lemma nested_comparison h (P Q : addr → Prop) r1 t1 r3 t3 out :
  repr h P r1 t1 → repr h Q r3 t3 →
  attempt convert_nested_to_unified (Holds t1) = Ok tt →
  ∃ news lines,
    (if truthy t1 && truthy t3
     then print (Text (PyFmt.nl ++ "--- Comparing Results ---"));;
          unified_nested ← run (convert_nested_to_unified r1);
          same ← run (py_eq order unified_nested r3);
          print (Text ("Nested->Unified matches target: "
                       ++ PyFmt.str_bool same))
     else mret tt) (h, out)
    = (Ok tt, (h ++ news, out ++ lines)) ∧
    (truthy t1 = true → truthy t3 = true →
     on_document convert_nested_to_unified t1 = Ok t3 →
     nan_free t3 = true →
     Text "Nested->Unified matches target: True" ∈ lines).
Proof.
  intros Hr1 Hr3 Ha.
  destruct (truthy t1) eqn:Ht1, (truthy t3) eqn:Ht3; simpl;
    try (exists [], []; rewrite !app_nil_r; split; [done|]; intros; done).
  unfold attempt in Ha. rewrite Ht1 in Ha.
  destruct (on_document convert_nested_to_unified t1) as [t'|] eqn:Hdoc;
    [|done].
  rewrite bind_print.
  destruct (comparison_core convert_nested_to_unified
              "Nested->Unified matches target: "
              _ _ _ r1 t1 r3 t3 t'
              (out ++ [Text (PyFmt.nl ++ "--- Comparing Results ---")])
              nested_by_document Hr1 Hr3 Hdoc)
    as (news & b & -> & Hb).
  exists news, [Text (PyFmt.nl ++ "--- Comparing Results ---");
                Text ("Nested->Unified matches target: "
                      ++ PyFmt.str_bool b)].
  split; [by rewrite <-app_assoc|].
  intros _ _ [= ->] Hnan. rewrite Hb by done.
  apply list_elem_of_further, list_elem_of_here.
Qed.

Lemma flattened_comparison h (P Q : addr → Prop) r2 t2 r3 t3 out :
  repr h P r2 t2 → repr h Q r3 t3 →
  attempt convert_flattened_to_unified (Holds t2) = Ok tt →
  ∃ news lines,
    (if truthy t2 && truthy t3
     then unified_flattened ← run (convert_flattened_to_unified r2);
          same ← run (py_eq order unified_flattened r3);
          print (Text ("Flattened->Unified matches target: "
                       ++ PyFmt.str_bool same))
     else mret tt) (h, out)
    = (Ok tt, (h ++ news, out ++ lines)) ∧
    (truthy t2 = true → truthy t3 = true →
     on_document convert_flattened_to_unified t2 = Ok t3 →
     nan_free t3 = true →
     Text "Flattened->Unified matches target: True" ∈ lines).
Proof.
  intros Hr2 Hr3 Ha.
  destruct (truthy t2) eqn:Ht2, (truthy t3) eqn:Ht3; simpl;
    try (exists [], []; rewrite !app_nil_r; split; [done|]; intros; done).
  unfold attempt in Ha. rewrite Ht2 in Ha.
  destruct (on_document convert_flattened_to_unified t2) as [t'|] eqn:Hdoc;
    [|done].
  destruct (comparison_core convert_flattened_to_unified
              "Flattened->Unified matches target: "
              _ _ _ r2 t2 r3 t3 t' out
              flattened_by_document Hr2 Hr3 Hdoc)
    as (news & b & -> & Hb).
  exists news, [Text ("Flattened->Unified matches target: "
                      ++ PyFmt.str_bool b)].
  split; [done|].
  intros _ _ [= ->] Hnan. rewrite Hb by done. apply list_elem_of_here.
Qed.

Lemma test_conversions_run h out :
  ∃ news lines,
    test_conversions order fs (h, out)
    = (attempt convert_nested_to_unified (fs "data-1.json") ≫= λ _,
       attempt convert_flattened_to_unified (fs "data-2.json"),
       (h ++ news, out ++ lines)) ∧
    (∀ t1 t3,
       fs "data-1.json" = Holds t1 → fs "data-result.json" = Holds t3 →
       truthy t1 = true → truthy t3 = true →
       on_document convert_nested_to_unified t1 = Ok t3 →
       nan_free t3 = true →
       attempt convert_flattened_to_unified (fs "data-2.json") = Ok tt →
       Text "Nested->Unified matches target: True" ∈ lines) ∧
    (∀ t2 t3,
       fs "data-2.json" = Holds t2 → fs "data-result.json" = Holds t3 →
       truthy t2 = true → truthy t3 = true →
       on_document convert_flattened_to_unified t2 = Ok t3 →
       nan_free t3 = true →
       attempt convert_nested_to_unified (fs "data-1.json") = Ok tt →
       Text "Flattened->Unified matches target: True" ∈ lines).
Proof.
  unfold test_conversions. rewrite !bind_print, bind_IO.
  destruct (load_display_spec fs "data-1.json" h
              (((out ++ [Text (PyFmt.nl ++ PyFmt.times "=" 60)])
                ++ [Text "TESTING CONVERSION FUNCTIONS"])
               ++ [Text (PyFmt.times "=" 60)]))
    as (r1 & n1 & l1 & t1 & -> & Hr1 & Hf1).
  rewrite bind_IO.
  match goal with |- context [load_and_display_json _ _ (?h', ?o')] =>
    destruct (load_display_spec fs "data-2.json" h' o')
      as (r2 & n2 & l2 & t2 & -> & Hr2 & Hf2) end.
  apply (repr_app _ n2) in Hr1. apply (repr_mono _ _ (λ _, True)) in Hr2; [|done].
  rewrite (attempt_loaded _ _ t1 Hf1), (attempt_loaded _ _ t2 Hf2).
  (* the nested conversion *)
  rewrite bind_run, (repr_truth _ _ _ _ Hr1). cbv beta iota.
  match goal with |- context [(_ ≫= _) (?h', ?o')] =>
    destruct (conversion_block convert_nested_to_unified
                (PyFmt.nl ++ "--- Converting Nested to Unified ---")
                h' _ r1 t1 o' nested_by_document Hr1)
      as (n3 & l3 & Hb3) end.
  rewrite (bind_result _ _ _ _ _ Hb3). clear Hb3.
  destruct (attempt convert_nested_to_unified (Holds t1)) as [[]|e1] eqn:Ha1.
  2:{ eexists _, _. split; [by rewrite <-!app_assoc|].
      split; [|done]. intros t1' t3 Hf1' _ Ht1 _ Hdoc _ _.
      destruct Hf1 as [Hf1|[Hf1 _]]; [|by destruct (Hf1 t1')].
      assert (t1' = t1) as -> by congruence.
      unfold attempt in Ha1. by rewrite Ht1, Hdoc in Ha1. }
  apply (repr_app _ n3) in Hr1. apply (repr_app _ n3) in Hr2.
  (* the flattened conversion *)
  cbv beta iota. rewrite bind_run, (repr_truth _ _ _ _ Hr2). cbv beta iota.
  match goal with |- context [(_ ≫= _) (?h', ?o')] =>
    destruct (conversion_block convert_flattened_to_unified
                (PyFmt.nl ++ "--- Converting Flattened to Unified ---")
                h' _ r2 t2 o' flattened_by_document Hr2)
      as (n4 & l4 & Hb4) end.
  rewrite (bind_result _ _ _ _ _ Hb4). clear Hb4.
  destruct (attempt convert_flattened_to_unified (Holds t2)) as [[]|e2] eqn:Ha2.
  2:{ eexists _, _. split; [by rewrite <-!app_assoc|].
      split; [done|]. intros t2' t3 Hf2' _ Ht2 _ Hdoc _ _.
      destruct Hf2 as [Hf2|[Hf2 _]]; [|by destruct (Hf2 t2')].
      assert (t2' = t2) as -> by congruence.
      unfold attempt in Ha2. by rewrite Ht2, Hdoc in Ha2. }
  apply (repr_app _ n4) in Hr1. apply (repr_app _ n4) in Hr2.
  (* the target *)
  cbv beta iota. rewrite bind_IO.
  match goal with |- context [load_and_display_json _ _ (?h', ?o')] =>
    destruct (load_display_spec fs "data-result.json" h' o')
      as (r3 & n5 & l5 & t3 & -> & Hr3 & Hf3) end.
  apply (repr_app _ n5) in Hr1. apply (repr_app _ n5) in Hr2.
  apply (repr_mono _ _ (λ _, True)) in Hr3; [|done].
  (* the nested comparison *)
  rewrite bind_run, (repr_truth _ _ _ _ Hr1). cbv beta iota.
  erewrite bind_result by (by eapply truth_and). cbv beta iota.
  match goal with |- context [(_ ≫= _) (?h', ?o')] =>
    destruct (nested_comparison h' _ _ r1 t1 r3 t3 o' Hr1 Hr3 Ha1)
      as (n6 & l6 & Hb6 & Hcmp1) end.
  rewrite (bind_result _ _ _ _ _ Hb6). clear Hb6. cbv beta iota.
  apply (repr_app _ n6) in Hr2. apply (repr_app _ n6) in Hr3.
  (* the flattened comparison *)
  rewrite bind_run, (repr_truth _ _ _ _ Hr2). cbv beta iota.
  erewrite bind_result by (by eapply truth_and). cbv beta iota.
  match goal with |- context [_ (?h', ?o')] =>
    destruct (flattened_comparison h' _ _ r2 t2 r3 t3 o' Hr2 Hr3 Ha2)
      as (n7 & l7 & -> & Hcmp2) end.
  eexists _, _. split; [by rewrite <-!app_assoc|].
  split.
  - intros t1' t3' Hf1' Hf3' Ht1 Ht3 Hdoc Hnan _.
    destruct Hf1 as [Hf1|[Hf1 _]]; [|by destruct (Hf1 t1')].
    destruct Hf3 as [Hf3|[Hf3 _]]; [|by destruct (Hf3 t3')].
    assert (t1' = t1) as -> by congruence.
    assert (t3' = t3) as -> by congruence.
    specialize (Hcmp1 Ht1 Ht3 Hdoc Hnan). rewrite !elem_of_app. tauto.
  - intros t2' t3' Hf2' Hf3' Ht2 Ht3 Hdoc Hnan _.
    destruct Hf2 as [Hf2|[Hf2 _]]; [|by destruct (Hf2 t2')].
    destruct Hf3 as [Hf3|[Hf3 _]]; [|by destruct (Hf3 t3')].
    assert (t2' = t2) as -> by congruence.
    assert (t3' = t3) as -> by congruence.
    specialize (Hcmp2 Ht2 Ht3 Hdoc Hnan). rewrite !elem_of_app. tauto.
Qed.
End conversions_run.

(** ** The script *)

Section script_results.
Context (order : addr → list string) (fs : string → file).
Implicit Types (h : heap) (out : list line) (v r : pyval) (t : json).

Lemma keys_with_elem (f : pyval → bool) (d : gmap string pyval) ks k :
  key_order ks d →
  k ∈ keys_with f d ks ↔ ∃ v, d !! k = Some v ∧ f v = true.
Proof.
  intros [_ Hks]. unfold keys_with. rewrite list_elem_of_filter, Hks.
  split.
  - intros [Hf [v Hv]]. rewrite Hv in Hf. exists v. split; [done|].
    by injection Hf.
  - intros (v & Hv & Hf). rewrite Hv. simpl. rewrite Hf. eauto.
Qed.

Lemma report_lines h d ks filename : 2 ≤ length (report h d ks filename).
Proof. unfold report. rewrite !length_app. simpl. lia. Qed.


Lemma main_result h out :
  (main order fs (h, out)).1
  = (if analyzable (fs "data-1.json") && analyzable (fs "data-2.json")
     then Ok tt else Raise AttributeError) ≫= λ _,
    attempt convert_nested_to_unified (fs "data-1.json") ≫= λ _,
    attempt convert_flattened_to_unified (fs "data-2.json").
Proof.
  unfold main. rewrite bind_IO.
  pose proof (compare_data_formats_result order fs h out) as Hcmp.
  destruct (compare_data_formats order fs (h, out)) as [[[]|e] [h' out']];
    simpl in Hcmp; rewrite <-Hcmp; [|done].
  destruct (test_conversions_run order fs h' out') as (news & lines & -> & _).
  done.
Qed.
End script_results.

(** * The claims *)

(** C1. The scenario of the spec: the flattened record is read from its
    document, converted, and the document of the result is the nested one,
    with the two items in the order of the input. *)
Theorem flattened_reconstruction :
  on_document convert_flattened_to_unified flattened_example
  = Ok unified_example.
Proof. vm_compute. reflexivity. Qed.

(** C2. For every record [r] that is a mapping (its document is an object
    [m]), [convert_nested_to_unified] raises nothing and returns a record
    whose document is [m] with [metadata.format] set to ["unified"] when
    [metadata] is an object, and [m] itself, with no [format] made, when
    [metadata] is absent or is not an object.  The record returned is made
    of new objects only: it is a deep copy. *)
Theorem nested_copy_with_format (h : heap) (r : pyval) (m : gmap string json) :
  (json_dumps r h).1 = Ok (JObj m) →
  ∃ out news,
    convert_nested_to_unified r h = (Ok out, h ++ news) ∧
    separate h news r out ∧
    (∀ md, m !! "metadata" = Some (JObj md) →
       (json_dumps out (h ++ news)).1
       = Ok (JObj (<["metadata" :=
                       JObj (<["format" := JStr "unified"]> md)]> m))) ∧
    ((∀ md, m !! "metadata" ≠ Some (JObj md)) →
       (json_dumps out (h ++ news)).1 = Ok (JObj m)).
Proof.
  intros Hr%json_dumps_inv.
  destruct (convert_nested_spec _ _ _ _ Hr) as (out & news & Hrun & Hout).
  exists out, news. split; [done|]. split; [by eapply separate_intro|].
  pose proof (json_dumps_repr _ _ _ _ Hout) as Hdoc.
  unfold spec_nested_to_unified in Hdoc. split.
  - intros md Hmd. by rewrite Hdoc, Hmd.
  - intros Hmd. rewrite Hdoc.
    destruct (m !! "metadata") as [[| | | | | |md]|]; try done.
    by destruct (Hmd md).
Qed.

Lemma nested_copy_with_format_witness :
  (json_dumps (PRef 2) nested_store).1 = Ok (JObj nested_doc) ∧
  ∃ out news,
    convert_nested_to_unified (PRef 2) nested_store
    = (Ok out, nested_store ++ news) ∧
    separate nested_store news (PRef 2) out ∧
    (∀ md, nested_doc !! "metadata" = Some (JObj md) →
       (json_dumps out (nested_store ++ news)).1
       = Ok (JObj (<["metadata" :=
                       JObj (<["format" := JStr "unified"]> md)]>
                     nested_doc))) ∧
    ((∀ md, nested_doc !! "metadata" ≠ Some (JObj md)) →
       (json_dumps out (nested_store ++ news)).1 = Ok (JObj nested_doc)).
Proof.
  split; [vm_compute; reflexivity|].
  apply (nested_copy_with_format nested_store (PRef 2) nested_doc).
  vm_compute. reflexivity.
Defined.

(** C3, as the code has it.  Neither converter writes to an object that
    existed before the call: the store after the call is the store before,
    followed by the objects the call made.  The record that
    [convert_nested_to_unified] returns shares no container with its input.
    The record that [convert_flattened_to_unified] returns is made of new
    containers and of the values of the seven keys it reads with [get],
    which it places in the output as they are: it shares no container with
    its input when none of these values is a container. *)
Theorem converters_keep_input (h : heap) (a : addr) (d : gmap string pyval)
    (t : json) :
  h !! a = Some (PDict d) →
  (json_dumps (PRef a) h).1 = Ok t →
  (∃ out news,
     convert_nested_to_unified (PRef a) h = (Ok out, h ++ news) ∧
     separate h news (PRef a) out) ∧
  (closed h →
   ∃ news,
     (convert_flattened_to_unified (PRef a) h).2 = h ++ news ∧
     ∀ out,
       (convert_flattened_to_unified (PRef a) h).1 = Ok out →
       (∀ k v, k ∈ scalar_keys → d !! k = Some v → immutable v) →
       separate h news (PRef a) out).
Proof.
  intros Ha Hr%json_dumps_inv. split.
  - inversion Hr as [ | | | | | |? d' m ? Ha' ?]; simplify_eq.
    destruct (convert_nested_spec _ _ _ _ Hr) as (out & news & Hrun & Hout).
    exists out, news. split; [done|]. by eapply separate_intro.
  - intros Hc. rewrite (convert_flattened_run _ _ _ Hc Ha). simpl.
    exists (unified_objects h d). split; [done|].
    unfold unified_result. intros out Hout Himm.
    destruct (parse_items (source_items h d)).2; [done|].
    injection Hout as <-.
    eapply separate_intro; [done|].
    eapply repr_mono;
      [|apply repr_valid,
          (flattened_output_repr h d (λ b, length h ≤ b) (λ _, False))].
    + intros b [? ?]. by split.
    + intros k v Hk Hv. exists (doc_of v). apply immutable_repr. eauto.
    + done.
    + done.
Qed.

Lemma converters_keep_input_witness :
  (flattened_store !! 1 = Some (PDict flattened_dict) ∧
   (json_dumps (PRef 1) flattened_store).1 = Ok flattened_example) ∧
  (∃ out news,
     convert_nested_to_unified (PRef 1) flattened_store
     = (Ok out, flattened_store ++ news) ∧
     separate flattened_store news (PRef 1) out) ∧
  (closed flattened_store →
   ∃ news,
     (convert_flattened_to_unified (PRef 1) flattened_store).2
     = flattened_store ++ news ∧
     ∀ out,
       (convert_flattened_to_unified (PRef 1) flattened_store).1 = Ok out →
       (∀ k v, k ∈ scalar_keys → flattened_dict !! k = Some v → immutable v) →
       separate flattened_store news (PRef 1) out).
Proof.
  split; [split; vm_compute; reflexivity|].
  apply (converters_keep_input
           flattened_store 1 flattened_dict flattened_example);
    vm_compute; reflexivity.
Defined.

(** C3 as stated fails for the flattened converter: for the input
    [{"user_id": [1]}] the list under [user_id] is also [output.user.id];
    appending to it through the output changes the input, and the output
    is not the same document whatever is written to the old objects. *)
Lemma flattened_output_shares_input :
  (shared_id_scenario []).1
  = Ok (JObj {[ "user_id" := JArr [JInt 1] ]},
        JObj {[ "user_id" := JArr [JInt 1; JInt 2] ]}) ∧
  json_loads (JObj {[ "user_id" := JArr [JInt 1] ]}) []
  = (Ok (PRef 1), shared_id_store) ∧
  (convert_flattened_to_unified (PRef 1) shared_id_store).1 = Ok (PRef 2) ∧
  ¬ separate shared_id_store
      (drop 2 (convert_flattened_to_unified (PRef 1) shared_id_store).2)
      (PRef 1) (PRef 2).
Proof.
  split; [vm_compute; reflexivity|].
  split; [vm_compute; reflexivity|].
  split; [vm_compute; reflexivity|].
  intros [_ [t Ht]].
  pose proof (Ht shared_id_store eq_refl) as H1.
  rewrite <-(Ht [PList []; PDict ∅] eq_refl) in H1.
  apply (f_equal (λ r, match r with
                       | Ok (JObj m) =>
                           match m !! "user" with
                           | Some (JObj u) => u !! "id"
                           | _ => None
                           end
                       | _ => None
                       end)) in H1.
  vm_compute in H1. discriminate H1.
Qed.

(** C4. For every record [r] whose [metadata] is a mapping, converting the
    result of [convert_nested_to_unified] once more gives the same document
    as converting once, and in that document [metadata.format] is
    ["unified"] whatever it was in [r]: the document is that of [r] with
    [metadata.format] overwritten. *)
Theorem nested_idempotent (h : heap) (r : pyval) (m md : gmap string json) :
  (json_dumps r h).1 = Ok (JObj m) →
  m !! "metadata" = Some (JObj md) →
  ∃ out1 h1 out2 h2 m' md',
    convert_nested_to_unified r h = (Ok out1, h1) ∧
    convert_nested_to_unified out1 h1 = (Ok out2, h2) ∧
    (json_dumps out1 h1).1 = Ok (JObj m') ∧
    (json_dumps out2 h2).1 = Ok (JObj m') ∧
    m' !! "metadata" = Some (JObj md') ∧
    md' !! "format" = Some (JStr "unified") ∧
    m' = <["metadata" :=
             JObj (<["format" := JStr "unified"]> (delete "format" md))]> m.
Proof.
  intros Hr%json_dumps_inv Hmd.
  destruct (convert_nested_spec _ _ _ _ Hr) as (out1 & n1 & Hrun1 & Hout1).
  unfold spec_nested_to_unified in Hout1. rewrite Hmd in Hout1.
  set (md' := <["format" := JStr "unified"]> md) in *.
  set (m' := <["metadata" := JObj md']> m) in *.
  destruct (convert_nested_spec _ _ _ _ Hout1) as (out2 & n2 & Hrun2 & Hout2).
  unfold spec_nested_to_unified in Hout2.
  assert (m' !! "metadata" = Some (JObj md')) as Hmd'
    by apply lookup_insert_eq.
  rewrite Hmd' in Hout2.
  assert (<["metadata" := JObj (<["format" := JStr "unified"]> md')]> m' = m')
    as Hsame.
  { unfold m', md'. by rewrite !insert_insert_eq. }
  rewrite Hsame in Hout2.
  exists out1, (h ++ n1), out2, ((h ++ n1) ++ n2), m', md'.
  split; [done|]. split; [done|].
  split; [by rewrite (json_dumps_repr _ _ _ _ Hout1)|].
  split; [by rewrite (json_dumps_repr _ _ _ _ Hout2)|].
  split; [done|]. split; [apply lookup_insert_eq|].
  unfold m', md'. by rewrite insert_delete_eq.
Qed.

Lemma nested_idempotent_witness :
  ((json_dumps (PRef 2) nested_store).1 = Ok (JObj nested_doc) ∧
   nested_doc !! "metadata"
   = Some (JObj {[ "version" := JStr "1.0"; "format" := JStr "nested" ]})) ∧
  ∃ out1 h1 out2 h2 m' md',
    convert_nested_to_unified (PRef 2) nested_store = (Ok out1, h1) ∧
    convert_nested_to_unified out1 h1 = (Ok out2, h2) ∧
    (json_dumps out1 h1).1 = Ok (JObj m') ∧
    (json_dumps out2 h2).1 = Ok (JObj m') ∧
    m' !! "metadata" = Some (JObj md') ∧
    md' !! "format" = Some (JStr "unified") ∧
    m' = <["metadata" :=
             JObj (<["format" := JStr "unified"]>
                     (delete "format" {[ "version" := JStr "1.0";
                                         "format" := JStr "nested" ]}))]>
           nested_doc.
Proof.
  split; [split; vm_compute; reflexivity|].
  apply (nested_idempotent nested_store (PRef 2) nested_doc);
    vm_compute; reflexivity.
Defined.

(** C5. An item string whose split on [":"] has not exactly three parts is
    dropped without an error: the turn of the loop on it returns normally and
    leaves the store as it was, so nothing is appended; the whole conversion
    ends the same way and makes the same objects as on the list without that
    element; and for the record [{"items": [s]}] the output has
    [items: []]. *)
Theorem malformed_item_dropped (s : string) :
  length (PyStr.split ":" s) ≠ 3 →
  (∀ unified_data h, convert_item unified_data (PStr s) h = (Ok tt, h)) ∧
  (∀ h a d b pre post,
     closed h → h !! a = Some (PDict d) →
     d !! "items" = Some (PRef b) →
     h !! b = Some (PList (pre ++ PStr s :: post)) →
     ∃ res news,
       convert_flattened_to_unified (PRef a) h = (res, h ++ news) ∧
       convert_flattened_to_unified (PRef a) (<[b := PList (pre ++ post)]> h)
       = (res, <[b := PList (pre ++ post)]> h ++ news)) ∧
  on_document convert_flattened_to_unified (only_items [JStr s])
  = Ok (unified_defaults []).
Proof.
  intros Hs. pose proof (parse_item_malformed s Hs) as Hitem.
  split; [|split].
  - intros u h. unfold convert_item, split, mbind, M_bind. simpl.
    by destruct (PyStr.split ":" s) as [|p0 [|p1 [|p2 [|]]]].
  - intros h a d b pre post Hc Ha Hd Hb.
    assert (a ≠ b) as Hab by (intros ->; congruence).
    assert (closed (<[b := PList (pre ++ post)]> h)) as Hc'.
    { eapply closed_insert_list; [done..|].
      intros x. rewrite !elem_of_app, elem_of_cons. tauto. }
    rewrite (convert_flattened_run h a d) by done.
    rewrite (convert_flattened_run (<[b := PList (pre ++ post)]> h) a d);
      [|done|by rewrite list_lookup_insert_ne].
    exists (unified_result h d), (unified_objects h d). split; [done|].
    assert (parse_items (source_items (<[b := PList (pre ++ post)]> h) d)
            = parse_items (source_items h d)) as Heq.
    { rewrite (source_items_list h d b _ Hd Hb).
      rewrite (source_items_list _ d b (pre ++ post) Hd).
      - by rewrite parse_items_skip.
      - apply list_lookup_insert_eq. by eapply lookup_lt_Some. }
    unfold unified_result, unified_objects.
    by rewrite Heq, length_insert.
  - unfold on_document, mbind, M_bind.
    change (json_loads (only_items [JStr s]) [])
      with (Ok (PRef 1), [PList [PStr s]; PDict {[ "items" := PRef 0 ]}]).
    cbv beta iota.
    rewrite (convert_flattened_run _ 1 {[ "items" := PRef 0 ]});
      [|apply (bool_decide_unpack _); by vm_compute|done].
    unfold unified_result, unified_objects.
    rewrite (source_items_list _ _ 0 [PStr s]) by done.
    assert (parse_items [PStr s] = ([], None)) as ->
      by (cbn [parse_items]; by rewrite Hitem).
    by vm_compute.
Qed.

Lemma malformed_item_dropped_witness :
  length (PyStr.split ":" "bad:item") ≠ 3 ∧
  on_document convert_flattened_to_unified (only_items [JStr "bad:item"])
  = Ok (unified_defaults []).
Proof.
  split; [vm_compute; lia|].
  apply (malformed_item_dropped "bad:item"). vm_compute. lia.
Defined.

(** C6. An item string with exactly three parts whose first part is not an
    integer literal makes the turn of the loop on it raise ValueError (the
    error of [int], FormatError in the spec), and nothing in the converter
    catches it: the call on a record whose items reach that string, the
    elements before it being strings, raises ValueError. *)
Theorem bad_item_id_raises (s p0 p1 p2 : string) :
  PyStr.split ":" s = [p0; p1; p2] →
  PyStr.int p0 = None →
  (∀ unified_data h,
     convert_item unified_data (PStr s) h = (Raise ValueError, h)) ∧
  (∀ h a d b pre post,
     closed h → h !! a = Some (PDict d) →
     d !! "items" = Some (PRef b) →
     h !! b = Some (PList (pre ++ PStr s :: post)) →
     Forall is_str pre →
     (convert_flattened_to_unified (PRef a) h).1 = Raise ValueError) ∧
  on_document convert_flattened_to_unified (only_items [JStr s])
  = Raise ValueError.
Proof.
  intros Hs Hp. pose proof (parse_item_bad_id _ _ _ _ Hs Hp) as Hitem.
  split; [|split].
  - intros u h. unfold convert_item, split, int, mbind, M_bind. simpl.
    by rewrite Hs, Hp.
  - intros h a d b pre post Hc Ha Hd Hb Hpre.
    rewrite (convert_flattened_run h a d) by done. simpl.
    unfold unified_result.
    rewrite (source_items_list h d b _ Hd Hb), parse_items_app.
    destruct (parse_items_strs_result pre Hpre) as [Hn|He].
    + by rewrite Hn, (parse_items_raise _ _ _ Hitem).
    + by rewrite He, He.
  - unfold on_document, mbind, M_bind.
    change (json_loads (only_items [JStr s]) [])
      with (Ok (PRef 1), [PList [PStr s]; PDict {[ "items" := PRef 0 ]}]).
    cbv beta iota.
    rewrite (convert_flattened_run _ 1 {[ "items" := PRef 0 ]});
      [|apply (bool_decide_unpack _); by vm_compute|done].
    unfold unified_result.
    rewrite (source_items_list _ _ 0 [PStr s]) by done.
    by rewrite (parse_items_raise _ _ _ Hitem).
Qed.

Lemma bad_item_id_raises_witness :
  (PyStr.split ":" "x:Task:true" = ["x"; "Task"; "true"] ∧
   PyStr.int "x" = None) ∧
  on_document convert_flattened_to_unified (only_items [JStr "x:Task:true"])
  = Raise ValueError.
Proof.
  split; [split; vm_compute; reflexivity|].
  apply (bad_item_id_raises "x:Task:true" "x" "Task" "true");
    vm_compute; reflexivity.
Defined.

(** C7. On the empty record the converter raises nothing and returns the
    record of the defaults: empty strings, [None] for the user id, the
    format ["unified"] and no item. *)
Theorem flattened_defaults :
  on_document convert_flattened_to_unified (JObj ∅) = Ok (unified_defaults []).
Proof. vm_compute. reflexivity. Qed.

(** C8, as the code has it.  An element of [items] that is not a string has
    no [split]: the turn of the loop on it raises AttributeError, and a call
    on a record whose items hold such an element never returns a record.
    It raises AttributeError, or ValueError when an item string with three
    parts and a first part that is no integer comes before that element. *)
Theorem non_string_item_raises (h : heap) (a b : addr)
    (d : gmap string pyval) (pre post : list pyval) (x : pyval) :
  closed h → h !! a = Some (PDict d) →
  d !! "items" = Some (PRef b) →
  h !! b = Some (PList (pre ++ x :: post)) →
  ¬ is_str x →
  (∀ unified_data h',
     convert_item unified_data x h' = (Raise AttributeError, h')) ∧
  ((convert_flattened_to_unified (PRef a) h).1 = Raise AttributeError ∨
   (convert_flattened_to_unified (PRef a) h).1 = Raise ValueError) ∧
  ((∀ s p0 p1 p2, PStr s ∈ pre → PyStr.split ":" s = [p0; p1; p2] →
      PyStr.int p0 ≠ None) →
   (convert_flattened_to_unified (PRef a) h).1 = Raise AttributeError).
Proof.
  intros Hc Ha Hd Hb Hx. split.
  { intros u h'. by destruct x. }
  rewrite (convert_flattened_run h a d) by done. simpl.
  unfold unified_result.
  rewrite (source_items_list h d b _ Hd Hb), parse_items_app.
  rewrite (parse_items_raise _ _ _ (parse_item_non_str _ Hx)).
  destruct (parse_items pre) as [ds [e|]] eqn:Hpre; simpl.
  - assert ((parse_items pre).2 = Some e) as He by by rewrite Hpre.
    destruct (parse_items_error _ _ He)
      as [->|(-> & s & p0 & p1 & p2 & Hin & Hs & Hp)].
    + split; [by left|done].
    + split; [by right|]. intros Hno. by destruct (Hno _ _ _ _ Hin Hs).
  - split; [by left|done].
Qed.

Lemma non_string_item_raises_witness :
  (closed [PList [PInt 5]; PDict {[ "items" := PRef 0 ]}] ∧
   [PList [PInt 5]; PDict {[ "items" := PRef 0 ]}] !! 1
   = Some (PDict {[ "items" := PRef 0 ]}) ∧
   ({[ "items" := PRef 0 ]} : gmap string pyval) !! "items" = Some (PRef 0) ∧
   [PList [PInt 5]; PDict {[ "items" := PRef 0 ]}] !! 0
   = Some (PList ([] ++ PInt 5 :: [])) ∧
   ¬ is_str (PInt 5)) ∧
  (convert_flattened_to_unified (PRef 1)
     [PList [PInt 5]; PDict {[ "items" := PRef 0 ]}]).1
  = Raise AttributeError.
Proof.
  assert (closed [PList [PInt 5]; PDict {[ "items" := PRef 0 ]}]) as Hc
    by (apply (bool_decide_unpack _); vm_compute; exact I).
  split; [repeat split; (done || tauto)|].
  apply (non_string_item_raises _ 1 0 {[ "items" := PRef 0 ]} [] [] (PInt 5));
    [done|done|done|done|tauto|].
  intros s p0 p1 p2 Hin. by apply elem_of_nil in Hin.
Defined.

(** C8 as stated fails: on [{"items": [5]}] the call raises AttributeError
    and returns no record. *)
Lemma non_string_item_not_skipped :
  on_document convert_flattened_to_unified (only_items [JInt 5])
  = Raise AttributeError ∧
  ¬ ∃ t, on_document convert_flattened_to_unified (only_items [JInt 5]) = Ok t.
Proof.
  split; [vm_compute; reflexivity|]. intros [t Ht]. vm_compute in Ht. done.
Qed.

(** C9. Whenever [convert_flattened_to_unified] returns, on any input
    mapping, it returns a dict with exactly the keys message, timestamp,
    user, metadata and items; [user] is a dict with exactly the keys id,
    name and email; [metadata] is a dict with exactly the keys version,
    format and encoding, and its format is ["unified"]; [items] is a
    list. *)
Theorem flattened_output_shape (h : heap) (a : addr) (d : gmap string pyval)
    (out : pyval) (h' : heap) :
  closed h → h !! a = Some (PDict d) →
  convert_flattened_to_unified (PRef a) h = (Ok out, h') →
  ∃ (n u m i : addr) (top user metadata : gmap string pyval)
    (items : list pyval),
    out = PRef n ∧ h' !! n = Some (PDict top) ∧
    dom top = ({[ "message"; "timestamp"; "user"; "metadata"; "items" ]}
               : gset string) ∧
    top !! "user" = Some (PRef u) ∧ h' !! u = Some (PDict user) ∧
    dom user = ({[ "id"; "name"; "email" ]} : gset string) ∧
    top !! "metadata" = Some (PRef m) ∧ h' !! m = Some (PDict metadata) ∧
    dom metadata = ({[ "version"; "format"; "encoding" ]} : gset string) ∧
    metadata !! "format" = Some (PStr "unified") ∧
    top !! "items" = Some (PRef i) ∧ h' !! i = Some (PList items).
Proof.
  intros Hc Ha. rewrite (convert_flattened_run h a d) by done.
  unfold unified_result.
  destruct (parse_items (source_items h d)) as [ds [e|]] eqn:Hds;
    simpl; [done|].
  intros [= <- <-].
  exists (length h), (length h + 1), (length h + 2), (length h + 3),
    (unified_header d (length h)), (unified_user d), (unified_metadata d),
    (PRef <$> seq (length h + 4) (length ds)).
  unfold unified_objects. rewrite Hds. simpl.
  rewrite lookup_new_0, !lookup_new. simpl.
  unfold unified_header, unified_user, unified_metadata.
  rewrite !dom_insert_L, !dom_singleton_L, dom_empty_L.
  repeat split; try done; set_solver.
Qed.

Lemma flattened_output_shape_witness :
  (closed flattened_store ∧
   flattened_store !! 1 = Some (PDict flattened_dict) ∧
   convert_flattened_to_unified (PRef 1) flattened_store
   = (Ok (PRef 2), (convert_flattened_to_unified (PRef 1) flattened_store).2)) ∧
  ∃ (n u m i : addr) (top user metadata : gmap string pyval)
    (items : list pyval),
    PRef 2 = PRef n ∧
    (convert_flattened_to_unified (PRef 1) flattened_store).2 !! n
    = Some (PDict top) ∧
    dom top = ({[ "message"; "timestamp"; "user"; "metadata"; "items" ]}
               : gset string) ∧
    top !! "user" = Some (PRef u) ∧
    (convert_flattened_to_unified (PRef 1) flattened_store).2 !! u
    = Some (PDict user) ∧
    dom user = ({[ "id"; "name"; "email" ]} : gset string) ∧
    top !! "metadata" = Some (PRef m) ∧
    (convert_flattened_to_unified (PRef 1) flattened_store).2 !! m
    = Some (PDict metadata) ∧
    dom metadata = ({[ "version"; "format"; "encoding" ]} : gset string) ∧
    metadata !! "format" = Some (PStr "unified") ∧
    top !! "items" = Some (PRef i) ∧
    (convert_flattened_to_unified (PRef 1) flattened_store).2 !! i
    = Some (PList items).
Proof.
  assert (closed flattened_store) as Hc
    by (apply (bool_decide_unpack _); vm_compute; exact I).
  assert (convert_flattened_to_unified (PRef 1) flattened_store
          = (Ok (PRef 2),
             (convert_flattened_to_unified (PRef 1) flattened_store).2)) as Hrun
    by (vm_compute; reflexivity).
  split; [split; [done|split; [vm_compute; reflexivity|done]]|].
  apply (flattened_output_shape flattened_store 1 flattened_dict); done.
Defined.

(** C10. The outcome of [convert_flattened_to_unified] depends on the keys
    message, timestamp, user_id, user_name, user_email, metadata_version,
    metadata_encoding and items alone: two records that agree on each of
    them (absent in both, or the same document in both) make the converter
    end the same way, with the same exception or with outputs that are the
    same document, whatever other keys they hold. *)
Theorem flattened_reads_eight_keys (h1 h2 : heap) (a1 a2 : addr)
    (d1 d2 : gmap string pyval) :
  closed h1 → closed h2 →
  h1 !! a1 = Some (PDict d1) → h2 !! a2 = Some (PDict d2) →
  (∀ k, k ∈ input_keys → same_field h1 d1 h2 d2 k) →
  same_outcome (convert_flattened_to_unified (PRef a1) h1)
               (convert_flattened_to_unified (PRef a2) h2).
Proof.
  intros Hc1 Hc2 Ha1 Ha2 Hsame.
  rewrite (convert_flattened_run h1 a1 d1), (convert_flattened_run h2 a2 d2)
    by done.
  unfold same_outcome, unified_result. simpl.
  rewrite (source_items_same_doc h1 h2 d1 d2) by (apply Hsame; in_keys).
  destruct (parse_items (source_items h2 d2)).2; [done|].
  exists (unified_doc h1 d1). split.
  - apply (unified_output_doc h1 a1 d1); [done..|].
    intros k v Hk Hv. eapply same_field_doc; [|done].
    apply Hsame. unfold input_keys. apply elem_of_app. by left.
  - rewrite (unified_doc_same h1 h2 d1 d2) by done.
    apply (unified_output_doc h2 a2 d2); [done..|].
    intros k v Hk Hv. eapply same_field_doc; [|done].
    apply same_field_sym, Hsame. unfold input_keys. apply elem_of_app. by left.
Qed.

Lemma flattened_reads_eight_keys_witness :
  (closed flattened_store ∧ closed other_store ∧
   flattened_store !! 1 = Some (PDict flattened_dict) ∧
   other_store !! 0 = Some (PDict other_dict) ∧
   ∀ k, k ∈ input_keys →
     same_field flattened_store flattened_dict other_store other_dict k) ∧
  same_outcome (convert_flattened_to_unified (PRef 1) flattened_store)
               (convert_flattened_to_unified (PRef 0) other_store).
Proof.
  assert (closed flattened_store) as Hc1
    by (apply (bool_decide_unpack _); vm_compute; exact I).
  assert (closed other_store) as Hc2
    by (apply (bool_decide_unpack _); vm_compute; exact I).
  assert (∀ k, k ∈ input_keys →
    same_field flattened_store flattened_dict other_store other_dict k) as Hk.
  { intros k Hk. unfold input_keys, scalar_keys in Hk. simpl in Hk.
    repeat (apply elem_of_cons in Hk as [->|Hk]);
      [unfold same_field; vm_compute; eexists; split; reflexivity..|].
    by apply elem_of_nil in Hk. }
  split; [repeat split; (done || (vm_compute; reflexivity))|].
  apply (flattened_reads_eight_keys flattened_store other_store 1 0
           flattened_dict other_dict); (done || (vm_compute; reflexivity)).
Defined.

(** * Further properties of the converters *)

(** X1. [convert_nested_to_unified] on a value that is no container: the
    copy is the value itself, and the test ['metadata' in unified_data]
    raises TypeError on None, a bool, an int and a float.  On a string the
    test is a substring test: a string without ["metadata"] in it is
    returned as it is, and on a string with ["metadata"] in it the
    subscript [unified_data['metadata']] raises TypeError.  Nothing is
    added to the store. *)
Theorem nested_on_scalar (h : heap) (v : pyval) :
  immutable v →
  convert_nested_to_unified v h
  = (match v with
     | PStr s => if is_substring "metadata" s then Raise TypeError else Ok v
     | _ => Raise TypeError
     end, h).
Proof. apply convert_nested_immutable. Qed.

Lemma nested_on_scalar_witness :
  immutable (PStr "no metadata") ∧
  convert_nested_to_unified (PStr "no metadata") [] = (Raise TypeError, []).
Proof.
  split; [exact I|]. apply (nested_on_scalar [] (PStr "no metadata")). exact I.
Defined.

(** X2. [convert_nested_to_unified] on a list (a value whose document is an
    array): the list is copied, and the test ['metadata' in unified_data]
    looks for the string among the elements.  When it is there the
    subscript [unified_data['metadata']] raises TypeError; when it is not,
    the copy is returned: the same document, in new objects that share
    nothing with the input. *)
Theorem nested_on_array (h : heap) (r : pyval) (ts : list json) :
  (json_dumps r h).1 = Ok (JArr ts) →
  ∃ out news,
    (JStr "metadata" ∈ ts →
     convert_nested_to_unified r h = (Raise TypeError, h ++ news)) ∧
    (JStr "metadata" ∉ ts →
     convert_nested_to_unified r h = (Ok out, h ++ news) ∧
     (json_dumps out (h ++ news)).1 = Ok (JArr ts) ∧
     separate h news r out).
Proof.
  intros Hr%json_dumps_inv.
  destruct (convert_nested_array _ _ _ _ Hr) as (out & news & Hout & Hyes & Hno).
  exists out, news. split; [done|]. intros Hnin. split; [auto|].
  split; [by rewrite (json_dumps_repr _ _ _ _ Hout)|].
  by eapply separate_intro.
Qed.

Lemma nested_on_array_witness :
  (json_dumps (PRef 0) [PList [PStr "metadata"; PInt 1]]).1
  = Ok (JArr [JStr "metadata"; JInt 1]) ∧
  ∃ out news,
    (JStr "metadata" ∈ [JStr "metadata"; JInt 1] →
     convert_nested_to_unified (PRef 0) [PList [PStr "metadata"; PInt 1]]
     = (Raise TypeError, [PList [PStr "metadata"; PInt 1]] ++ news)) ∧
    (JStr "metadata" ∉ [JStr "metadata"; JInt 1] →
     convert_nested_to_unified (PRef 0) [PList [PStr "metadata"; PInt 1]]
     = (Ok out, [PList [PStr "metadata"; PInt 1]] ++ news) ∧
     (json_dumps out ([PList [PStr "metadata"; PInt 1]] ++ news)).1
     = Ok (JArr [JStr "metadata"; JInt 1]) ∧
     separate [PList [PStr "metadata"; PInt 1]] news (PRef 0) out).
Proof.
  split; [reflexivity|].
  apply (nested_on_array [PList [PStr "metadata"; PInt 1]] (PRef 0)).
  reflexivity.
Defined.

(** X3. A circular input: when the value given to
    [convert_nested_to_unified] is, or holds at any depth, a container that
    is inside itself, [json.dumps] raises ValueError (circular reference)
    and the converter with it; nothing is added to the store. *)
Theorem nested_circular_raises (h : heap) (r a : addr) :
  closed h → r < length h → r = a ∨ inside h r a → inside h a a →
  convert_nested_to_unified (PRef r) h = (Raise ValueError, h).
Proof. apply convert_nested_circular. Qed.

Lemma nested_circular_raises_witness :
  closed circular_store ∧ 1 < length circular_store ∧
  inside circular_store 1 0 ∧ inside circular_store 0 0 ∧
  convert_nested_to_unified (PRef 1) circular_store
  = (Raise ValueError, circular_store).
Proof.
  assert (closed circular_store) as Hc
    by (apply (bool_decide_unpack _); vm_compute; exact I).
  assert (inside circular_store 1 0) as H10.
  { eapply inside_here; [reflexivity|]. by exists "metadata". }
  assert (inside circular_store 0 0) as H00.
  { eapply inside_here; [reflexivity|]. by exists "self". }
  split; [done|]. split; [simpl; lia|]. split; [done|]. split; [done|].
  apply (nested_circular_raises circular_store 1 0);
    [done|simpl; lia|by right|done].
Defined.


(** * Further properties of the flattened converter *)

(** X5. [convert_flattened_to_unified] on a value that is no dict (None, a
    number, a string, a list): the first [flattened_data.get] raises
    AttributeError, after the empty dict of line 64 has been made. *)
Theorem flattened_non_mapping_raises (h : heap) (v : pyval) :
  val_closed (length h) v → (isinstance_dict v h).1 = Ok false →
  convert_flattened_to_unified v h = (Raise AttributeError, h ++ [PDict ∅]).
Proof. apply convert_flattened_non_mapping. Qed.

Lemma flattened_non_mapping_raises_witness :
  (val_closed (length [PList [PInt 1]]) (PRef 0) ∧
   (isinstance_dict (PRef 0) [PList [PInt 1]]).1 = Ok false) ∧
  convert_flattened_to_unified (PRef 0) [PList [PInt 1]]
  = (Raise AttributeError, [PList [PInt 1]] ++ [PDict ∅]).
Proof.
  split; [split; [simpl; lia|reflexivity]|].
  apply (flattened_non_mapping_raises [PList [PInt 1]] (PRef 0));
    [simpl; lia|reflexivity].
Defined.

(** X6. The only exceptions that [convert_flattened_to_unified] raises are
    AttributeError and ValueError: the subscript [flattened_data['items']],
    made after the test ['items' in flattened_data], never raises KeyError,
    and no operation raises TypeError. *)
Theorem flattened_raises_only (h : heap) (v : pyval) (e : exn) :
  closed h → val_closed (length h) v →
  (convert_flattened_to_unified v h).1 = Raise e →
  e = AttributeError ∨ e = ValueError.
Proof. apply convert_flattened_raises. Qed.

Lemma flattened_raises_only_witness :
  (closed [PList [PStr "x:Task:true"]; PDict {[ "items" := PRef 0 ]}] ∧
   val_closed
     (length [PList [PStr "x:Task:true"]; PDict {[ "items" := PRef 0 ]}])
     (PRef 1) ∧
   (convert_flattened_to_unified (PRef 1)
      [PList [PStr "x:Task:true"]; PDict {[ "items" := PRef 0 ]}]).1
   = Raise ValueError) ∧
  (ValueError = AttributeError ∨ ValueError = ValueError).
Proof.
  assert (closed [PList [PStr "x:Task:true"]; PDict {[ "items" := PRef 0 ]}])
    as Hc by (apply (bool_decide_unpack _); vm_compute; exact I).
  split; [split; [done|split; [simpl; lia|vm_compute; reflexivity]]|].
  apply (flattened_raises_only
           [PList [PStr "x:Task:true"]; PDict {[ "items" := PRef 0 ]}]
           (PRef 1) ValueError);
    [done|simpl; lia|vm_compute; reflexivity].
Defined.

(** X7. The flattened converter on documents, for a record whose [items]
    is an array of strings: the call raises the exception of the first item
    string that raises one, and otherwise returns the record with
    [message] and [timestamp] copied, [user] and [metadata] put together
    from the prefixed keys, every absent key replaced by its default (the
    empty string, null for [user_id]), [metadata.format] set to
    ["unified"], and the items made from the item strings in their
    order. *)
Theorem flattened_record (m : gmap string json) (ss : list string) :
  m !! "items" = Some (JArr (JStr <$> ss)) →
  on_document convert_flattened_to_unified (JObj m)
  = match (parse_items (PStr <$> ss)).2 with
    | Some e => Raise e
    | None =>
        Ok (unified_record m (item_doc <$> (parse_items (PStr <$> ss)).1))
    end.
Proof. apply on_document_flattened_strs. Qed.

Lemma flattened_record_witness :
  ({[ "user_name" := JStr "Ann"; "items" := JArr (JStr <$> ["7:Task:TRUE"]) ]}
     : gmap string json) !! "items"
  = Some (JArr (JStr <$> ["7:Task:TRUE"])) ∧
  on_document convert_flattened_to_unified
    (JObj {[ "user_name" := JStr "Ann";
             "items" := JArr (JStr <$> ["7:Task:TRUE"]) ]})
  = Ok (JObj {[ "message" := JStr "";
                "timestamp" := JStr "";
                "user" := JObj {[ "id" := JNull;
                                  "name" := JStr "Ann";
                                  "email" := JStr "" ]};
                "metadata" := JObj {[ "version" := JStr "";
                                      "format" := JStr "unified";
                                      "encoding" := JStr "" ]};
                "items" := JArr [ JObj {[ "id" := JInt 7;
                                          "title" := JStr "Task";
                                          "active" := JBool true ]} ] ]}).
Proof.
  split; [reflexivity|].
  rewrite (flattened_record
             {[ "user_name" := JStr "Ann";
                "items" := JArr (JStr <$> ["7:Task:TRUE"]) ]} ["7:Task:TRUE"])
    by reflexivity.
  vm_compute. reflexivity.
Defined.

(** X8. When [items] is absent from the record, or is there and holds no
    array (a string, a number, an object, null), the loop is not entered:
    the call raises nothing and returns the record with no item. *)
Theorem flattened_items_not_a_list (m : gmap string json) :
  (∀ ts, m !! "items" ≠ Some (JArr ts)) →
  on_document convert_flattened_to_unified (JObj m)
  = Ok (unified_record m []).
Proof. apply on_document_flattened_no_list. Qed.

Lemma flattened_items_not_a_list_witness :
  (∀ ts, ({[ "items" := JStr "1:a:true" ]} : gmap string json) !! "items"
         ≠ Some (JArr ts)) ∧
  on_document convert_flattened_to_unified
    (JObj {[ "items" := JStr "1:a:true" ]})
  = Ok (unified_defaults []).
Proof.
  split; [done|].
  rewrite (flattened_items_not_a_list {[ "items" := JStr "1:a:true" ]})
    by done.
  reflexivity.
Defined.

(** X9. A record that [convert_flattened_to_unified] returns is left as it
    is by [convert_nested_to_unified]: its [metadata] is a mapping whose
    format is ["unified"] already, so the nested converter returns a copy
    with the same document. *)
Theorem nested_keeps_unified (t_in t : json) :
  on_document convert_flattened_to_unified t_in = Ok t →
  on_document convert_nested_to_unified t = Ok t.
Proof.
  intros (m & ds & -> & ->)%on_document_flattened_shape.
  unfold unified_record. by rewrite on_document_nested.
Qed.

Lemma nested_keeps_unified_witness :
  on_document convert_flattened_to_unified flattened_example
  = Ok unified_example ∧
  on_document convert_nested_to_unified unified_example = Ok unified_example.
Proof.
  split; [vm_compute; reflexivity|].
  apply (nested_keeps_unified flattened_example unified_example).
  vm_compute. reflexivity.
Defined.

(** X10. [convert_flattened_to_unified] is not meant for its own output.
    Given a record it has returned, it raises AttributeError when the
    record has an item (the items are mappings now, and have no [split]);
    when the record has no item it returns a record that keeps [message]
    and [timestamp] and has the defaults everywhere else, the values under
    [user] and [metadata] being read under their prefixed names only. *)
Theorem flattened_twice (t_in t : json) :
  on_document convert_flattened_to_unified t_in = Ok t →
  ∃ m its,
    t_in = JObj m ∧ t = unified_record m its ∧
    (its ≠ [] →
     on_document convert_flattened_to_unified t = Raise AttributeError) ∧
    (its = [] →
     on_document convert_flattened_to_unified t
     = Ok (unified_record
             {[ "message" := default (JStr "") (m !! "message");
                "timestamp" := default (JStr "") (m !! "timestamp") ]} [])).
Proof.
  intros (m & ds & -> & ->)%on_document_flattened_shape.
  exists m, (item_doc <$> ds). split; [done|]. split; [done|].
  assert (on_document convert_flattened_to_unified
            (unified_record m (item_doc <$> ds))
          = match ds with
            | [] =>
                Ok (unified_record
                      {[ "message" := default (JStr "") (m !! "message");
                         "timestamp" :=
                           default (JStr "") (m !! "timestamp") ]} [])
            | _ => Raise AttributeError
            end) as ->.
  { unfold unified_record at 1.
    destruct (on_document_flattened (unified_fields m (item_doc <$> ds)))
      as (h & a & d & _ & _ & Hdm & ->).
    pose proof (Hdm "items") as Hk.
    change (unified_fields m (item_doc <$> ds) !! "items")
      with (Some (JArr (item_doc <$> ds))) in Hk.
    unfold source_items.
    destruct (d !! "items") as [v|]; inversion Hk as [? ? Hv|]; subst.
    inv_repr Hv. rewrite Hlk. destruct ds as [|it ds]; simpl in Hall.
    - by inversion Hall; subst.
    - inversion Hall as [|x ? vs' ? Hx]; subst. by inv_repr Hx. }
  by destruct ds.
Qed.

Lemma flattened_twice_witness :
  on_document convert_flattened_to_unified flattened_example
  = Ok unified_example ∧
  on_document convert_flattened_to_unified unified_example
  = Raise AttributeError.
Proof.
  split; [vm_compute; reflexivity|].
  destruct (flattened_twice flattened_example unified_example)
    as (m & its & Hin & Hout & Hsome & _); [vm_compute; reflexivity|].
  apply Hsome. intros ->. apply (f_equal items_of) in Hout.
  rewrite items_of_record in Hout. vm_compute in Hout. discriminate Hout.
Defined.

(** X11. The items are converted one after the other, in their order: the
    items made from a list of item strings followed by another are the
    items made from the first followed by the items made from the second;
    and an exception raised on the first list is raised on the two, as is
    one raised on the second list when the first raises none. *)
Theorem items_concatenate (ss1 ss2 : list string) :
  (∀ e,
     on_document convert_flattened_to_unified (only_items (JStr <$> ss1))
     = Raise e →
     on_document convert_flattened_to_unified
       (only_items (JStr <$> (ss1 ++ ss2)))
     = Raise e) ∧
  (∀ its1,
     on_document convert_flattened_to_unified (only_items (JStr <$> ss1))
     = Ok (unified_defaults its1) →
     (∀ its2,
        on_document convert_flattened_to_unified (only_items (JStr <$> ss2))
        = Ok (unified_defaults its2) →
        on_document convert_flattened_to_unified
          (only_items (JStr <$> (ss1 ++ ss2)))
        = Ok (unified_defaults (its1 ++ its2))) ∧
     (∀ e,
        on_document convert_flattened_to_unified (only_items (JStr <$> ss2))
        = Raise e →
        on_document convert_flattened_to_unified
          (only_items (JStr <$> (ss1 ++ ss2)))
        = Raise e)).
Proof.
  rewrite !on_document_items, fmap_app, parse_items_app.
  destruct (parse_items (PStr <$> ss1)) as [ds1 [e1|]] eqn:H1; simpl.
  - split; [done|]. intros its1 [=].
  - split; [done|]. intros its1 Hits1.
    apply (f_equal (λ r, match r with Ok t => items_of t | _ => None end))
      in Hits1.
    rewrite !items_of_defaults in Hits1. injection Hits1 as <-.
    destruct (parse_items (PStr <$> ss2)) as [ds2 [e2|]]; simpl.
    + split; [done|]. by intros e [= <-].
    + split; [|done]. intros its2 Hits2.
      apply (f_equal (λ r, match r with Ok t => items_of t | _ => None end))
        in Hits2.
      rewrite !items_of_defaults in Hits2. injection Hits2 as <-.
      by rewrite fmap_app.
Qed.

(** X12. An item string is dropped exactly when it has not two colons in
    it: the record whose only item is the string [s] converts to the record
    with no item if and only if the number of colons of [s] is not 2. *)
Theorem item_dropped_iff_not_two_colons (s : string) :
  on_document convert_flattened_to_unified (only_items [JStr s])
  = Ok (unified_defaults [])
  ↔ occurrences ":" s ≠ 2.
Proof.
  rewrite on_document_item, <-parse_item_dropped.
  by destruct (parse_item (PStr s)) as [[it|]|e].
Qed.

(** X13. The item format read back: for an id part [a] that [int] reads
    as [z], a title [b] and a third part [c], none of them with a colon in
    it, the item string ["a:b:c"] is converted to the item with id [z],
    the title [b] as it is written (spaces kept), and [active] true exactly
    when [c] in lower case is ["true"]. *)
Theorem item_string_converted (a b c : string) (z : Z) :
  occurrences ":" a = 0 → occurrences ":" b = 0 → occurrences ":" c = 0 →
  PyStr.int a = Some z →
  on_document convert_flattened_to_unified
    (only_items [JStr (item_string a b c)])
  = Ok (unified_defaults
          [ JObj {[ "id" := JInt z;
                    "title" := JStr b;
                    "active" :=
                      JBool (String.eqb (PyStr.lower c) "true") ]} ]).
Proof.
  intros Ha Hb Hc Hz.
  by rewrite on_document_item, (parse_item_string a b c z).
Qed.

Lemma item_string_converted_witness :
  (occurrences ":" " -1_0 " = 0 ∧ occurrences ":" " Task A " = 0 ∧
   occurrences ":" "True" = 0 ∧ PyStr.int " -1_0 " = Some (-10)%Z) ∧
  on_document convert_flattened_to_unified
    (only_items [JStr " -1_0 : Task A :True"])
  = Ok (unified_defaults
          [ JObj {[ "id" := JInt (-10);
                    "title" := JStr " Task A ";
                    "active" := JBool true ]} ]).
Proof.
  split; [repeat split; reflexivity|].
  change " -1_0 : Task A :True" with (item_string " -1_0 " " Task A " "True").
  rewrite (item_string_converted " -1_0 " " Task A " "True" (-10))
    by reflexivity.
  reflexivity.
Defined.

(** X14. The flag [active] is read without regard to case and with nothing
    stripped: [parts[2].lower() == 'true'] holds exactly for the sixteen
    spellings of ["true"] in upper and lower case. *)
Theorem active_spellings (c : string) :
  String.eqb (PyStr.lower c) "true" = true ↔ c ∈ true_spellings.
Proof. rewrite String.eqb_eq. apply lower_true. Qed.



(** * Properties of the script around the converters *)

(** X16. [analyze_structure] prints nothing and returns exactly when its
    data is false as a condition: None (what [load_and_display_json]
    returns when it finds no document), False, a zero, the empty string,
    the empty list or the empty dict.  On every other value it prints at
    least the heading. *)
Theorem analyze_structure_silent (order : addr → list string) (data : pyval)
    (filename : string) (h : heap) (out : list line) :
  (truth data h).1 = Ok false
  ↔ analyze_structure order data filename (h, out) = (Ok tt, (h, out)).
Proof.
  split; [apply analyze_structure_falsy|]. intros Hrun.
  destruct (truth_cases data h) as [?|Hv]; [done|].
  destruct (is_dict h data) eqn:Hd.
  - destruct data as [| | | | |a]; try done. simpl in Hd.
    destruct (h !! a) as [[l|d]|] eqn:Ha; try done.
    rewrite (truth_dict _ _ _ Ha) in Hv.
    assert (d ≠ ∅) by (intros ->; by rewrite bool_decide_true in Hv).
    rewrite (analyze_structure_dict order a d) in Hrun by done.
    injection Hrun as Hout. apply (f_equal length) in Hout.
    rewrite length_app in Hout.
    pose proof (report_lines h d (order a) filename). lia.
  - by rewrite analyze_structure_no_dict in Hrun.
Qed.

(** X17. On data that is true as a condition and is no dict (a list that
    is not empty, a string, a number, True), [analyze_structure] prints the
    heading and then raises AttributeError, at [data.keys()]. *)
Theorem analyze_structure_not_a_dict (order : addr → list string)
    (data : pyval) (filename : string) (h : heap) (out : list line) :
  (truth data h).1 = Ok true → (isinstance_dict data h).1 = Ok false →
  analyze_structure order data filename (h, out)
  = (Raise AttributeError,
     (h, out ++ [Text (PyFmt.nl ++ "--- Structure Analysis for "
                       ++ filename ++ " ---")])).
Proof.
  intros Hv Hd. apply analyze_structure_no_dict; [done|].
  rewrite isinstance_dict_run in Hd. by injection Hd.
Qed.

Lemma analyze_structure_not_a_dict_witness :
  ((truth (PRef 0) [PList [PInt 1]]).1 = Ok true ∧
   (isinstance_dict (PRef 0) [PList [PInt 1]]).1 = Ok false) ∧
  analyze_structure written_order (PRef 0) "data-1.json"
    ([PList [PInt 1]], [])
  = (Raise AttributeError,
     ([PList [PInt 1]],
      [Text (PyFmt.nl ++ "--- Structure Analysis for data-1.json ---")])).
Proof.
  split; [split; reflexivity|].
  apply (analyze_structure_not_a_dict written_order (PRef 0) "data-1.json"
           [PList [PInt 1]] []); reflexivity.
Defined.

(** X18. On a dict that is not empty, [analyze_structure] returns, leaves
    the store as it is, and prints the heading, the keys in the order of
    the dict, then the line of the nested objects when there is one and
    the line of the arrays when there is one.  A key is on the line of the
    nested objects exactly when its value is a dict and on the line of the
    arrays exactly when its value is a list, so no key is on both. *)
Theorem analyze_structure_report (order : addr → list string) (a : addr)
    (d : gmap string pyval) (filename : string) (h : heap)
    (out : list line) :
  h !! a = Some (PDict d) → d ≠ ∅ → key_order (order a) d →
  analyze_structure order (PRef a) filename (h, out)
  = (Ok tt, (h, out ++ report h d (order a) filename)) ∧
  (∀ k, k ∈ keys_with (is_dict h) d (order a)
        ↔ ∃ v, d !! k = Some v ∧ (isinstance_dict v h).1 = Ok true) ∧
  (∀ k, k ∈ keys_with (is_list h) d (order a)
        ↔ ∃ v, d !! k = Some v ∧ (isinstance_list v h).1 = Ok true) ∧
  (∀ k, k ∈ keys_with (is_dict h) d (order a) →
        k ∉ keys_with (is_list h) d (order a)).
Proof.
  intros Ha Hd Hks. split; [by apply analyze_structure_dict|].
  split; [|split].
  - intros k. rewrite keys_with_elem by done.
    split; intros (v & ? & Hv); exists v; (split; [done|]).
    + by rewrite isinstance_dict_run, Hv.
    + rewrite isinstance_dict_run in Hv. by injection Hv.
  - intros k. rewrite keys_with_elem by done.
    split; intros (v & ? & Hv); exists v; (split; [done|]).
    + by rewrite isinstance_list_run, Hv.
    + rewrite isinstance_list_run in Hv. by injection Hv.
  - intros k. rewrite !keys_with_elem by done.
    intros (v & Hv & Hdict) (v' & Hv' & Hlist).
    rewrite Hv in Hv'. injection Hv' as <-.
    destruct v as [| | | | |b]; try done. simpl in *.
    by destruct (h !! b) as [[l|d']|].
Qed.

Lemma analyze_structure_report_witness :
  (nested_store !! 2
   = Some (PDict {[ "message" := PStr "hi"; "metadata" := PRef 0;
                    "items" := PRef 1 ]}) ∧
   ({[ "message" := PStr "hi"; "metadata" := PRef 0; "items" := PRef 1 ]}
      : gmap string pyval) ≠ ∅ ∧
   key_order (written_order 2)
     {[ "message" := PStr "hi"; "metadata" := PRef 0; "items" := PRef 1 ]}) ∧
  analyze_structure written_order (PRef 2) "data-1.json" (nested_store, [])
  = (Ok tt,
     (nested_store,
      [ Text (PyFmt.nl ++ "--- Structure Analysis for data-1.json ---");
        Text "Top-level keys: ['message', 'metadata', 'items']";
        Text "Nested objects: ['metadata']";
        Text "Arrays: ['items']" ])).
Proof.
  assert (key_order (written_order 2)
            ({[ "message" := PStr "hi"; "metadata" := PRef 0;
                "items" := PRef 1 ]} : gmap string pyval)) as Hks.
  { split; [apply (bool_decide_unpack _); by vm_compute|].
    intros k. unfold written_order. split.
    - intros Hk.
      repeat (apply elem_of_cons in Hk as [->|Hk]; [by eexists|]).
      by apply elem_of_nil in Hk.
    - intros [v Hv]. revert Hv. rewrite !lookup_insert, lookup_singleton.
      repeat case_decide; subst; try done; intros _; in_keys. }
  split; [split; [reflexivity|split; [done|exact Hks]]|].
  destruct (analyze_structure_report written_order 2
              {[ "message" := PStr "hi"; "metadata" := PRef 0;
                 "items" := PRef 1 ]} "data-1.json" nested_store [])
    as [-> _]; [reflexivity|done|exact Hks|]. reflexivity.
Defined.

(** X19. Whatever it is given, [analyze_structure] writes nothing to the
    store, prints at most four lines, and either returns or raises
    AttributeError. *)
Theorem analyze_structure_effects (order : addr → list string) (data : pyval)
    (filename : string) (h : heap) (out : list line) :
  ∃ lines,
    (analyze_structure order data filename (h, out)).2 = (h, out ++ lines) ∧
    length lines ≤ 4 ∧
    ((analyze_structure order data filename (h, out)).1 = Ok tt ∨
     (analyze_structure order data filename (h, out)).1
     = Raise AttributeError).
Proof. apply analyze_structure_outcome. Qed.

(** X20. When the file holds a document, [load_and_display_json] prints
    the name of the file and the document, and returns a value whose
    document is the one of the file and which is made of new objects only:
    [json.dumps] of it is that document whatever the objects that were in
    the store before hold. *)
Theorem load_returns_document (fs : string → file) (filename : string)
    (t : json) (h : heap) (out : list line) :
  fs filename = Holds t →
  ∃ data news,
    load_and_display_json fs filename (h, out)
    = (Ok data,
       (h ++ news,
        out ++ [Text (PyFmt.nl ++ "=== " ++ filename ++ " ==="); Dump t])) ∧
    ∀ h0, length h0 = length h → (json_dumps data (h0 ++ news)).1 = Ok t.
Proof.
  intros Hfs.
  destruct (load_display_holds fs filename t h out Hfs)
    as (data & news & Hrun & Hr).
  exists data, news. split; [done|]. intros h0 Hlen.
  rewrite (json_dumps_repr (h0 ++ news)
             (within (length h) (length (h ++ news))) data t); [done|].
  eapply repr_transfer; [|done]. intros a [? ?]. split; [done|].
  rewrite !lookup_app_r by lia. by rewrite Hlen.
Qed.

Lemma load_returns_document_witness :
  flattened_files "data-2.json" = Holds flattened_example ∧
  ∃ data news,
    load_and_display_json flattened_files "data-2.json" ([], [])
    = (Ok data,
       ([] ++ news,
        [] ++ [Text (PyFmt.nl ++ "=== " ++ "data-2.json" ++ " ===");
               Dump flattened_example])) ∧
    ∀ h0, length h0 = length ([] : heap) →
      (json_dumps data (h0 ++ news)).1 = Ok flattened_example.
Proof.
  split; [reflexivity|].
  apply (load_returns_document flattened_files "data-2.json"
           flattened_example [] []).
  reflexivity.
Defined.


(** X22. [compare_data_formats] raises, and then AttributeError, exactly
    when [data-1.json] or [data-2.json] holds a document that is true as
    a condition and is no object: an array that is not empty, a string
    that is not empty, a number that is not zero, or [true].  When the
    files hold objects or such documents as [null], or are missing or
    hold no JSON, it returns. *)
Theorem compare_data_formats_raises (order : addr → list string)
    (fs : string → file) (h : heap) (out : list line) :
  (compare_data_formats order fs (h, out)).1
  = if analyzable (fs "data-1.json") && analyzable (fs "data-2.json")
    then Ok tt else Raise AttributeError.
Proof. apply compare_data_formats_result. Qed.

(** X23. [test_conversions] raises exactly when one of its two first
    conversions does: each is made when its file holds a document that is
    true as a condition, and raises what the converter raises on that
    document.  The second call of each converter, on the same data, ends as
    the first did, and the comparisons with the target raise nothing. *)
Theorem test_conversions_result (order : addr → list string)
    (fs : string → file) (h : heap) (out : list line) :
  (test_conversions order fs (h, out)).1
  = attempt convert_nested_to_unified (fs "data-1.json") ≫= λ _,
    attempt convert_flattened_to_unified (fs "data-2.json").
Proof.
  destruct (test_conversions_run order fs h out) as (news & lines & -> & _).
  done.
Qed.





(** X26. The script runs [compare_data_formats] and then
    [test_conversions]: it raises AttributeError when the analysis of one
    of the two files does, before any conversion is made; otherwise it ends
    as the two conversions do. *)
Theorem main_outcome (order : addr → list string) (fs : string → file)
    (h : heap) (out : list line) :
  (main order fs (h, out)).1
  = (if analyzable (fs "data-1.json") && analyzable (fs "data-2.json")
     then Ok tt else Raise AttributeError) ≫= λ _,
    attempt convert_nested_to_unified (fs "data-1.json") ≫= λ _,
    attempt convert_flattened_to_unified (fs "data-2.json").
Proof. apply main_result. Qed.
